(** * Materialized-views sample and Tasks endpoint: a shallow embedding

    The Python sources embedded here are
    - [samples/materialize_workbooks.py]: the command-line sample that
      resolves workbooks, walks the project tree, and attaches, detaches and
      creates materialized-views schedules;
    - [tableauserverclient/server/endpoint/tasks_endpoint.py]: the [Tasks]
      REST endpoint.

    Python values are modelled by records and inductive types, exceptions by
    the result type [res], console and network effects by an explicit world
    that every effectful function threads through ([M]).  The remote server
    is an oracle: its answer to a request is a function of the requests it
    has received so far. *)

From Stdlib Require Import ZArith QArith Lia String Ascii List DecimalString.
From stdpp Require Import base option list gmap strings.

Open Scope string_scope.
Open Scope list_scope.
Open Scope stdpp_scope.

(** ** Exceptions and results *)

(** The Python exceptions the embedded code can raise.  [RecursionError] is
    what the interpreter raises when a recursion uses up its stack,
    [EndpointUnavailableError] what the [@api] decorator of the endpoints
    raises for a server that is too old, [SystemExit] how the argument parser
    leaves on an error. *)
Inductive exn : Type :=
| ServerResponseError (summary detail : string)
| ValueError (msg : string)
| TypeError
| KeyError (key : string)
| AttributeError
| IndexError
| EOFError
| RecursionError
| EndpointUnavailableError
| SystemExit.

Inductive res (A : Type) : Type :=
| Ok (a : A)
| Raise (e : exn).
Arguments Ok {A} a.
Arguments Raise {A} e.

#[global] Instance res_ret : MRet res := fun A a => Ok a.
#[global] Instance res_bind : MBind res := fun A B k r =>
  match r with
  | Ok a => k a
  | Raise e => Raise e
  end.

Definition is_ok {A} (r : res A) : bool :=
  match r with Ok _ => true | Raise _ => false end.

(** ** Data model (the attributes the sample reads) *)

Record Project := mkProject {
  p_id : string;
  p_name : string;
  p_parent_id : option string
}.

Record Workbook := mkWorkbook {
  wb_id : string;
  wb_name : string;
  wb_project_id : string;
  wb_project_name : string
}.

Record Schedule := mkSchedule {
  schedule_id : string;
  schedule_name : string
}.

Record Target := mkTarget {
  target_id : string;
  target_type : string
}.

(** [task_target] is [None] for a task whose workbook or data source is gone
    ([test_get_tasks_with_no_workbook] asserts [task.target] is [None]). *)
Record Task := mkTask {
  task_id : string;
  task_target : option Target;
  task_schedule_item : Schedule
}.

#[global] Instance Project_eq_dec : EqDecision Project.
Proof. solve_decision. Defined.
#[global] Instance Workbook_eq_dec : EqDecision Workbook.
Proof. solve_decision. Defined.
#[global] Instance Schedule_eq_dec : EqDecision Schedule.
Proof. solve_decision. Defined.
#[global] Instance Target_eq_dec : EqDecision Target.
Proof. solve_decision. Defined.
#[global] Instance Task_eq_dec : EqDecision Task.
Proof. solve_decision. Defined.

(** A wall-clock time of day, [datetime.time(hour, minute)]. *)
Record time := mkTime { hour : Z; minute : Z }.

(** The value [get_hour_interval] hands to [HourlyInterval]: a float for the
    quarter and the half hour, an int otherwise. *)
Inductive pyfloat : Type :=
| FNum (q : Q)
| FInf (negative : bool)
| FNan.

Inductive hour_value : Type :=
| HFloat (f : pyfloat)
| HInt (z : Z).

Inductive IntervalItem : Type :=
| Hourly (start_time end_time : time) (interval_value : hour_value)
| Daily (start_time : time)
| Weekly (start_time : time) (interval_values : list string)
| Monthly (start_time : time) (interval_value : option string).

(** [TSC.ScheduleItem(name, priority, schedule_type, execution_order,
    interval_item)]. *)
Record ScheduleItem := mkScheduleItem {
  si_name : string;
  si_priority : Z;
  si_schedule_type : string;
  si_execution_order : string;
  si_interval_item : IntervalItem
}.

(** ** The world: requests sent, console output, console input *)

(** A version of the REST API, [major.minor]: ['3.8'] is [(3, 8)]. *)
Definition api_version : Type := (nat * nat)%type.

Definition version_lt (a b : api_version) : bool :=
  (fst a <? fst b)%nat || ((fst a =? fst b)%nat && (snd a <? snd b)%nat).

Inductive request : Type :=
| GetServerInfo
| SignIn (username : string)
| SignOut
| GetProjects
| GetWorkbooks (name_equals : string)
| GetSchedules
| AddToSchedule (schedule : string) (workbook : Workbook) (task_type : string)
| CreateSchedule (item : ScheduleItem)
| HttpGet (url : string)
| HttpDelete (url : string).

(** What reaches the console: a printed line, the prompt of an [input], or
    a printed [PrettyTable] with its header and rows. *)
Inductive output : Type :=
| Line (text : string)
| Prompt (text : string)
| Table (field_names : list string) (rows : list (list string)).

Record world := mkWorld {
  sent : list request;
  stdout : list output;
  stdin : list string
}.

Definition send (q : request) (w : world) : world :=
  mkWorld (sent w ++ [q]) (stdout w) (stdin w).

Definition emit (o : output) (w : world) : world :=
  mkWorld (sent w) (stdout w ++ [o]) (stdin w).

(** The remote server and the HTTP transport.  Every answer may depend on
    the requests received before ([sent]); an answer [Raise e] is the
    exception the client library raises for it. *)
Record Server := mkServer {
  srv_server_info : list request -> res api_version;
  srv_sign_in : list request -> string -> res unit;
  srv_projects : list request -> res (list Project);
  srv_workbooks : list request -> string -> res (list Workbook);
  srv_schedules : list request -> res (list Schedule);
  srv_add_to_schedule : list request -> string -> Workbook -> string -> res unit;
  srv_create_schedule : list request -> ScheduleItem -> res ScheduleItem;
  srv_http_get : list request -> string -> res (list Task);
  srv_http_delete : list request -> string -> res unit
}.

(** ** The effect monad *)

Definition M (A : Type) : Type := world -> res A * world.

#[global] Instance M_ret : MRet M := fun A a w => (Ok a, w).
#[global] Instance M_bind : MBind M := fun A B k m w =>
  match m w with
  | (Ok a, w') => k a w'
  | (Raise e, w') => (Raise e, w')
  end.

Definition raise {A} (e : exn) : M A := fun w => (Raise e, w).

Definition lift {A} (r : res A) : M A := fun w => (r, w).

Definition print (text : string) : M unit := fun w => (Ok tt, emit (Line text) w).

Definition print_table (field_names : list string) (rows : list (list string)) : M unit :=
  fun w => (Ok tt, emit (Table field_names rows) w).

(** A request: the oracle answers from the history, and the request joins
    the history whatever the answer. *)
Definition call {A} (answer : list request -> res A) (q : request) : M A :=
  fun w => (answer (sent w), send q w).

(** [try: body except ServerResponseError as error: handler]. *)
Definition try_except {A} (body : M A) (handler : string -> string -> M A) : M A :=
  fun w =>
    match body w with
    | (Raise (ServerResponseError summary detail), w') => handler summary detail w'
    | other => other
    end.

(** [for x in xs: acc = body(x, acc)]: a loop whose local variables are
    [acc]. *)
Fixpoint for_each {A S} (xs : list A) (body : A -> S -> M S) (acc : S) : M S :=
  match xs with
  | [] => mret acc
  | x :: rest => acc' ← body x acc; for_each rest body acc'
  end.

(** Truthiness of an optional string: [not x] holds for [None] and [""]. *)
Definition falsy (x : option string) : bool :=
  match x with
  | None => true
  | Some s => bool_decide (s = "")
  end.

(** * Tasks endpoint *)

(** [@api(version=...)], the decorator on the methods of the endpoint.  It
    is defined in [.endpoint], outside these sources, whose tests set
    [server.version = '3.8'] before they call the endpoint: the wrapper
    compares the version of the server with the version named and raises
    [EndpointUnavailableError] for an older server, before the body of the
    method runs. *)
Definition api {A} (server_version required : api_version) (body : M A) : M A :=
  if version_lt server_version required then raise EndpointUnavailableError else body.

Section TasksEndpoint.
Variable server : Server.
(** [self.parent_srv.version]. *)
Variable server_version : api_version.
(** [self.baseurl], computed from the signed-in server and site. *)
Variable baseurl : string.

(** [Tasks.get]: one [GET] of the url of the task type; the pagination item
    of the answer is left out. *)
Definition tasks_get (task_type : string) : M (list Task) :=
  api server_version (3, 8)%nat
    (let url := baseurl +:+ "/" +:+ task_type in
     call (fun h => srv_http_get server h url) (HttpGet url)).

(** [Tasks.get_by_id]. *)
Definition get_by_id (task_id : option string) : M Task :=
  api server_version (2, 6)%nat
    (if falsy task_id then raise (ValueError "No Task ID provided")
     else
       let url := baseurl +:+ "/" +:+ default "" task_id in
       tasks ← call (fun h => srv_http_get server h url) (HttpGet url);
       match tasks with
       | t :: _ => mret t
       | [] => raise IndexError
       end).

(** [Tasks.delete_task_type_and_id]. *)
Definition delete_task_type_and_id (task_type task_id : option string) : M unit :=
  api server_version (3, 8)%nat
    (if falsy task_id then raise (ValueError "No Task ID provided")
     else if falsy task_type then raise (ValueError "No Task type provided")
     else
       let url := baseurl +:+ "/" +:+ default "" task_type +:+ "/" +:+ default "" task_id in
       call (fun h => srv_http_delete server h url) (HttpDelete url)).

End TasksEndpoint.

(** [server.tasks.delete], as the sample calls it.  The class [Tasks] has
    the methods [get], [get_by_id], [run] and [delete_task_type_and_id] and
    no [delete]: the attribute lookup raises [AttributeError], before an
    argument is evaluated and before any request. *)
Definition tasks_delete (server : Server) (id task_type : string) : M unit :=
  raise AttributeError.

(** * Schedule lookup *)

Section FindSchedule.
Variable server : Server.

(** [list(TSC.Pager(server.schedules.get))]. *)
Definition all_schedules : M (list Schedule) :=
  call (srv_schedules server) GetSchedules.

(** The [for] loop of [find_schedule]: the first schedule with the name. *)
Fixpoint first_named (name : string) (schedules : list Schedule) : option Schedule :=
  match schedules with
  | [] => None
  | schedule :: rest =>
      if bool_decide (name = schedule_name schedule) then Some schedule
      else first_named name rest
  end.

Definition find_schedule (name : option string) : M (option Schedule) :=
  match name with
  | None => mret None
  | Some name =>
      schedules ← all_schedules;
      mret (first_named name schedules)
  end.

End FindSchedule.

(** * Python dictionaries in insertion order *)

(** A [dict] with string keys: an association list whose keys are pairwise
    different, in insertion order ([values()] and [items()] iterate in that
    order). *)
Definition pydict (V : Type) : Type := list (string * V).

Fixpoint dict_get {V} (k : string) (d : pydict V) : option V :=
  match d with
  | [] => None
  | (k', v) :: rest => if bool_decide (k = k') then Some v else dict_get k rest
  end.

(** [d[k] = v]: replaces the value in place, or appends a new entry. *)
Fixpoint dict_set {V} (k : string) (v : V) (d : pydict V) : pydict V :=
  match d with
  | [] => [(k, v)]
  | (k', v') :: rest =>
      if bool_decide (k = k') then (k', v) :: rest else (k', v') :: dict_set k v rest
  end.

Definition dict_mem {V} (k : string) (d : pydict V) : bool :=
  bool_decide (is_Some (dict_get k d)).

Definition dict_values {V} (d : pydict V) : list V := map snd d.
Definition dict_keys {V} (d : pydict V) : list string := map fst d.

(** * Strings *)

Definition dquote : string := String (ascii_of_nat 34) "".
Definition newline : string := String (ascii_of_nat 10) "".

(** [str.lower] on the ASCII letters. *)
Definition lower_ascii (c : ascii) : ascii :=
  let n := nat_of_ascii c in
  if (65 <=? n)%nat && (n <=? 90)%nat then ascii_of_nat (n + 32) else c.

Fixpoint lower (s : string) : string :=
  match s with
  | EmptyString => EmptyString
  | String c rest => String (lower_ascii c) (lower rest)
  end.

(** * Attaching workbooks to a schedule *)

(** [TaskItem.Type.MaterializeViews]; the sample passes the same value as
    the literal [task_type="materializeViews"] in its other calls. *)
Definition MaterializeViews : string := "materializeViews".

(** [confirm]: reads lines until one is [y] or [n] in any case; every read
    shows the prompt; at the end of the input [input] raises [EOFError]. *)
Fixpoint confirm_loop (message : string) (lines : list string) (out : list output)
  : res bool * list output * list string :=
  match lines with
  | [] => (Raise EOFError, out ++ [Prompt message], [])
  | line :: rest =>
      let answer := lower line in
      if bool_decide (answer = "y") then (Ok true, out ++ [Prompt message], rest)
      else if bool_decide (answer = "n") then (Ok false, out ++ [Prompt message], rest)
      else confirm_loop message rest (out ++ [Prompt message])
  end.

Definition confirm (message : string) : M bool := fun w =>
  let '(answer, out, rest) := confirm_loop message (stdin w) (stdout w) in
  (answer, mkWorld (sent w) out rest).

(** The first loop of [add_to_materialized_views_schedule]:
    [workbook_id_to_task[task.target.id] = task] for the tasks whose target
    type is ['workbook'].  [task.target.type] on a task without target
    raises [AttributeError]. *)
Fixpoint index_tasks (tasks : list Task) (workbook_id_to_task : gmap string Task)
  : res (gmap string Task) :=
  match tasks with
  | [] => Ok workbook_id_to_task
  | task :: rest =>
      match task_target task with
      | None => Raise AttributeError
      | Some target =>
          index_tasks rest
            (if bool_decide (target_type target = "workbook")
             then <[target_id target := task]> workbook_id_to_task
             else workbook_id_to_task)
      end
  end.

(** ['{}/{}'.format(workbook.project_name, workbook.name)]. *)
Definition workbook_label (workbook : Workbook) : string :=
  wb_project_name workbook +:+ "/" +:+ wb_name workbook.

(** ["{}: {}".format(error.summary, error.detail)]. *)
Definition error_line (summary detail : string) : string :=
  summary +:+ ": " +:+ detail.

Section Attach.
Variable server : Server.

Definition schedules_add_to_schedule (schedule : string) (workbook : Workbook)
  (task_type : string) : M unit :=
  call (fun h => srv_add_to_schedule server h schedule workbook task_type)
       (AddToSchedule schedule workbook task_type).

(** The local variables of the second loop: [num_added] and the rows of
    [table]. *)
Definition attach_state : Type := nat * list (list string).

(** The last three statements of the loop body: add the workbook to the
    schedule, count it, report it. *)
Definition add_and_report (schedule : Schedule) (workbook : Workbook)
  (st : attach_state) : M attach_state :=
  _ ← schedules_add_to_schedule (schedule_id schedule) workbook "materializeViews";
  mret (S (fst st), snd st ++ [[workbook_label workbook; schedule_name schedule]]).

(** The body of the loop over [workbook_id_to_workbook.values()], with its
    [try] and [except]; each [continue] returns the loop state. *)
Definition attach_workbook (schedule : Schedule) (workbook_id_to_task : gmap string Task)
  (workbook : Workbook) (st : attach_state) : M attach_state :=
  try_except
    (match workbook_id_to_task !! wb_id workbook with
     | Some task =>
         _ ← print ("Workbook " +:+ dquote +:+ workbook_label workbook +:+ dquote
                    +:+ " is already on schedule " +:+ dquote
                    +:+ schedule_name (task_schedule_item task) +:+ dquote);
         if bool_decide (schedule_id (task_schedule_item task) = schedule_id schedule)
         then mret (fst st, snd st ++ [[workbook_label workbook; schedule_name schedule]])
         else
           yes ← confirm ("Do you want to replace it with " +:+ schedule_name schedule
                          +:+ " [Y/N]? ");
           if negb yes
           then mret (fst st,
                      snd st ++ [[workbook_label workbook;
                                  schedule_name (task_schedule_item task)]])
           else
             _ ← tasks_delete server (task_id task) MaterializeViews;
             add_and_report schedule workbook st
     | None => add_and_report schedule workbook st
     end)
    (fun summary detail => _ ← print (error_line summary detail); mret st).

Definition add_to_materialized_views_schedule (tasks : option (list Task))
  (schedule : option Schedule) (workbook_id_to_workbook : option (pydict Workbook))
  : M unit :=
  match schedule, workbook_id_to_workbook with
  | Some schedule, Some workbook_id_to_workbook =>
      workbook_id_to_task ← lift (match tasks with
                                  | Some tasks => index_tasks tasks ∅
                                  | None => Ok ∅
                                  end);
      st ← for_each (dict_values workbook_id_to_workbook)
             (attach_workbook schedule workbook_id_to_task) (0%nat, []);
      _ ← (if (0 <? fst st)%nat
           then print_table ["Project/Workbook"; "Added to or Remain on Schedule"] (snd st)
           else mret tt);
      print newline
  | _, _ => mret tt
  end.

End Attach.

(** * Detaching workbooks from their schedule *)

Section Detach.
Variable server : Server.

(** The body of the loop of [remove_materialized_views_tasks];
    [task.target.id] on a task without target raises [AttributeError]. *)
Definition remove_task (workbook_id_to_workbook : pydict Workbook) (task : Task)
  (st : nat * list (list string)) : M (nat * list (list string)) :=
  match task_target task with
  | None => raise AttributeError
  | Some target =>
      match dict_get (target_id target) workbook_id_to_workbook with
      | Some workbook =>
          try_except
            (_ ← tasks_delete server (task_id task) "materializeViews";
             mret (S (fst st),
                   snd st ++ [[workbook_label workbook;
                               schedule_name (task_schedule_item task)]]))
            (fun summary detail => _ ← print (error_line summary detail); mret st)
      | None => mret st
      end
  end.

(** Returns [Some false] for Python's [return False] and [None] where the
    function falls off its end. *)
Definition remove_materialized_views_tasks (tasks : option (list Task))
  (workbook_id_to_workbook : option (pydict Workbook)) : M (option bool) :=
  match workbook_id_to_workbook with
  | None | Some [] =>
      _ ← print "Unable to find any workbooks to remove schedule for";
      mret (Some false)
  | Some workbook_id_to_workbook =>
      match tasks with
      | None | Some [] =>
          _ ← print "Unable to find any MaterializeViews tasks";
          mret (Some false)
      | Some tasks =>
          st ← for_each tasks (remove_task workbook_id_to_workbook) (0%nat, []);
          _ ← (if (0 <? fst st)%nat
               then print_table ["Workbook"; "Removed From Schedule"] (snd st)
               else print "Unable to find any workbooks to remove MaterializeViews for");
          mret None
      end
  end.

End Detach.

(** * Creating a schedule *)

(** The value of a numeric command-line option: the [int] default, the
    [str] the user typed, or [None]. *)
Inductive ArgVal : Type :=
| VNone
| VInt (z : Z)
| VStr (s : string).

(** The attributes of the parsed arguments that the schedule commands read. *)
Record Args := mkArgs {
  username : string;
  create_schedule : option string;
  show_schedules : option bool;
  remove_from_schedule : option bool;
  add_to_schedule : option string;
  name_list : option string;
  path_list : option string;
  workbook_path : option string;
  hourly_interval : option string;
  weekly_interval : option (list string);
  daily_interval : option bool;
  monthly_interval : option string;
  start_hour : ArgVal;
  start_minute : ArgVal;
  end_hour : ArgVal;
  end_minute : ArgVal
}.

(** ** The argument parser's gates on the two options *)

Definition start_minute_choices : list string := ["0"; "15"; "30"; "45"].

Definition weekly_interval_choices : list string :=
  ["Sunday"; "Monday"; "Tuesday"; "Wednesday"; "Thursday"; "Friday"; "Saturday"].

(** [add_argument('--start-minute', choices=['0','15','30','45'], default=0)]:
    [given] is the text after the flag when the flag is present.  [None] as
    result is the parser's error exit. *)
Definition parse_start_minute (given : option string) : option ArgVal :=
  match given with
  | None => Some (VInt 0)
  | Some text =>
      if bool_decide (text ∈ start_minute_choices) then Some (VStr text) else None
  end.

(** [add_argument('--weekly-interval', choices=[...], nargs="+")]: the flag
    wants one value or more, each a weekday name. *)
Definition parse_weekly_interval (given : option (list string))
  : option (option (list string)) :=
  match given with
  | None => Some None
  | Some [] => None
  | Some days =>
      if forallb (fun day => bool_decide (day ∈ weekly_interval_choices)) days
      then Some (Some days) else None
  end.

Definition hourly_interval_choices : list string :=
  ["0.25"; "0.5"; "2"; "1"; "4"; "6"; "8"; "12"].

(** What stands on the command line for the options that the schedule
    commands read: the text after the flag of an option with a value, where
    the flag is there; the texts after [--weekly-interval]; whether the flag
    of an option without value is there.  The rest of the command line, the
    required [--server] and the password among it, is taken to be as the
    parser wants it. *)
Record CommandLine := mkCommandLine {
  cl_username : option string;
  cl_create_schedule : option string;
  cl_show_schedules : bool;
  cl_remove_from_schedule : bool;
  cl_add_to_schedule : option string;
  cl_name_list : option string;
  cl_path_list : option string;
  cl_workbook_path : option string;
  cl_hourly_interval : option string;
  cl_weekly_interval : option (list string);
  cl_daily_interval : bool;
  cl_monthly_interval : option string;
  cl_start_hour : option string;
  cl_start_minute : option string;
  cl_end_hour : option string;
  cl_end_minute : option string
}.

(** [action='store_const', const=True]. *)
Definition store_const (given : bool) : option bool :=
  if given then Some true else None.

(** An option without [type] and with [default=0]. *)
Definition with_default_0 (given : option string) : ArgVal :=
  match given with
  | Some text => VStr text
  | None => VInt 0
  end.

(** [parser.parse_args()] on these options: [None] is the parser's error
    exit, for a required option that is missing, a value that is not among
    the choices of its option, or no value after [--weekly-interval]. *)
Definition parse_args (cl : CommandLine) : option Args :=
  user ← cl_username cl;
  hourly ← match cl_hourly_interval cl with
           | Some text =>
               if bool_decide (text ∈ hourly_interval_choices) then Some (Some text) else None
           | None => Some None
           end;
  weekly ← parse_weekly_interval (cl_weekly_interval cl);
  minute ← parse_start_minute (cl_start_minute cl);
  Some (mkArgs user (cl_create_schedule cl) (store_const (cl_show_schedules cl))
          (store_const (cl_remove_from_schedule cl)) (cl_add_to_schedule cl)
          (cl_name_list cl) (cl_path_list cl) (cl_workbook_path cl)
          hourly weekly (store_const (cl_daily_interval cl)) (cl_monthly_interval cl)
          (with_default_0 (cl_start_hour cl)) minute
          (with_default_0 (cl_end_hour cl)) (with_default_0 (cl_end_minute cl))).

(** ** Formatting *)

Definition str_of_Z (z : Z) : string := NilZero.string_of_int (Z.to_int z).

(** ['{:02d}'.format(z)]. *)
Definition fmt_02d (z : Z) : string :=
  let s := str_of_Z z in
  if (String.length s <? 2)%nat then "0" +:+ s else s.

(** [str] of a list of strings, as [format] prints [args.weekly_interval]. *)
Definition str_of_list (l : list string) : string :=
  "[" +:+ String.concat ", " (map (fun s => "'" +:+ s +:+ "'") l) +:+ "]".

Section CreateSchedule.
Variable server : Server.
(** The builtins [float] and [int] on a [str]; [None] is their
    [ValueError]. *)
Variable str_to_float : string -> option pyfloat.
Variable str_to_int : string -> option Z.
(** The checks that the interval constructors of the client library make on
    their arguments; those classes are outside these sources. *)
Variable interval_check : IntervalItem -> res unit.

Definition py_float (v : ArgVal) : res pyfloat :=
  match v with
  | VNone => Raise TypeError
  | VInt z => Ok (FNum (inject_Z z))
  | VStr s =>
      match str_to_float s with
      | Some f => Ok f
      | None => Raise (ValueError "could not convert string to float")
      end
  end.

Definition py_int (v : ArgVal) : res Z :=
  match v with
  | VNone => Raise TypeError
  | VInt z => Ok z
  | VStr s =>
      match str_to_int s with
      | Some z => Ok z
      | None => Raise (ValueError "invalid literal for int()")
      end
  end.

(** [lo <= f <= hi] on a float. *)
Definition float_between (lo hi : Z) (f : pyfloat) : bool :=
  match f with
  | FNum q => Qle_bool (inject_Z lo) q && Qle_bool q (inject_Z hi)
  | FInf _ | FNan => false
  end.

(** [lo <= v <= hi] where [v] is used as it is: an [int] compares, a [str]
    or [None] against an [int] raises [TypeError]. *)
Definition int_between (lo hi : Z) (v : ArgVal) : res bool :=
  match v with
  | VInt z => Ok ((lo <=? z)%Z && (z <=? hi)%Z)
  | VNone | VStr _ => Raise TypeError
  end.

Definition is_none (v : ArgVal) : bool :=
  match v with VNone => true | _ => false end.

(** A block of a function that either executes [return b] ([inl b]) or goes
    on with the local variable ([inr v]). *)
Definition and_then {S S'} (m : M (bool + S)) (k : S -> M (bool + S')) : M (bool + S') :=
  r ← m;
  match r with
  | inl b => mret (inl b)
  | inr v => k v
  end.

(** The nested function [schedule_type_none]. *)
Definition schedule_type_none (schedule_type : option string) : M bool :=
  match schedule_type with
  | Some _ =>
      _ ← print ("Please select one of the schedule types: hourly-interval, daily-interval, "
                 +:+ "weekly-interval, monthly-interval");
      mret false
  | None => mret true
  end.

(** The first test of [verify_time_arguments], with Python's left-to-right
    [or]: [true] when the start time is refused. *)
Definition start_time_refused (args : Args) : res bool :=
  if is_none (start_hour args) then Ok true
  else
    h ← py_float (start_hour args);
    if negb (float_between 0 23 h) then Ok true
    else if is_none (start_minute args) then Ok true
    else
      m ← py_float (start_minute args);
      Ok (negb (float_between 0 59 m)).

Definition end_time_refused (args : Args) : res bool :=
  if is_none (end_hour args) then Ok true
  else
    h ← int_between 0 23 (end_hour args);
    if negb h then Ok true
    else if is_none (end_minute args) then Ok true
    else
      m ← int_between 0 59 (end_minute args);
      Ok (negb m).

Definition verify_weekly (args : Args) (selected : option string)
  : M (bool + option string) :=
  match weekly_interval args with
  | Some _ =>
      free ← schedule_type_none selected;
      if (free : bool) then mret (inr (Some "weekly-interval")) else mret (inl false)
  | None => mret (inr selected)
  end.

Definition verify_monthly (args : Args) (selected : option string)
  : M (bool + option string) :=
  match monthly_interval args with
  | Some text =>
      free ← schedule_type_none selected;
      if (free : bool) then
        day ← lift (py_int (VStr text));
        if negb ((1 <=? day)%Z && (day <=? 31)%Z) then
          _ ← print "Please provide the monthly schedule between 1 and 31";
          mret (inl false)
        else mret (inr (Some "monthly-interval"))
      else mret (inl false)
  | None => mret (inr selected)
  end.

Definition verify_hourly (args : Args) (selected : option string)
  : M (bool + option string) :=
  match hourly_interval args with
  | Some _ =>
      free ← schedule_type_none selected;
      if (free : bool) then
        refused ← lift (end_time_refused args);
        if (refused : bool) then
          _ ← print "Please provide the schedule end time. Ex: --end-hour 23 --end-minute 30";
          mret (inl false)
        else mret (inr (Some "hourly-schedule"))
      else mret (inl false)
  | None => mret (inr selected)
  end.

Definition verify_time_arguments (args : Args) : M bool :=
  refused ← lift (start_time_refused args);
  if (refused : bool) then
    _ ← print "Please provide the schedule start time. Ex: --start-hour 8 --start-minute 30";
    mret false
  else
    r ← and_then (and_then (verify_weekly args
                              (match daily_interval args with
                               | Some _ => Some "daily-interval"
                               | None => None
                               end))
                           (verify_monthly args))
                 (verify_hourly args);
    match r with
    | inl b => mret b
    | inr selected => mret (bool_decide (is_Some selected))
    end.

Definition get_hour_interval (hour_interval : string) : res hour_value :=
  if bool_decide (hour_interval ∈ ["0.25"; "0.5"])
  then f ← py_float (VStr hour_interval); Ok (HFloat f)
  else z ← py_int (VStr hour_interval); Ok (HInt z).

(** [datetime.time(hour, minute)], which refuses values out of range. *)
Definition py_time (h m : Z) : res time :=
  if negb ((0 <=? h)%Z && (h <=? 23)%Z) then Raise (ValueError "hour must be in 0..23")
  else if negb ((0 <=? m)%Z && (m <=? 59)%Z) then Raise (ValueError "minute must be in 0..59")
  else Ok (mkTime h m).

(** [time(int(h), int(m))]. *)
Definition time_of (h m : ArgVal) : res time :=
  h' ← py_int h; m' ← py_int m; py_time h' m'.

(** [TSC.ScheduleItem(schedule_name, 75, TSC.ScheduleItem.Type.MaterializeViews,
    TSC.ScheduleItem.ExecutionOrder.Parallel, interval)]. *)
Definition new_schedule_item (args : Args) (interval : IntervalItem) : ScheduleItem :=
  mkScheduleItem (default "" (create_schedule args)) 75 "MaterializeViews" "Parallel" interval.

(** [server.schedules.create(item)] returns the schedule that the answer
    holds, never [None]; an answer that holds none is an exception of the
    client library, an answer [Raise] of the server here.  The test
    [is not None] after each call is kept as the sample has it. *)
Definition schedules_create (item : ScheduleItem) : M (option ScheduleItem) :=
  created ← call (fun h => srv_create_schedule server h item) (CreateSchedule item);
  mret (Some created).

Definition not_created (args : Args) : string :=
  "Schedule " +:+ default "" (create_schedule args) +:+ " was not created successfully".

Definition create_hourly_schedule (args : Args) : M unit :=
  start ← lift (time_of (start_hour args) (start_minute args));
  end_ ← lift (time_of (end_hour args) (end_minute args));
  value ← lift (get_hour_interval (default "" (hourly_interval args)));
  _ ← lift (interval_check (Hourly start end_ value));
  created ← schedules_create (new_schedule_item args (Hourly start end_ value));
  match created with
  | Some _ =>
      print ("Hourly schedule " +:+ dquote +:+ default "" (create_schedule args) +:+ dquote
             +:+ " created with an interval of " +:+ default "" (hourly_interval args)
             +:+ " hours.")
  | None => print (not_created args)
  end.

Definition create_daily_schedule (args : Args) : M unit :=
  start ← lift (time_of (start_hour args) (start_minute args));
  _ ← lift (interval_check (Daily start));
  created ← schedules_create (new_schedule_item args (Daily start));
  match created with
  | Some _ =>
      print ("Daily schedule " +:+ dquote +:+ default "" (create_schedule args) +:+ dquote
             +:+ " created to run at " +:+ fmt_02d (hour start) +:+ ":"
             +:+ fmt_02d (minute start) +:+ ".")
  | None => print (not_created args)
  end.

Definition create_weekly_schedule (args : Args) : M unit :=
  start ← lift (time_of (start_hour args) (start_minute args));
  _ ← lift (interval_check (Weekly start (default [] (weekly_interval args))));
  created ← schedules_create
              (new_schedule_item args (Weekly start (default [] (weekly_interval args))));
  match created with
  | Some _ =>
      print ("Weekly schedule " +:+ dquote +:+ default "" (create_schedule args) +:+ dquote
             +:+ " created to run on " +:+ str_of_list (default [] (weekly_interval args))
             +:+ " at  " +:+ fmt_02d (hour start) +:+ ":" +:+ fmt_02d (minute start) +:+ ".")
  | None => print (not_created args)
  end.

Definition create_monthly_schedule (args : Args) : M unit :=
  start ← lift (time_of (start_hour args) (start_minute args));
  _ ← lift (interval_check (Monthly start (monthly_interval args)));
  created ← schedules_create (new_schedule_item args (Monthly start (monthly_interval args)));
  match created with
  | Some _ =>
      print ("Monthly schedule " +:+ dquote +:+ default "" (create_schedule args) +:+ dquote
             +:+ " created to run on " +:+ default "None" (monthly_interval args)
             +:+ "th at " +:+ fmt_02d (hour start) +:+ ":" +:+ fmt_02d (minute start) +:+ ".")
  | None => print (not_created args)
  end.

(** [with server.auth.sign_in(tableau_auth): body]: the sign-in request, the
    body, and the sign-out on every way out of the body. *)
Definition with_sign_in {A} (user : string) (body : M A) : M A :=
  _ ← call (fun h => srv_sign_in server h user) (SignIn user);
  ((fun w : world => let '(r, w') := body w in (r, send SignOut w')) : M A).

Definition create_materialized_view_schedule (args : Args) : M bool :=
  verified ← verify_time_arguments args;
  if negb verified then mret false
  else
    try_except
      (_ ← with_sign_in (username args)
             (match hourly_interval args, daily_interval args, weekly_interval args with
              | Some _, _, _ => create_hourly_schedule args
              | None, Some _, _ => create_daily_schedule args
              | None, None, Some _ => create_weekly_schedule args
              | None, None, None => create_monthly_schedule args
              end);
       mret true)
      (fun summary detail => _ ← print (error_line summary detail); mret false).

(** [sum(action is not None for action in [...])]. *)
Definition count_some (flags : list bool) : nat := length (filter (fun b => b = true) flags).

Definition assert_schedule_action_options_valid (args : Args) : M bool :=
  if (1 <? count_some [bool_decide (is_Some (add_to_schedule args));
                       bool_decide (is_Some (remove_from_schedule args));
                       bool_decide (is_Some (create_schedule args));
                       bool_decide (is_Some (show_schedules args))])%nat
  then
    _ ← print ("Use one of --create-schedule, --add-to-schedule, --remove-from-schedule, "
               +:+ "or --show-schedules");
    mret false
  else if (bool_decide (is_Some (add_to_schedule args))
           || bool_decide (remove_from_schedule args = Some true))
          && (bool_decide (name_list args = None) && bool_decide (path_list args = None)
              && bool_decide (workbook_path args = None))
  then
    _ ← print "Use --path-list <path-list> or --name-list <name-list> or --workbook-path specify workbooks";
    mret false
  else if bool_decide (is_Some (create_schedule args))
          && (bool_decide (weekly_interval args = None)
              && bool_decide (daily_interval args = None)
              && bool_decide (monthly_interval args = None)
              && bool_decide (hourly_interval args = None))
  then
    _ ← print ("Use --hourly-interval or --daily-interval or --weekly-interval or "
               +:+ "--monthly-interval to specify the schedule type");
    mret false
  else mret true.

End CreateSchedule.

(** * More strings: [split], [rstrip], [isspace] *)

Definition slash : ascii := ascii_of_nat 47.

(** [s.split(sep)] for a one-character separator: never empty, [""] splits
    into [[""]]. *)
Fixpoint split_on (sep : ascii) (s : string) : list string :=
  match s with
  | EmptyString => [EmptyString]
  | String c rest =>
      if bool_decide (c = sep) then EmptyString :: split_on sep rest
      else
        match split_on sep rest with
        | first :: others => String c first :: others
        | [] => [String c EmptyString]
        end
  end.

(** The white space of [str.rstrip] and [str.isspace].  A character of the
    strings here is a code point below 256; among these the white space of
    Python is the tabulators and line ends 9 to 13, the separators 28 to 31,
    the space 32, the next line 133 and the no-break space 160. *)
Definition is_space (c : ascii) : bool :=
  let n := nat_of_ascii c in
  ((9 <=? n)%nat && (n <=? 13)%nat) || ((28 <=? n)%nat && (n <=? 32)%nat)
  || (n =? 133)%nat || (n =? 160)%nat.

Fixpoint rstrip (s : string) : string :=
  match s with
  | EmptyString => EmptyString
  | String c rest =>
      let rest' := rstrip rest in
      if is_space c && bool_decide (rest' = EmptyString) then EmptyString
      else String c rest'
  end.

Fixpoint all_space (s : string) : bool :=
  match s with
  | EmptyString => true
  | String c rest => is_space c && all_space rest
  end.

Definition isspace (s : string) : bool :=
  negb (bool_decide (s = EmptyString)) && all_space s.

(** * The project tree *)

(** A fold with early exit on an exception. *)
Fixpoint res_fold {A S} (f : A -> S -> res S) (xs : list A) (acc : S) : res S :=
  match xs with
  | [] => Ok acc
  | x :: rest =>
      match f x acc with
      | Ok acc' => res_fold f rest acc'
      | Raise e => Raise e
      end
  end.

(** [find_project_path(project, all_projects, path)].  [all_projects] is the
    [dict] from project id to project.  [limit] is the number of stack
    frames the interpreter still allows: a call that finds none raises
    [RecursionError]. *)
Fixpoint find_project_path (limit : nat) (project : Project)
  (all_projects : gmap string Project) (path : string) : res string :=
  match limit with
  | O => Raise RecursionError
  | S limit' =>
      let path := if (String.length path =? 0)%nat then p_name project
                  else p_name project +:+ "/" +:+ path in
      match p_parent_id project with
      | None => Ok path
      | Some parent_id =>
          match all_projects !! parent_id with
          | Some parent => find_project_path limit' parent all_projects path
          | None => Raise (KeyError parent_id)
          end
      end
  end.

(** [find_projects_to_update(project, all_projects, projects_to_update)];
    here [all_projects] is a [list].  The list [projects_to_update], which
    the Python code extends in place, is returned. *)
Fixpoint find_projects_to_update (limit : nat) (project : Project)
  (all_projects : list Project) (projects_to_update : list Project)
  : res (list Project) :=
  match limit with
  | O => Raise RecursionError
  | S limit' =>
      let projects_to_update := projects_to_update ++ [project] in
      let children_projects :=
        filter (fun child => p_parent_id child = Some (p_id project)) all_projects in
      res_fold (fun child acc => find_projects_to_update limit' child all_projects acc)
               children_projects projects_to_update
  end.

Definition find_project_ids_to_update (limit : nat) (all_projects : list Project)
  (project : Project) : res (gset string) :=
  projects_to_update ← find_projects_to_update limit project all_projects [];
  Ok (list_to_set (map p_id projects_to_update)).

(** * Workbooks by path *)

Section WorkbooksFromPaths.
Variable server : Server.
(** The file system: the lines of a file, each with its line end, or [None]
    where [os.path.isfile] says no. *)
Variable read_lines : string -> option (list string).
(** The interpreter's recursion limit. *)
Variable recursion_limit : nat.

(** Returns [None] where the Python function falls off its end (a file type
    other than the two it knows). *)
Definition sanitize_workbook_list (file_name file_type : string)
  : M (option (list string)) :=
  match read_lines file_name with
  | None =>
      _ ← print ("Invalid file name '" +:+ file_name +:+ "'");
      mret (Some [])
  | Some file_list =>
      if bool_decide (file_type = "name") || bool_decide (file_type = "path")
      then mret (Some (map rstrip (filter (fun workbook => isspace workbook = false) file_list)))
      else mret None
  end.

(** The body of the loop of [parse_workbook_path]:
    [mapping[workbook_project[-1]].append('/'.join(workbook_project[:-1]))]
    on a [defaultdict(list)]. *)
Definition add_workbook_path (workbook_path : string) (mapping : pydict (list string))
  : pydict (list string) :=
  let workbook_project := split_on slash (rstrip workbook_path) in
  let name := List.last workbook_project "" in
  dict_set name
    (default [] (dict_get name mapping) ++ [String.concat "/" (removelast workbook_project)])
    mapping.

Definition group_paths (workbook_paths : list string) : pydict (list string) :=
  foldl (fun mapping workbook_path => add_workbook_path workbook_path mapping) [] workbook_paths.

Definition parse_workbook_path (file_path : string) : M (pydict (list string)) :=
  workbook_paths ← sanitize_workbook_list file_path "path";
  match workbook_paths with
  | Some workbook_paths => mret (group_paths workbook_paths)
  | None => raise TypeError
  end.

(** [{project.id: project for project in TSC.Pager(server.projects)}]. *)
Definition projects_by_id (projects : list Project) : gmap string Project :=
  foldl (fun all_projects project => <[p_id project := project]> all_projects) ∅ projects.

Definition query_projects : M (list Project) :=
  call (srv_projects server) GetProjects.

(** [list(TSC.Pager(server.workbooks, req_option))] with the filter
    [Name Equals workbook_name]. *)
Definition query_workbooks (workbook_name : string) : M (list Workbook) :=
  call (fun h => srv_workbooks server h workbook_name) (GetWorkbooks workbook_name).

(** The local variables of the loop over the returned workbooks: the set
    [all_paths] and the result [workbook_id_to_workbook]. *)
Definition match_state : Type := gset string * pydict Workbook.

(** The body of the loop over [workbooks]; [set.remove] of a path that is
    no longer in the set raises [KeyError]. *)
Definition match_workbook (all_projects : gmap string Project)
  (workbook_paths : list string) (workbook : Workbook) (st : match_state)
  : res match_state :=
  match all_projects !! wb_project_id workbook with
  | None => Raise (KeyError (wb_project_id workbook))
  | Some project =>
      path ← find_project_path recursion_limit project all_projects "";
      if bool_decide (path ∈ workbook_paths) then
        if bool_decide (path ∈ fst st)
        then Ok (fst st ∖ {[path]}, dict_set (wb_id workbook) workbook (snd st))
        else Raise (KeyError path)
      else Ok st
  end.

Definition cannot_find (path workbook_name : string) : string :=
  "Cannot find workbook path: " +:+ (path +:+ "/" +:+ workbook_name)
  +:+ ", each line should only contain one workbook path".

(** The body of the loop over [workbook_path_mapping.items()]. *)
Definition resolve_name (all_projects : gmap string Project)
  (item : string * list string) (workbook_id_to_workbook : pydict Workbook)
  : M (pydict Workbook) :=
  let '(workbook_name, workbook_paths) := item in
  workbooks ← query_workbooks workbook_name;
  st ← lift (res_fold (match_workbook all_projects workbook_paths) workbooks
               (list_to_set workbook_paths, workbook_id_to_workbook));
  _ ← for_each (elements (fst st))
        (fun path (_ : unit) => print (cannot_find path workbook_name)) tt;
  mret (snd st).

Definition get_workbooks_from_paths (path_list : string) : M (pydict Workbook) :=
  projects ← query_projects;
  workbook_path_mapping ← parse_workbook_path path_list;
  for_each workbook_path_mapping (resolve_name (projects_by_id projects)) [].

End WorkbooksFromPaths.

(** * Concrete servers and inputs *)

(** A server that accepts every request and has nothing to list. *)
Definition quiet_server : Server :=
  mkServer (fun _ => Ok (3, 8)%nat) (fun _ _ => Ok tt) (fun _ => Ok []) (fun _ _ => Ok []) (fun _ => Ok [])
           (fun _ _ _ _ => Ok tt) (fun _ item => Ok item)
           (fun _ _ => Ok []) (fun _ _ => Ok tt).

Definition fresh_world : world := mkWorld [] [] [].

Definition nightly : Schedule := mkSchedule "s1" "Nightly".
Definition hourly : Schedule := mkSchedule "s2" "Hourly".
Definition nightly_again : Schedule := mkSchedule "s3" "Nightly".

(** A server that lists three schedules, two of them named alike. *)
Definition schedule_server : Server :=
  mkServer (fun _ => Ok (3, 8)%nat) (fun _ _ => Ok tt) (fun _ => Ok []) (fun _ _ => Ok [])
           (fun _ => Ok [hourly; nightly; nightly_again])
           (fun _ _ _ _ => Ok tt) (fun _ item => Ok item)
           (fun _ _ => Ok []) (fun _ _ => Ok tt).

(** ** Reading decimal literals

    A concrete [float] and [int] for the texts [d+] and [d+.d+], on which
    they agree with the builtins (the builtins read more texts than
    these). *)

Definition digit_of (c : ascii) : option Z :=
  let n := nat_of_ascii c in
  if (48 <=? n)%nat && (n <=? 57)%nat then Some (Z.of_nat (n - 48)) else None.

Fixpoint digits_value (s : string) (acc : Z) : option Z :=
  match s with
  | EmptyString => Some acc
  | String c rest =>
      match digit_of c with
      | Some d => digits_value rest (10 * acc + d)
      | None => None
      end
  end.

Definition dec_int (s : string) : option Z :=
  if bool_decide (s = "") then None else digits_value s 0.

Definition dec_float (s : string) : option pyfloat :=
  match split_on (ascii_of_nat 46) s with
  | [whole] =>
      match dec_int whole with
      | Some z => Some (FNum (inject_Z z))
      | None => None
      end
  | [whole; fraction] =>
      match dec_int whole, dec_int fraction with
      | Some z, Some f =>
          Some (FNum (Qplus (inject_Z z)
                            (Qmake f (Pos.pow 10 (Pos.of_nat (String.length fraction))))))
      | _, _ => None
      end
  | _ => None
  end.

(** The interval constructors accept what they are given. *)
Definition no_interval_check (interval : IntervalItem) : res unit := Ok tt.

(** ** Start times and schedule kinds *)

(** The start hour and the start minute, read as numbers by [float], lie in
    [0,23] and in [0,59]. *)
Definition start_time_in_range (str_to_float : string -> option pyfloat) (args : Args)
  : Prop :=
  exists h m : Q,
    py_float str_to_float (start_hour args) = Ok (FNum h)
    /\ py_float str_to_float (start_minute args) = Ok (FNum m)
    /\ (0 <= h)%Q /\ (h <= 23)%Q /\ (0 <= m)%Q /\ (m <= 59)%Q.

(** Only the daily kind is selected. *)
Definition daily_only (args : Args) : Prop :=
  is_Some (daily_interval args) /\ weekly_interval args = None
  /\ monthly_interval args = None /\ hourly_interval args = None.

(** [--create-schedule Quarter --daily-interval] with the given start. *)
Definition daily_args (h m : ArgVal) : Args :=
  mkArgs "admin" (Some "Quarter") None None None None None None
         None None (Some true) None h m (VInt 0) (VInt 0).

(** ** Computations that send no request *)

Definition sends_nothing {A} (m : M A) : Prop :=
  forall w, sent (snd (m w)) = sent w.

(** ** Detaching: the tasks concerned and what the server says to each *)

(** The task has a target, and the target's id is a key of the workbooks. *)
Definition targets_requested (workbook_id_to_workbook : pydict Workbook) (task : Task)
  : bool :=
  match task_target task with
  | Some target => dict_mem (target_id target) workbook_id_to_workbook
  | None => false
  end.

Definition sales_report : Workbook := mkWorkbook "w1" "Report1" "p2" "Sales".
Definition other_report : Workbook := mkWorkbook "w2" "Report2" "p2" "Sales".

Definition task_on (id : string) (workbook : Workbook) (schedule : Schedule) : Task :=
  mkTask id (Some (mkTarget (wb_id workbook) "workbook")) schedule.

Definition orphan_task : Task := mkTask "t0" None nightly.

Definition two_workbooks : pydict Workbook :=
  [("w1", sales_report); ("w2", other_report)].

Definition unrelated_report : Workbook := mkWorkbook "w3" "Report3" "p1" "Default".

Definition three_tasks : list Task :=
  [task_on "t3" unrelated_report nightly; task_on "t1" sales_report nightly;
   task_on "t2" other_report hourly].

(** ** Attaching: the existing task and the user's answer *)

(** The task has a target of type ['workbook'] with the id [id]. *)
Definition targets_workbook (id : string) (task : Task) : bool :=
  match task_target task with
  | Some target =>
      bool_decide (target_type target = "workbook") && bool_decide (target_id target = id)
  | None => false
  end.

(** The existing task of a workbook: the last task of the listing that
    targets it. *)
Definition existing_task (tasks : list Task) (workbook : Workbook) : option Task :=
  last (filter (fun task => targets_workbook (wb_id workbook) task = true) tasks).

(** What the user answers: the first line that is [y] or [n] in any case;
    [EOFError] when the input ends before. *)
Fixpoint answer_of (lines : list string) : res bool :=
  match lines with
  | [] => Raise EOFError
  | line :: rest =>
      if bool_decide (lower line = "y") then Ok true
      else if bool_decide (lower line = "n") then Ok false
      else answer_of rest
  end.

Definition add_request (schedule : Schedule) (workbook : Workbook) : request :=
  AddToSchedule (schedule_id schedule) workbook "materializeViews".

Definition typing (lines : list string) : world := mkWorld [] [] lines.

(** ** The project tree: parents, ancestors, cycles *)

(** The parent of a project, looked up in the arena by [parent_id]. *)
Definition parent_of (all_projects : gmap string Project) (project : Project)
  : option Project :=
  match p_parent_id project with
  | Some parent_id => all_projects !! parent_id
  | None => None
  end.

(** The ancestor [n] steps up: the project itself for [n = 0]. *)
Fixpoint ancestor (all_projects : gmap string Project) (n : nat) (project : Project)
  : option Project :=
  match n with
  | O => Some project
  | S n' =>
      match parent_of all_projects project with
      | Some parent => ancestor all_projects n' parent
      | None => None
      end
  end.

(** The project and its ancestors, at most [n] steps up, the project
    first. *)
Fixpoint lineage (all_projects : gmap string Project) (n : nat) (project : Project)
  : list Project :=
  project ::
  match n with
  | O => []
  | S n' =>
      match parent_of all_projects project with
      | Some parent => lineage all_projects n' parent
      | None => []
      end
  end.

Definition in_arena (all_projects : gmap string Project) (project : Project) : Prop :=
  all_projects !! p_id project = Some project.

(** A cycle of parent links that the walk from [project] runs into. *)
Definition cycle_reachable (all_projects : gmap string Project) (project : Project) : Prop :=
  exists k m q,
    ancestor all_projects k project = Some q /\ ancestor all_projects (S m) q = Some q.

(** The arena as the sample builds it and as the data model wants it: each
    project under its own id, every parent id present, no project its own
    ancestor. *)
Definition keyed (all_projects : gmap string Project) : Prop :=
  forall id project, all_projects !! id = Some project -> p_id project = id.

Definition parents_present (all_projects : gmap string Project) : Prop :=
  forall id project parent_id,
    all_projects !! id = Some project -> p_parent_id project = Some parent_id ->
    is_Some (all_projects !! parent_id).

Definition acyclic (all_projects : gmap string Project) : Prop :=
  forall id project n,
    all_projects !! id = Some project -> ancestor all_projects (S n) project <> Some project.

(** [project] is [depth] steps below a root. *)
Definition depth_is (all_projects : gmap string Project) (project : Project) (depth : nat)
  : Prop :=
  exists root, ancestor all_projects depth project = Some root /\ p_parent_id root = None.

(** The path that the walk builds along a lineage, the project first. *)
Fixpoint path_along (projects : list Project) (path : string) : string :=
  match projects with
  | [] => path
  | project :: rest =>
      path_along rest (if (String.length path =? 0)%nat then p_name project
                       else p_name project +:+ "/" +:+ path)
  end.

(** Two projects that are each other's parent. *)
Definition ping : Project := mkProject "p1" "Ping" (Some "p2").
Definition pong : Project := mkProject "p2" "Pong" (Some "p1").
Definition ping_pong : gmap string Project := <["p1" := ping]> (<["p2" := pong]> ∅).

(** [Default/Sales] and [Default/Missing]. *)
Definition default_project : Project := mkProject "p1" "Default" None.
Definition sales_project : Project := mkProject "p2" "Sales" (Some "p1").
Definition missing_project : Project := mkProject "p3" "Missing" (Some "p1").
Definition site_projects : list Project := [default_project; sales_project; missing_project].

Definition site_arena : gmap string Project := projects_by_id site_projects.

(** ** Names, paths and the walk back down *)

Fixpoint contains (c : ascii) (s : string) : bool :=
  match s with
  | EmptyString => false
  | String c' rest => bool_decide (c' = c) || contains c rest
  end.

(** A name that a path can carry: not empty, no slash in it. *)
Definition plain_name (name : string) : Prop :=
  name <> "" /\ contains slash name = false.

(** Modelled from the spec: the walk of the round-trip property ("re-walking
    children by name"), which the sample does not have.  From a set of
    parents (the parent [None] for the roots) the walk takes, name after
    name, the projects of that name whose parent is in the set. *)
Definition children_named (all_projects : gmap string Project) (parent : option string)
  (name : string) : list Project :=
  filter (fun q => p_parent_id q = parent /\ p_name q = name) (map_to_list all_projects).*2.

Fixpoint walk (all_projects : gmap string Project) (parents : list (option string))
  (names : list string) : list (option string) :=
  match names with
  | [] => parents
  | name :: rest =>
      walk all_projects
           (concat (map (fun parent =>
                           map (fun q => Some (p_id q)) (children_named all_projects parent name))
                        parents))
           rest
  end.

Definition rewalk (all_projects : gmap string Project) (names : list string)
  : list (option string) :=
  walk all_projects [None] names.

(** No two projects with the same parent have the same name. *)
Definition siblings_distinct (all_projects : gmap string Project) : Prop :=
  forall id1 q1 id2 q2,
    all_projects !! id1 = Some q1 -> all_projects !! id2 = Some q2 ->
    p_parent_id q1 = p_parent_id q2 -> p_name q1 = p_name q2 -> q1 = q2.

(** A list of projects of the arena going down from [parent]: each the
    child of the one before. *)
Inductive linked (all_projects : gmap string Project)
  : option string -> list Project -> Prop :=
| linked_nil parent : linked all_projects parent []
| linked_cons parent q rest :
    (exists id, all_projects !! id = Some q) ->
    p_parent_id q = parent ->
    linked all_projects (Some (p_id q)) rest ->
    linked all_projects parent (q :: rest).

(** A project with a slash in its name, below [Default]. *)
Definition slashed_project : Project := mkProject "p4" "Q1/Q2" (Some "p1").
Definition slashed_arena : gmap string Project :=
  projects_by_id [default_project; slashed_project].

(** A project without name, below [Default]. *)
Definition nameless_project : Project := mkProject "p5" "" (Some "p1").
Definition nameless_arena : gmap string Project :=
  projects_by_id [default_project; nameless_project].

(** Two levels: the projects without parent, and their children. *)
Definition level (q : Project) : nat :=
  match p_parent_id q with
  | Some _ => 1%nat
  | None => 0%nat
  end.

(** ** Descendants in a listing of projects *)

(** [child] is in the listing and names [project] as its parent. *)
Definition child_in (all_projects : list Project) (child project : Project) : Prop :=
  child ∈ all_projects /\ p_parent_id child = Some (p_id project).

(** [q] is a child of [above], or a child of a child, and so on. *)
Inductive descends (all_projects : list Project) : Project -> Project -> Prop :=
| descends_child q above :
    child_in all_projects q above -> descends all_projects q above
| descends_step q parent above :
    child_in all_projects q parent -> descends all_projects parent above ->
    descends all_projects q above.

(** The parent relation of the listing has no cycle. *)
Definition forest (all_projects : list Project) : Prop :=
  forall q, q ∈ all_projects -> ~ descends all_projects q q.

(** Below [project] there are at most [n] levels. *)
Fixpoint height_le (all_projects : list Project) (n : nat) (project : Project) : Prop :=
  match n with
  | O => forall child, ~ child_in all_projects child project
  | S n' => forall child, child_in all_projects child project ->
                          height_le all_projects n' child
  end.

(** Every project of [collected] is in the listing and names as its parent
    a project of [context]. *)
Definition parents_among (all_projects : list Project) (context collected : list Project)
  : Prop :=
  Forall (fun q => q ∈ all_projects
                   /\ exists above, above ∈ context /\ p_parent_id q = Some (p_id above))
         collected.

(** [Default] with [Sales] and [Missing] below it, and [Q3] below [Sales]. *)
Definition q3_project : Project := mkProject "p6" "Q3" (Some "p2").
Definition deep_projects : list Project :=
  [q3_project; default_project; sales_project; missing_project].

(** The levels of [deep_projects]. *)
Definition deep_level (q : Project) : nat :=
  if bool_decide (p_id q = "p1") then 0%nat
  else if bool_decide (p_id q = "p6") then 2%nat
  else 1%nat.

(** ** Workbooks by path: what is asked, what comes back, what is kept *)

(** The workbook name and the project path of a line of the path list. *)
Definition name_part (line : string) : string :=
  List.last (split_on slash (rstrip line)) "".

Definition path_part (line : string) : string :=
  String.concat "/" (removelast (split_on slash (rstrip line))).

(** The project path of a workbook as the loop computes it. *)
Definition workbook_path_of (limit : nat) (all_projects : gmap string Project)
  (workbook : Workbook) : res string :=
  match all_projects !! wb_project_id workbook with
  | Some project => find_project_path limit project all_projects ""
  | None => Raise (KeyError (wb_project_id workbook))
  end.

(** The project path of the workbook, when it has one and it is one of
    [paths]. *)
Definition requested_path (limit : nat) (all_projects : gmap string Project)
  (paths : list string) (workbook : Workbook) : option string :=
  match workbook_path_of limit all_projects workbook with
  | Ok path => if bool_decide (path ∈ paths) then Some path else None
  | Raise _ => None
  end.

(** The answer to one query is in order: every workbook has a project path,
    and no two workbooks share a path that was asked for. *)
Definition resolvable (limit : nat) (all_projects : gmap string Project)
  (paths : list string) (workbooks : list Workbook) : Prop :=
  Forall (fun workbook => is_ok (workbook_path_of limit all_projects workbook) = true)
         workbooks
  /\ NoDup (omap (requested_path limit all_projects paths) workbooks).

(** The workbooks of an answer that are kept. *)
Definition kept (limit : nat) (all_projects : gmap string Project)
  (paths : list string) (workbooks : list Workbook) : list Workbook :=
  filter (fun workbook => is_Some (requested_path limit all_projects paths workbook))
         workbooks.

(** The paths asked for under a name that no workbook of the answer has, in
    the order in which the set hands them out. *)
Definition unmatched (limit : nat) (all_projects : gmap string Project)
  (paths : list string) (workbooks : list Workbook) : list string :=
  elements ((list_to_set paths : gset string)
            ∖ list_to_set (omap (requested_path limit all_projects paths) workbooks)).

Definition workbooks_answer (server : Server) (h : list request) (name : string)
  : list Workbook :=
  match srv_workbooks server h name with
  | Ok workbooks => workbooks
  | Raise _ => []
  end.

(** Along the queries for [items], from the history [h] on: every answer
    comes, and is in order. *)
Fixpoint answers_resolvable (server : Server) (limit : nat)
  (all_projects : gmap string Project) (h : list request)
  (items : list (string * list string)) : Prop :=
  match items with
  | [] => True
  | (name, paths) :: rest =>
      is_ok (srv_workbooks server h name) = true
      /\ resolvable limit all_projects paths (workbooks_answer server h name)
      /\ answers_resolvable server limit all_projects (h ++ [GetWorkbooks name]) rest
  end.

(** The queries for [items], from the history [h] on, each with its
    answer. *)
Fixpoint queries (server : Server) (h : list request) (items : list (string * list string))
  : list (string * list string * list Workbook) :=
  match items with
  | [] => []
  | (name, paths) :: rest =>
      (name, paths, workbooks_answer server h name)
      :: queries server (h ++ [GetWorkbooks name]) rest
  end.

(** The workbooks kept along the queries, in order. *)
Definition all_kept (limit : nat) (all_projects : gmap string Project)
  (asked : list (string * list string * list Workbook)) : list Workbook :=
  flat_map (fun q => kept limit all_projects (snd (fst q)) (snd q)) asked.

(** The diagnostics along the queries, in order. *)
Definition all_unmatched (limit : nat) (all_projects : gmap string Project)
  (asked : list (string * list string * list Workbook)) : list output :=
  flat_map (fun q => map (fun path => Line (cannot_find path (fst (fst q))))
                         (unmatched limit all_projects (snd (fst q)) (snd q)))
           asked.

(** The lines of the path list that count, stripped. *)
Definition sanitized (file_list : option (list string)) : list string :=
  match file_list with
  | Some lines => map rstrip (filter (fun line => isspace line = false) lines)
  | None => []
  end.

Definition store (d : pydict Workbook) (workbook : Workbook) : pydict Workbook :=
  dict_set (wb_id workbook) workbook d.

(** The workbook came back for one of the queries, and its project path is
    one of the paths asked for under that name. *)
Definition matches (limit : nat) (all_projects : gmap string Project)
  (asked : list (string * list string * list Workbook)) (workbook : Workbook) : Prop :=
  exists name paths workbooks,
    (name, paths, workbooks) ∈ asked /\ workbook ∈ workbooks
    /\ exists path, workbook_path_of limit all_projects workbook = Ok path /\ path ∈ paths.

(** The line is the diagnostic for a path asked for under a name that no
    workbook of the answer for that name has. *)
Definition reports_unmatched (limit : nat) (all_projects : gmap string Project)
  (asked : list (string * list string * list Workbook)) (o : output) : Prop :=
  exists name paths workbooks path,
    (name, paths, workbooks) ∈ asked /\ path ∈ paths
    /\ o = Line (cannot_find path name)
    /\ forall workbook, workbook ∈ workbooks ->
                        workbook_path_of limit all_projects workbook <> Ok path.

(** What [sanitize_workbook_list] prints for the file. *)
Definition file_notice (file_name : string) (file_list : option (list string))
  : list output :=
  match file_list with
  | Some _ => []
  | None => [Line ("Invalid file name '" +:+ file_name +:+ "'")]
  end.

(** ** A site with two reports *)

Definition twin_project : Project := mkProject "p7" "Sales" (Some "p1").
Definition twin_report : Workbook := mkWorkbook "w4" "Report1" "p7" "Sales".

(** The path list of the scenario: one line for each report. *)
Definition two_paths (file_name : string) : option (list string) :=
  if bool_decide (file_name = "paths.txt")
  then Some ["Default/Sales/Report1" +:+ newline; "Default/Missing/Report2" +:+ newline]
  else None.

Definition one_path (file_name : string) : option (list string) :=
  if bool_decide (file_name = "paths.txt")
  then Some ["Default/Sales/Report1" +:+ newline]
  else None.

(** [Report1] lies in [Default/Sales]; the only [Report2] lies there too,
    not in [Default/Missing]. *)
Definition site_server : Server :=
  mkServer (fun _ => Ok (3, 8)%nat) (fun _ _ => Ok tt) (fun _ => Ok site_projects)
           (fun _ name => if bool_decide (name = "Report1") then Ok [sales_report]
                          else if bool_decide (name = "Report2") then Ok [other_report]
                          else Ok [])
           (fun _ => Ok [])
           (fun _ _ _ _ => Ok tt) (fun _ item => Ok item)
           (fun _ _ => Ok []) (fun _ _ => Ok tt).

(** Two projects named [Sales] below [Default], a [Report1] in each. *)
Definition twin_server : Server :=
  mkServer (fun _ => Ok (3, 8)%nat) (fun _ _ => Ok tt) (fun _ => Ok [default_project; sales_project; twin_project])
           (fun _ name => if bool_decide (name = "Report1") then Ok [sales_report; twin_report]
                          else Ok [])
           (fun _ => Ok [])
           (fun _ _ _ _ => Ok tt) (fun _ item => Ok item)
           (fun _ _ => Ok []) (fun _ _ => Ok tt).

(** ** Command lines *)

(** [--username user --create-schedule name --daily-interval --start-hour text]. *)
Definition daily_command_line (user name text : string) : CommandLine :=
  mkCommandLine (Some user) (Some name) false false None None None None None None true None
                (Some text) None None None.

(** The arguments that the parser makes of it. *)
Definition daily_args_of (user name text : string) : Args :=
  mkArgs user (Some name) None None None None None None None None (Some true) None
         (VStr text) (VInt 0) (VInt 0) (VInt 0).

(** [--username user --create-schedule name --weekly-interval] followed by
    the weekday names [days]. *)
Definition weekly_command_line (user name : string) (days : list string) : CommandLine :=
  mkCommandLine (Some user) (Some name) false false None None None None None (Some days)
                false None None None None None.

(** * More concrete inputs and notions for the project tree *)

(** [Sales] alone: its parent [p1] is not in the dictionary. *)
Definition sales_alone : gmap string Project := projects_by_id [sales_project].

(** * Lines of a list file *)

(** A text as a line of a file carries it: it has a last character, and
    that is no white space. *)
Definition clean_text (text : string) : Prop :=
  exists (init : string) (last : ascii),
    text = init +:+ String last "" /\ is_space last = false.

(** The no-break space, U+00A0. *)
Definition no_break_space : string := String (ascii_of_nat 160) "".

(** A file with the three lines [Report1], a blank line and [Report 2],
    each ended by a line feed. *)
Definition three_lines (file_name : string) : option (list string) :=
  if bool_decide (file_name = "names.txt")
  then Some ["Report1" +:+ newline; "  " +:+ newline; "Report 2" +:+ newline]
  else None.

(** * Workbooks by name, one workbook by path, projects by path *)

Section OtherResolvers.
Variable server : Server.
Variable read_lines : string -> option (list string).
Variable recursion_limit : nat.

Definition cannot_find_name (workbook_name : string) : string :=
  "Cannot find workbook name: " +:+ workbook_name
  +:+ ", each line should only contain one workbook name".

(** The body of the loop of [get_workbooks_from_names]. *)
Definition resolve_by_name (workbook_name : string)
  (workbook_id_to_workbook : pydict Workbook) : M (pydict Workbook) :=
  workbooks ← query_workbooks server (rstrip workbook_name);
  _ ← (if (length workbooks =? 0)%nat then print (cannot_find_name workbook_name)
       else mret tt);
  mret (foldl (fun d workbook => dict_set (wb_id workbook) workbook d)
              workbook_id_to_workbook workbooks).

Definition get_workbooks_from_names (name_list : string) : M (pydict Workbook) :=
  workbook_names ← sanitize_workbook_list read_lines name_list "name";
  match workbook_names with
  | Some workbook_names => for_each workbook_names resolve_by_name []
  | None => raise TypeError
  end.

(** The loop of [get_workbook_from_path], which ends at the first workbook
    whose project path is the one asked for ([break]). *)
Fixpoint first_at_path (all_projects : gmap string Project) (workbook_path : string)
  (workbooks : list Workbook) : res (pydict Workbook) :=
  match workbooks with
  | [] => Ok []
  | workbook :: rest =>
      match all_projects !! wb_project_id workbook with
      | None => Raise (KeyError (wb_project_id workbook))
      | Some project =>
          match find_project_path recursion_limit project all_projects "" with
          | Ok path =>
              if bool_decide (path = workbook_path)
              then Ok (dict_set (wb_id workbook) workbook [])
              else first_at_path all_projects workbook_path rest
          | Raise e => Raise e
          end
      end
  end.

Definition get_workbook_from_path (workbook_path : string) : M (pydict Workbook) :=
  projects ← query_projects server;
  let workbook_project := split_on slash (rstrip workbook_path) in
  workbooks ← query_workbooks server (List.last workbook_project "");
  lift (first_at_path (projects_by_id projects)
          (String.concat "/" (removelast workbook_project)) workbooks).

(** [get_project_paths(server, projects)]: the dictionary from the path of
    each project to the project. *)
Definition get_project_paths (projects : list Project) : M (pydict Project) :=
  listed ← query_projects server;
  lift (res_fold (fun project result =>
                    match find_project_path recursion_limit project
                            (projects_by_id listed) "" with
                    | Ok path => Ok (dict_set path project result)
                    | Raise e => Raise e
                    end)
                 projects []).

End OtherResolvers.

(** ** What a computation sends *)

Definition is_query (q : request) : bool :=
  match q with
  | GetProjects | GetWorkbooks _ | GetSchedules => true
  | _ => false
  end.

(** A request that changes something on the server. *)
Definition is_mutation (q : request) : bool :=
  match q with
  | AddToSchedule _ _ _ | CreateSchedule _ | HttpDelete _ => true
  | _ => false
  end.

(** Whatever the computation sends, from whatever world, is allowed. *)
Definition sends_only (allowed : request -> bool) {A} (m : M A) : Prop :=
  forall w, exists sent_now,
    sent (snd (m w)) = sent w ++ sent_now
    /\ Forall (fun q => allowed q = true) sent_now.

(** ** The answers to the queries by name *)

(** The queries for the names, from the history [h] on, each with its
    answer. *)
Fixpoint name_queries (server : Server) (h : list request) (names : list string)
  : list (string * list Workbook) :=
  match names with
  | [] => []
  | name :: rest =>
      (name, workbooks_answer server h (rstrip name))
      :: name_queries server (h ++ [GetWorkbooks (rstrip name)]) rest
  end.

Fixpoint answers_come (server : Server) (h : list request) (names : list string) : Prop :=
  match names with
  | [] => True
  | name :: rest =>
      is_ok (srv_workbooks server h (rstrip name)) = true
      /\ answers_come server (h ++ [GetWorkbooks (rstrip name)]) rest
  end.

(** The diagnostics for the names whose answer is empty. *)
Definition names_not_found (asked : list (string * list Workbook)) : list output :=
  flat_map (fun q => match snd q with
                     | [] => [Line (cannot_find_name (fst q))]
                     | _ => []
                     end) asked.

(** The project path of a workbook is there and is not [path]. *)
Definition lies_elsewhere (limit : nat) (all_projects : gmap string Project)
  (path : string) (workbook : Workbook) : Prop :=
  exists other, workbook_path_of limit all_projects workbook = Ok other /\ other <> path.

(** The file of the three lines, as names. *)
Definition names_server : Server :=
  mkServer (fun _ => Ok (3, 8)%nat) (fun _ _ => Ok tt) (fun _ => Ok site_projects)
           (fun _ name => if bool_decide (name = "Report1") then Ok [sales_report; twin_report]
                          else Ok [])
           (fun _ => Ok [])
           (fun _ _ _ _ => Ok tt) (fun _ item => Ok item)
           (fun _ _ => Ok []) (fun _ _ => Ok tt).

(** The path of the project is there and is [path]. *)
Definition has_path (limit : nat) (all_projects : gmap string Project) (path : string)
  (project : Project) : bool :=
  match find_project_path limit project all_projects "" with
  | Ok found => bool_decide (found = path)
  | Raise _ => false
  end.

(** * The schedule commands *)

Section ScheduleCommands.
Variable server : Server.
Variable read_lines : string -> option (list string).
Variable recursion_limit : nat.
(** [server.tasks.baseurl]. *)
Variable baseurl : string.
Variable str_to_float : string -> option pyfloat.
Variable str_to_int : string -> option Z.
Variable interval_check : IntervalItem -> res unit.
(** [show_materialized_views_schedules], whose table is made of fields of
    the tasks and of lookups of single workbooks that are not part of the
    records here; the commands below are embedded for whatever it does. *)
Variable show_materialized_views_schedules : Args -> M bool.

(** The rest of [main]: the commands that update a site, workbooks or a
    project, which send requests that are not part of the requests here, and
    the last statement, [if args.status: show_materialized_views_status(...)].
    [other_commands] returns whether [main] goes on to that statement. *)
Variable other_commands : Args -> M bool.
Variable status_command : Args -> M unit.

(** [TSC.Server(args.server, use_server_version=True)]: the constructor asks
    the server for its version, before any sign-in, and the endpoints work
    with that version from then on.  The class is outside these sources; its
    asking is one request here. *)
Definition use_server_version : M api_version :=
  call (srv_server_info server) GetServerInfo.

(** [list(TSC.Pager(lambda options: server.tasks.get(task_type="materializeViews")))]:
    the tasks of the answer of [Tasks.get]. *)
Definition materialize_views_tasks (version : api_version) : M (list Task) :=
  tasks_get server version baseurl "materializeViews".

(** [remove_workbook_from_materialized_views].  Its last statement calls
    [remove_materialized_views_tasks], a function of three parameters, with
    four arguments: the call raises [TypeError] once the arguments are
    evaluated, and the [return True] after the [with] block is never
    reached. *)
Definition remove_workbook_from_materialized_views (args : Args) : M bool :=
  version ← use_server_version;
  with_sign_in server (username args)
    (tasks ← materialize_views_tasks version;
     workbook_id_to_workbook ←
       match path_list args, name_list args with
       | Some path_list, _ =>
           found ← get_workbooks_from_paths server read_lines recursion_limit path_list;
           mret (Some found)
       | None, Some name_list =>
           found ← get_workbooks_from_names server read_lines name_list;
           mret (Some found)
       | None, None => mret None
       end;
     raise TypeError).

(** ['Did not find the schedule "{}"'.format(schedule_name)]. *)
Definition did_not_find (schedule_name : option string) : string :=
  "Did not find the schedule " +:+ dquote +:+ default "None" schedule_name +:+ dquote.

Definition add_workbooks_to_schedule (args : Args) : M bool :=
  let schedule_name := add_to_schedule args in
  version ← use_server_version;
  with_sign_in server (username args)
    (schedule ← find_schedule server schedule_name;
     match schedule with
     | None => _ ← print (did_not_find schedule_name); mret false
     | Some _ =>
         tasks ← materialize_views_tasks version;
         workbook_id_to_workbook ←
           match path_list args, name_list args, workbook_path args with
           | Some path_list, _, _ =>
               found ← get_workbooks_from_paths server read_lines recursion_limit path_list;
               mret (Some found)
           | None, Some name_list, _ =>
               found ← get_workbooks_from_names server read_lines name_list;
               mret (Some found)
           | None, None, Some workbook_path =>
               found ← get_workbook_from_path server recursion_limit workbook_path;
               mret (Some found)
           | None, None, None => mret None
           end;
         _ ← add_to_materialized_views_schedule server (Some tasks) schedule
               workbook_id_to_workbook;
         mret true
     end).

(** [handle_schedule_command]: the validation is called and its result is
    not used. *)
Definition handle_schedule_command (args : Args) : M bool :=
  _ ← assert_schedule_action_options_valid args;
  if bool_decide (is_Some (show_schedules args))
  then show_materialized_views_schedules args
  else if bool_decide (is_Some (remove_from_schedule args))
  then remove_workbook_from_materialized_views args
  else if bool_decide (is_Some (add_to_schedule args))
  then add_workbooks_to_schedule args
  else if negb (falsy (create_schedule args))
  then create_materialized_view_schedule server str_to_float str_to_int interval_check args
  else
    _ ← print ("Schedule option unrecognized. "
               +:+ "Accepted schedule options: create|add|delete|show");
    mret false.

(** [main]: the parser, and for a command line with one of the four schedule
    options [handle_schedule_command]; where that returns [False], [main]
    returns.  The password is taken from the command line. *)
Definition main (cl : CommandLine) : M unit :=
  match parse_args cl with
  | None => raise SystemExit
  | Some args =>
      go_on ← (if bool_decide (is_Some (show_schedules args))
                  || bool_decide (is_Some (create_schedule args))
                  || bool_decide (is_Some (remove_from_schedule args))
                  || bool_decide (is_Some (add_to_schedule args))
               then handle_schedule_command args
               else other_commands args);
      if (go_on : bool) then status_command args else mret tt
  end.

End ScheduleCommands.

(** A request that signs in or out. *)
Definition is_session (q : request) : bool :=
  match q with
  | SignIn _ | SignOut => true
  | _ => false
  end.

(** A request that reads: a listing, a [GET], that of the server info among
    them, or the sign-in and sign-out around them. *)
Definition is_read (q : request) : bool :=
  is_query q || is_session q
  || match q with HttpGet _ | GetServerInfo => true | _ => false end.

(** The url of the listing of the tasks that materialize views. *)
Definition tasks_url (baseurl : string) : string := baseurl +:+ "/" +:+ "materializeViews".

(** A command line that attaches to a schedule and names no workbook. *)
Definition attaches_nothing (args : Args) (name : string) : Prop :=
  add_to_schedule args = Some name
  /\ show_schedules args = None /\ remove_from_schedule args = None
  /\ create_schedule args = None
  /\ path_list args = None /\ name_list args = None /\ workbook_path args = None.

Definition add_args (name : string) : Args :=
  mkArgs "admin" None None None (Some name) None None None None None None None
         (VInt 0) (VInt 0) (VInt 0) (VInt 0).

Definition remove_args : Args :=
  mkArgs "admin" None None (Some true) None None None None None None None None
         (VInt 0) (VInt 0) (VInt 0) (VInt 0).

(** A [show_materialized_views_schedules] that shows nothing. *)
Definition shows_nothing : Args -> M bool := fun _ => mret true.

(** * The kinds of schedule *)

(** How many of the four interval options are given. *)
Definition kinds_given (args : Args) : nat :=
  count_some [bool_decide (is_Some (daily_interval args));
              bool_decide (is_Some (weekly_interval args));
              bool_decide (is_Some (monthly_interval args));
              bool_decide (is_Some (hourly_interval args))].

(** The end hour and the end minute are integers, the hour from 0 to 23 and
    the minute from 0 to 59. *)
Definition end_time_in_range (args : Args) : Prop :=
  exists h m : Z,
    end_hour args = VInt h /\ end_minute args = VInt m
    /\ (0 <= h <= 23)%Z /\ (0 <= m <= 59)%Z.

(** Arguments with a start time in range and one kind of interval, a monthly
    interval being a day of the month and an hourly interval having an end
    time in range. *)
Definition accepted (str_to_float : string -> option pyfloat)
  (str_to_int : string -> option Z) (args : Args) : Prop :=
  start_time_in_range str_to_float args
  /\ kinds_given args = 1%nat
  /\ (forall text, monthly_interval args = Some text ->
      exists day, str_to_int text = Some day /\ (1 <= day <= 31)%Z)
  /\ (is_Some (hourly_interval args) -> end_time_in_range args).

Definition hourly_args (end_hour end_minute : ArgVal) : Args :=
  mkArgs "admin" (Some "Quarter") None None None None None None (Some "2") None None None
         (VInt 0) (VInt 0) end_hour end_minute.

(** The line that tells of the schedule created, by the kind of its
    interval. *)
Definition created_line (args : Args) (item : ScheduleItem) : string :=
  let name := default "" (create_schedule args) in
  match si_interval_item item with
  | Hourly _ _ _ =>
      "Hourly schedule " +:+ dquote +:+ name +:+ dquote
      +:+ " created with an interval of " +:+ default "" (hourly_interval args) +:+ " hours."
  | Daily start =>
      "Daily schedule " +:+ dquote +:+ name +:+ dquote
      +:+ " created to run at " +:+ fmt_02d (hour start) +:+ ":"
      +:+ fmt_02d (minute start) +:+ "."
  | Weekly start _ =>
      "Weekly schedule " +:+ dquote +:+ name +:+ dquote
      +:+ " created to run on " +:+ str_of_list (default [] (weekly_interval args))
      +:+ " at  " +:+ fmt_02d (hour start) +:+ ":" +:+ fmt_02d (minute start) +:+ "."
  | Monthly start _ =>
      "Monthly schedule " +:+ dquote +:+ name +:+ dquote
      +:+ " created to run on " +:+ default "None" (monthly_interval args)
      +:+ "th at " +:+ fmt_02d (hour start) +:+ ":" +:+ fmt_02d (minute start) +:+ "."
  end.

(** What a computation that creates at most one schedule does from [w]:
    it raises having done nothing, or it sends the one request and ends as
    that request was answered, with the line of the schedule created where
    it was answered. *)
Definition creates_one (server : Server) (args : Args) (body : M unit) : Prop :=
  forall w,
    (exists e, body w = (Raise e, w))
    \/ exists item,
         body w = match srv_create_schedule server (sent w) item with
                  | Ok _ =>
                      (Ok tt, emit (Line (created_line args item))
                                (send (CreateSchedule item) w))
                  | Raise e => (Raise e, send (CreateSchedule item) w)
                  end.

(** The sign-in fails. *)
Definition sign_in_fails (server : Server) (user : string) (w : world) : Prop :=
  is_ok (srv_sign_in server (sent w) user) = false.

(** * Answers, and workbooks that are on the schedule already *)

(** A line that [confirm] takes for an answer. *)
Definition is_answer (line : string) : bool :=
  bool_decide (lower line = "y") || bool_decide (lower line = "n").

(** The line that tells that a workbook has a task. *)
Definition already_line (workbook : Workbook) (task : Task) : output :=
  Line ("Workbook " +:+ dquote +:+ workbook_label workbook +:+ dquote
        +:+ " is already on schedule " +:+ dquote
        +:+ schedule_name (task_schedule_item task) +:+ dquote).

(** The workbook has a task in the listing and it is on the schedule. *)
Definition on_schedule (tasks : list Task) (schedule : Schedule) (workbook : Workbook)
  : Prop :=
  exists task,
    existing_task tasks workbook = Some task
    /\ schedule_id (task_schedule_item task) = schedule_id schedule.

(** The lines about the workbooks, each with its existing task. *)
Definition already_lines (tasks : list Task) (workbooks : list Workbook) : list output :=
  omap (fun workbook => already_line workbook <$> existing_task tasks workbook) workbooks.

(** The rows of the workbooks that remain on the schedule. *)
Definition remain_rows (schedule : Schedule) (workbooks : list Workbook)
  : list (list string) :=
  map (fun workbook => [workbook_label workbook; schedule_name schedule]) workbooks.

(** The question that [add_to_materialized_views_schedule] asks. *)
Definition replace_question (schedule : Schedule) : string :=
  "Do you want to replace it with " +:+ schedule_name schedule +:+ " [Y/N]? ".

(** * The workbooks that have materialized views enabled *)

(** A workbook as [show_materialized_views_status] lists it, with
    [workbook.materialized_views_config['materialized_views_enabled']]. *)
Record ListedWorkbook := mkListedWorkbook {
  lw_workbook : Workbook;
  lw_enabled : bool
}.

(** The inner loop of [print_materialized_views_enabled_workbooks] over the
    workbooks of a site; the state is [num_workbooks] and the rows of
    [table].  [num_workbooks += len(workbooks)] adds the number of the
    workbooks of the site for each workbook that is enabled. *)
Definition count_enabled (site_name : string) (workbooks : list ListedWorkbook)
  (st : nat * list (list string)) : nat * list (list string) :=
  foldl (fun st workbook =>
           if lw_enabled workbook
           then ((fst st + length workbooks)%nat,
                 snd st ++ [[site_name; workbook_label (lw_workbook workbook)]])
           else st)
        st workbooks.

Definition enabled_header : string :=
  newline +:+ "Materialized Views is enabled on workbooks:".

(** The keys of the dictionary are pairwise different, so that the loop over
    its keys with [site_name_to_workbooks[site_name]] is the loop over its
    entries. *)
Definition print_materialized_views_enabled_workbooks
  (site_name_to_workbooks : pydict (list ListedWorkbook)) : M unit :=
  if (length site_name_to_workbooks =? 0)%nat
  then print (enabled_header +:+ " None")
  else
    let st := foldl (fun st entry => count_enabled (fst entry) (snd entry) st)
                    (0%nat, []) site_name_to_workbooks in
    if (fst st =? 0)%nat
    then print (enabled_header +:+ " None")
    else _ ← print enabled_header; print_table ["Site"; "Project/Workbook"] (snd st).

(** One row for each enabled workbook, site by site. *)
Definition enabled_rows (site_name_to_workbooks : pydict (list ListedWorkbook))
  : list (list string) :=
  flat_map (fun entry =>
              map (fun workbook => [fst entry; workbook_label (lw_workbook workbook)])
                  (filter (fun workbook => lw_enabled workbook = true) (snd entry)))
           site_name_to_workbooks.

Definition two_sites : pydict (list ListedWorkbook) :=
  [("Main", [mkListedWorkbook sales_report true; mkListedWorkbook other_report false;
             mkListedWorkbook twin_report true]);
   ("Lab", [])].

(** * Runs without input *)

(** A request that deletes. *)
Definition is_deletion (q : request) : bool :=
  match q with
  | HttpDelete _ => true
  | _ => false
  end.

(** From a world whose input is at its end, the computation leaves the
    input at its end and sends allowed requests only. *)
Definition unattended (allowed : request -> bool) {A} (m : M A) : Prop :=
  forall w, stdin w = [] ->
    stdin (snd (m w)) = []
    /\ exists sent_now,
         sent (snd (m w)) = sent w ++ sent_now
         /\ Forall (fun q => allowed q = true) sent_now.

(** The tasks endpoint lists one task: the sales report is on the hourly
    schedule. *)
Definition busy_server : Server :=
  mkServer (fun _ => Ok (3, 8)%nat) (fun _ _ => Ok tt) (fun _ => Ok site_projects)
           (fun _ name => if bool_decide (name = "Report1") then Ok [sales_report] else Ok [])
           (fun _ => Ok [hourly; nightly; nightly_again])
           (fun _ _ _ _ => Ok tt) (fun _ item => Ok item)
           (fun _ _ => Ok [task_on "t1" sales_report hourly]) (fun _ _ => Ok tt).

Definition add_one_args (name path : string) : Args :=
  mkArgs "admin" None None None (Some name) None None (Some path) None None None None
         (VInt 0) (VInt 0) (VInt 0) (VInt 0).

(** * Running the monad *)

Lemma run_bind {A B} (m : M A) (k : A -> M B) (w : world) :
  (m ≫= k) w = match m w with
               | (Ok a, w') => k a w'
               | (Raise e, w') => (Raise e, w')
               end.
Proof. reflexivity. Qed.

Lemma run_ret {A} (a : A) (w : world) : (mret a : M A) w = (Ok a, w).
Proof. reflexivity. Qed.

Lemma run_raise {A} (e : exn) (w : world) : raise (A:=A) e w = (Raise e, w).
Proof. reflexivity. Qed.

Lemma run_call {A} (answer : list request -> res A) (q : request) (w : world) :
  call answer q w = (answer (sent w), send q w).
Proof. reflexivity. Qed.

Lemma sent_send q w : sent (send q w) = sent w ++ [q].
Proof. reflexivity. Qed.

Lemma sent_emit o w : sent (emit o w) = sent w.
Proof. reflexivity. Qed.

Lemma stdout_emit o w : stdout (emit o w) = stdout w ++ [o].
Proof. reflexivity. Qed.

Lemma stdout_send q w : stdout (send q w) = stdout w.
Proof. reflexivity. Qed.

(** * Tasks endpoint *)

Lemma run_api {A} (server_version required : api_version) (body : M A) (w : world) :
  api server_version required body w
  = if version_lt server_version required then (Raise EndpointUnavailableError, w)
    else body w.
Proof. unfold api. destruct (version_lt server_version required); reflexivity. Qed.

(** C10 (as amended): [Tasks.get_by_id] with a falsy task id, and
    [Tasks.delete_task_type_and_id] with a falsy task id or a falsy task
    type, raise and leave the world as it was, no request sent: for a server
    of the version that the method asks for or a later one, 2.6 for the
    first and 3.8 for the second, the exception is the [ValueError] of the
    body; for an older server it is the [EndpointUnavailableError] of the
    [@api] gate, and the body does not run. *)
Theorem tasks_falsy_argument_raises_before_request
  (server : Server) (version : api_version) (baseurl : string) (w : world)
  (task_type task_id : option string) :
  (falsy task_id = true ->
   get_by_id server version baseurl task_id w
   = (Raise (if version_lt version (2, 6)%nat then EndpointUnavailableError
             else ValueError "No Task ID provided"), w))
  /\ (falsy task_id = true \/ falsy task_type = true ->
      exists e,
        delete_task_type_and_id server version baseurl task_type task_id w = (Raise e, w)
        /\ if version_lt version (3, 8)%nat then e = EndpointUnavailableError
           else e = ValueError (if falsy task_id then "No Task ID provided"
                                else "No Task type provided")).
Proof.
  split.
  - intros Hid. unfold get_by_id. rewrite run_api, Hid.
    destruct (version_lt version (2, 6)%nat); reflexivity.
  - intros Hfalsy. unfold delete_task_type_and_id. rewrite run_api.
    destruct (version_lt version (3, 8)%nat); [eexists; split; reflexivity |].
    destruct (falsy task_id) eqn:Hid.
    + eexists. split; reflexivity.
    + destruct Hfalsy as [Hno | Htype]; [discriminate |].
      rewrite Htype. eexists. split; reflexivity.
Qed.

Lemma tasks_falsy_argument_witness :
  falsy (Some "") = true
  /\ get_by_id quiet_server (3, 8)%nat "http://test/tasks" (Some "") fresh_world
     = (Raise (ValueError "No Task ID provided"), fresh_world)
  /\ delete_task_type_and_id quiet_server (3, 8)%nat "http://test/tasks" None (Some "t1")
       fresh_world
     = (Raise (ValueError "No Task type provided"), fresh_world).
Proof.
  split; [reflexivity |].
  pose proof (tasks_falsy_argument_raises_before_request
                quiet_server (3, 8)%nat "http://test/tasks" fresh_world None (Some ""))
    as [Hget _].
  pose proof (tasks_falsy_argument_raises_before_request
                quiet_server (3, 8)%nat "http://test/tasks" fresh_world None (Some "t1"))
    as [_ Hdel].
  split.
  - apply Hget. reflexivity.
  - destruct (Hdel (or_intror eq_refl)) as (e & Hrun & He). simpl in He. subst e. exact Hrun.
Defined.

(** C10 as the specification states it fails on a server older than the
    method asks for: for a server of version 2.3 the call with an empty task
    id ends with [EndpointUnavailableError], not with [ValueError]. *)
Lemma tasks_old_server_counterexample :
  falsy (Some "") = true
  /\ get_by_id quiet_server (2, 3)%nat "http://test/tasks" (Some "") fresh_world
     = (Raise EndpointUnavailableError, fresh_world)
  /\ ~ (exists msg,
          fst (get_by_id quiet_server (2, 3)%nat "http://test/tasks" (Some "") fresh_world)
          = Raise (ValueError msg)).
Proof.
  split; [reflexivity |]. split; [reflexivity |].
  intros [msg Hmsg]. vm_compute in Hmsg. discriminate Hmsg.
Qed.

(** With a task id and a task type, on a server that is new enough, the
    endpoint does send its request. *)
Lemma delete_task_type_and_id_sends (server : Server) (version : api_version)
  (baseurl : string) (w : world) (task_type task_id : option string) :
  version_lt version (3, 8)%nat = false ->
  falsy task_id = false -> falsy task_type = false ->
  sent (snd (delete_task_type_and_id server version baseurl task_type task_id w))
  = sent w ++ [HttpDelete (baseurl +:+ "/" +:+ default "" task_type +:+ "/"
                           +:+ default "" task_id)].
Proof.
  intros Hversion Hid Htype. unfold delete_task_type_and_id.
  rewrite run_api, Hversion, Hid, Htype. reflexivity.
Qed.

(** * Schedule lookup *)

Lemma first_named_Some name schedules s :
  first_named name schedules = Some s <->
  exists before after,
    schedules = before ++ s :: after /\ schedule_name s = name
    /\ Forall (fun s' => schedule_name s' <> name) before.
Proof.
  induction schedules as [| x rest IH]; simpl.
  - split; [discriminate |]. intros (before & after & Heq & _).
    destruct before; discriminate.
  - case_bool_decide as Hname.
    + split.
      * intros [= ->]. exists [], rest. auto.
      * intros (before & after & Heq & Hs & Hbefore).
        destruct before as [| b before]; simpl in Heq.
        -- congruence.
        -- injection Heq as -> _. apply Forall_cons in Hbefore as [Hb _]. congruence.
    + rewrite IH. split.
      * intros (before & after & -> & Hs & Hbefore).
        exists (x :: before), after. repeat split; auto.
      * intros (before & after & Heq & Hs & Hbefore).
        destruct before as [| b before]; simpl in Heq.
        -- injection Heq as -> _. congruence.
        -- injection Heq as -> ->. apply Forall_cons in Hbefore as [_ Hbefore]. eauto.
Qed.

Lemma first_named_None name schedules :
  first_named name schedules = None <->
  Forall (fun s' => schedule_name s' <> name) schedules.
Proof.
  induction schedules as [| x rest IH]; simpl.
  - split; auto.
  - case_bool_decide as Hname.
    + split; [discriminate |]. intros H. apply Forall_cons in H as [H _]. congruence.
    + rewrite IH. split.
      * intros H. constructor; auto.
      * intros H. apply Forall_cons in H as [_ H]. exact H.
Qed.

(** C9: over a schedule listing, [find_schedule] with a name returns the
    first schedule of the listing that has the name, and [None] when no
    schedule has it; with [None] for a name it returns [None] (and asks the
    server nothing). *)
Theorem find_schedule_first_match
  (server : Server) (w : world) (schedules : list Schedule) (name : string) :
  srv_schedules server (sent w) = Ok schedules ->
  (forall s,
     fst (find_schedule server (Some name) w) = Ok (Some s) <->
     exists before after,
       schedules = before ++ s :: after /\ schedule_name s = name
       /\ Forall (fun s' => schedule_name s' <> name) before)
  /\ (fst (find_schedule server (Some name) w) = Ok None <->
      Forall (fun s' => schedule_name s' <> name) schedules)
  /\ find_schedule server None w = (Ok None, w).
Proof.
  intros Hlisting.
  assert (Hrun : fst (find_schedule server (Some name) w)
                 = Ok (first_named name schedules)).
  { unfold find_schedule, all_schedules. rewrite run_bind, run_call, Hlisting.
    reflexivity. }
  rewrite Hrun. repeat split.
  - intros [= H]. apply first_named_Some in H. exact H.
  - intros H. apply first_named_Some in H. congruence.
  - intros [= H]. apply first_named_None. exact H.
  - intros H. apply first_named_None in H. congruence.
Qed.

Lemma find_schedule_first_match_witness :
  srv_schedules schedule_server (sent fresh_world) = Ok [hourly; nightly; nightly_again]
  /\ fst (find_schedule schedule_server (Some "Nightly") fresh_world) = Ok (Some nightly)
  /\ find_schedule schedule_server None fresh_world = (Ok None, fresh_world).
Proof.
  split; [reflexivity |].
  destruct (find_schedule_first_match schedule_server fresh_world
              [hourly; nightly; nightly_again] "Nightly" eq_refl) as (Hsome & _ & Hnone).
  split; [| exact Hnone].
  apply Hsome. exists [hourly], [nightly_again].
  repeat split. constructor; [| constructor]. discriminate.
Defined.

(** * Computations that send no request *)

Lemma sends_nothing_ret {A} (a : A) : sends_nothing (mret a : M A).
Proof. intros w. reflexivity. Qed.

Lemma sends_nothing_raise {A} (e : exn) : sends_nothing (raise (A:=A) e).
Proof. intros w. reflexivity. Qed.

Lemma sends_nothing_lift {A} (r : res A) : sends_nothing (lift r).
Proof. intros w. reflexivity. Qed.

Lemma sends_nothing_print text : sends_nothing (print text).
Proof. intros w. reflexivity. Qed.

Lemma sends_nothing_print_table names rows : sends_nothing (print_table names rows).
Proof. intros w. reflexivity. Qed.

Lemma sends_nothing_bind {A B} (m : M A) (k : A -> M B) :
  sends_nothing m -> (forall a, sends_nothing (k a)) -> sends_nothing (m ≫= k).
Proof.
  intros Hm Hk w. rewrite run_bind. specialize (Hm w).
  destruct (m w) as [[a | e] w']; simpl in *.
  - rewrite Hk. exact Hm.
  - exact Hm.
Qed.

Lemma sends_nothing_try {A} (body : M A) (handler : string -> string -> M A) :
  sends_nothing body -> (forall s d, sends_nothing (handler s d)) ->
  sends_nothing (try_except body handler).
Proof.
  intros Hbody Hhandler w. unfold try_except. specialize (Hbody w).
  destruct (body w) as [[a | e] w']; simpl in *; [exact Hbody |].
  destruct e; simpl; try exact Hbody.
  rewrite Hhandler. exact Hbody.
Qed.

Lemma confirm_loop_sent message lines out :
  forall r out' rest, confirm_loop message lines out = (r, out', rest) ->
  exists prompts, out' = out ++ prompts.
Proof.
  revert out. induction lines as [| line lines IH]; intros out r out' rest; simpl.
  - intros [= <- <- <-]. eauto.
  - repeat case_bool_decide.
    + intros [= <- <- <-]. eauto.
    + intros [= <- <- <-]. eauto.
    + intros Hrec. apply IH in Hrec as [prompts ->]. rewrite <- app_assoc. eauto.
Qed.

Lemma sends_nothing_confirm message : sends_nothing (confirm message).
Proof.
  intros w. unfold confirm.
  destruct (confirm_loop message (stdin w) (stdout w)) as [[r out] rest]. reflexivity.
Qed.

Ltac sends_nothing :=
  repeat first
    [ apply sends_nothing_ret
    | apply sends_nothing_raise
    | apply sends_nothing_lift
    | apply sends_nothing_print
    | apply sends_nothing_print_table
    | apply sends_nothing_confirm
    | apply sends_nothing_bind
    | apply sends_nothing_try
    | match goal with
      | |- forall _, _ => intro
      | |- sends_nothing (if ?b then _ else _) => destruct b
      | |- sends_nothing (match ?x with _ => _ end) => destruct x
      end ].

(** * Creating a schedule: validation *)

Section Validation.
Variable server : Server.
Variable str_to_float : string -> option pyfloat.
Variable str_to_int : string -> option Z.
Variable interval_check : IntervalItem -> res unit.

Lemma float_between_true lo hi f :
  float_between lo hi f = true <->
  exists q, f = FNum q /\ (inject_Z lo <= q)%Q /\ (q <= inject_Z hi)%Q.
Proof.
  destruct f as [q | b |]; simpl.
  - rewrite andb_true_iff, !Qle_bool_iff. split.
    + intros [Hlo Hhi]. exists q. auto.
    + intros (q' & [= <-] & Hlo & Hhi). auto.
  - split; [discriminate | intros (q & Hq & _); discriminate].
  - split; [discriminate | intros (q & Hq & _); discriminate].
Qed.

Lemma py_float_not_none v f : py_float str_to_float v = Ok f -> is_none v = false.
Proof. destruct v; simpl; [discriminate | reflexivity | reflexivity]. Qed.

(** The first test lets the start time pass exactly when it is in range. *)
Lemma start_time_refused_false args :
  start_time_refused str_to_float args = Ok false <->
  start_time_in_range str_to_float args.
Proof.
  unfold start_time_refused, start_time_in_range. split.
  - destruct (is_none (start_hour args)); [discriminate |].
    destruct (py_float str_to_float (start_hour args)) as [h | e]; simpl; [| discriminate].
    destruct (float_between 0 23 h) eqn:Hh; simpl; [| discriminate].
    destruct (is_none (start_minute args)); [discriminate |].
    destruct (py_float str_to_float (start_minute args)) as [m | e]; simpl; [| discriminate].
    destruct (float_between 0 59 m) eqn:Hm; simpl; [| discriminate].
    intros _.
    apply float_between_true in Hh as (qh & -> & Hh0 & Hh23).
    apply float_between_true in Hm as (qm & -> & Hm0 & Hm59).
    exists qh, qm. auto 10.
  - intros (h & m & Hfh & Hfm & Hh0 & Hh23 & Hm0 & Hm59).
    rewrite (py_float_not_none _ _ Hfh), Hfh. unfold mbind, res_bind.
    assert (Hh : float_between 0 23 (FNum h) = true).
    { apply float_between_true. exists h. auto. }
    assert (Hm : float_between 0 59 (FNum m) = true).
    { apply float_between_true. exists m. auto. }
    rewrite Hh. simpl negb. cbv iota.
    rewrite (py_float_not_none _ _ Hfm), Hfm, Hm. reflexivity.
Qed.

Lemma verify_time_arguments_refused args w :
  start_time_refused str_to_float args <> Ok false ->
  sent (snd (verify_time_arguments str_to_float str_to_int args w)) = sent w
  /\ fst (verify_time_arguments str_to_float str_to_int args w) <> Ok true.
Proof.
  intros Hrefused. unfold verify_time_arguments. rewrite run_bind. unfold lift.
  destruct (start_time_refused str_to_float args) as [[|] | e]; simpl.
  - split; [reflexivity | discriminate].
  - contradiction.
  - split; [reflexivity | discriminate].
Qed.

Lemma schedule_type_none_run selected w :
  schedule_type_none selected w
  = match selected with
    | None => (Ok true, w)
    | Some _ =>
        (Ok false,
         emit (Line ("Please select one of the schedule types: hourly-interval, daily-interval, "
                     +:+ "weekly-interval, monthly-interval")) w)
    end.
Proof. destruct selected; reflexivity. Qed.

(** Whatever [verify_time_arguments] answers, it has sent nothing. *)
Lemma verify_time_arguments_sends_nothing args :
  sends_nothing (verify_time_arguments str_to_float str_to_int args).
Proof.
  unfold verify_time_arguments, and_then, verify_weekly, verify_monthly, verify_hourly,
    schedule_type_none.
  sends_nothing.
Qed.

(** A start time that passed and one selected kind without parameters of
    its own: accepted, nothing printed. *)
Lemma verify_daily_only args w :
  daily_only args ->
  start_time_refused str_to_float args = Ok false ->
  verify_time_arguments str_to_float str_to_int args w = (Ok true, w).
Proof.
  intros ([d Hd] & Hw & Hm & Hh) Hstart.
  unfold verify_time_arguments, and_then, verify_weekly, verify_monthly, verify_hourly, lift.
  rewrite run_bind, Hstart, Hd, Hw, Hm, Hh. reflexivity.
Qed.

Lemma create_refused_sends_nothing args w :
  fst (verify_time_arguments str_to_float str_to_int args w) <> Ok true ->
  sent (snd (create_materialized_view_schedule server str_to_float str_to_int
               interval_check args w)) = sent w
  /\ fst (create_materialized_view_schedule server str_to_float str_to_int
            interval_check args w) <> Ok true.
Proof.
  intros Hno. unfold create_materialized_view_schedule. rewrite run_bind.
  pose proof (verify_time_arguments_sends_nothing args w) as Hsent.
  destruct (verify_time_arguments str_to_float str_to_int args w) as [[[|] | e] w'];
    simpl in *.
  - contradiction.
  - split; [exact Hsent | discriminate].
  - split; [exact Hsent | discriminate].
Qed.

Lemma parse_start_minute_choices given v :
  parse_start_minute given = Some v ->
  v = VInt 0 \/ exists text, v = VStr text /\ text ∈ start_minute_choices.
Proof.
  destruct given as [text |]; simpl.
  - case_bool_decide as Hin; [| discriminate]. intros [= <-]. right. eauto.
  - intros [= <-]. left. reflexivity.
Qed.

Lemma parse_weekly_interval_days given days :
  parse_weekly_interval given = Some (Some days) ->
  days <> [] /\ Forall (fun day => day ∈ weekly_interval_choices) days.
Proof.
  destruct given as [[| day rest] |]; simpl; try discriminate.
  destruct (bool_decide (day ∈ weekly_interval_choices)) eqn:Hday; simpl; [| discriminate].
  destruct (forallb _ rest) eqn:Hrest; [| discriminate].
  intros [= <-]. split; [discriminate |].
  constructor.
  - apply bool_decide_eq_true in Hday. exact Hday.
  - rewrite forallb_forall in Hrest. apply Forall_forall. intros d Hd.
    apply list_elem_of_In in Hd. apply Hrest in Hd. apply bool_decide_eq_true in Hd. exact Hd.
Qed.

End Validation.

(** * The command line of a schedule *)

Section Invocation.
Variable server : Server.
Variable read_lines : string -> option (list string).
Variable recursion_limit : nat.
Variable baseurl : string.
Variable str_to_float : string -> option pyfloat.
Variable str_to_int : string -> option Z.
Variable interval_check : IntervalItem -> res unit.
Variable show_materialized_views_schedules : Args -> M bool.
Variable other_commands : Args -> M bool.
Variable status_command : Args -> M unit.

Lemma parse_args_weekly (cl : CommandLine) (args : Args) :
  parse_args cl = Some args ->
  parse_weekly_interval (cl_weekly_interval cl) = Some (weekly_interval args).
Proof.
  unfold parse_args. destruct (cl_username cl) as [user |]; [| discriminate].
  simpl. destruct (match cl_hourly_interval cl with
                   | Some text => _
                   | None => _
                   end) as [hourly |]; [| discriminate].
  simpl. destruct (parse_weekly_interval (cl_weekly_interval cl)) as [weekly |];
    [| discriminate].
  simpl. destruct (parse_start_minute (cl_start_minute cl)) as [minute |]; [| discriminate].
  intros [= <-]. reflexivity.
Qed.

(** C4: a command line that gives [--weekly-interval] no weekday does not
    pass the parser, whose [nargs="+"] asks for one value or more: [main]
    leaves by the parser's exit with the world as it was, before any
    request, and no schedule is created.  And the arguments that do pass the
    parser never hold an empty list of days: what [verify_time_arguments]
    and [create_weekly_schedule] receive for a weekly schedule is one
    weekday name or more. *)
Theorem weekly_without_days_refused (cl : CommandLine) (w : world) :
  cl_weekly_interval cl = Some [] ->
  parse_args cl = None
  /\ main server read_lines recursion_limit baseurl str_to_float str_to_int interval_check
       show_materialized_views_schedules other_commands status_command cl w
     = (Raise SystemExit, w)
  /\ (forall cl' args days,
        parse_args cl' = Some args -> weekly_interval args = Some days ->
        days <> [] /\ Forall (fun day => day ∈ weekly_interval_choices) days).
Proof.
  intros Hnone.
  assert (Hparse : parse_args cl = None).
  { unfold parse_args. rewrite Hnone.
    destruct (cl_username cl) as [user |]; [| reflexivity]. simpl.
    destruct (match cl_hourly_interval cl with
              | Some text => _
              | None => _
              end); reflexivity. }
  split; [exact Hparse |]. split.
  - unfold main. rewrite Hparse. reflexivity.
  - intros cl' args days Hargs Hdays. apply parse_args_weekly in Hargs.
    rewrite Hdays in Hargs. eapply parse_weekly_interval_days. exact Hargs.
Qed.

Lemma create_daily_after_sign_in (user name text : string) (h : Q) (w : world) :
  str_to_float text = Some (FNum h) -> (0 <= h)%Q -> (h <= 23)%Q ->
  str_to_int text = None ->
  srv_sign_in server (sent w) user = Ok tt ->
  create_materialized_view_schedule server str_to_float str_to_int interval_check
    (daily_args_of user name text) w
  = (Raise (ValueError "invalid literal for int()"),
     mkWorld (sent w ++ [SignIn user; SignOut]) (stdout w) (stdin w)).
Proof.
  intros Hfloat Hlo Hhi Hint Hsign.
  assert (Hrange : start_time_in_range str_to_float (daily_args_of user name text)).
  { exists h, 0%Q. simpl. rewrite Hfloat. repeat split; try assumption; discriminate. }
  unfold create_materialized_view_schedule. rewrite run_bind.
  rewrite (verify_daily_only str_to_float str_to_int (daily_args_of user name text) w).
  - change (negb true) with false. cbv iota. unfold try_except, with_sign_in. cbv beta.
    rewrite !run_bind, run_call. unfold daily_args_of.
    cbn [username hourly_interval daily_interval]. rewrite Hsign. cbv iota.
    unfold create_daily_schedule. rewrite run_bind. unfold lift, time_of.
    cbn [start_hour py_int]. rewrite Hint.
    unfold send. simpl. rewrite <- app_assoc. reflexivity.
  - repeat split. eexists. reflexivity.
  - apply start_time_refused_false. exact Hrange.
Qed.

(** C3, where the code parts from it: the start hour is tested as a float
    and used as an integer.  For the command line of a daily schedule whose
    start hour is a text that [float] reads as a number from 0 to 23 and
    [int] refuses, as [8.5] is, the validation lets the start time pass,
    [main] signs in, and only then, in the session, [int] raises
    [ValueError]: the start time is not refused before the first request. *)
Theorem start_hour_is_tested_as_float
  (user name text : string) (h : Q) (w : world) :
  name <> "" ->
  str_to_float text = Some (FNum h) -> (0 <= h)%Q -> (h <= 23)%Q ->
  str_to_int text = None ->
  srv_sign_in server (sent w) user = Ok tt ->
  parse_args (daily_command_line user name text) = Some (daily_args_of user name text)
  /\ verify_time_arguments str_to_float str_to_int (daily_args_of user name text) w
     = (Ok true, w)
  /\ main server read_lines recursion_limit baseurl str_to_float str_to_int interval_check
       show_materialized_views_schedules other_commands status_command
       (daily_command_line user name text) w
     = (Raise (ValueError "invalid literal for int()"),
        mkWorld (sent w ++ [SignIn user; SignOut]) (stdout w) (stdin w)).
Proof.
  intros Hname Hfloat Hlo Hhi Hint Hsign.
  split; [reflexivity |]. split.
  - apply verify_daily_only; [repeat split; eexists; reflexivity |].
    apply start_time_refused_false. exists h, 0%Q. simpl. rewrite Hfloat.
    repeat split; try assumption; discriminate.
  - unfold main.
    change (parse_args (daily_command_line user name text))
      with (Some (daily_args_of user name text)).
    cbv iota. rewrite run_bind.
    change (bool_decide (is_Some (show_schedules (daily_args_of user name text)))
            || bool_decide (is_Some (create_schedule (daily_args_of user name text)))
            || bool_decide (is_Some (remove_from_schedule (daily_args_of user name text)))
            || bool_decide (is_Some (add_to_schedule (daily_args_of user name text))))
      with true.
    cbv iota. unfold handle_schedule_command. rewrite run_bind.
    change (assert_schedule_action_options_valid (daily_args_of user name text) w)
      with (Ok true, w).
    cbv iota.
    change (bool_decide (is_Some (show_schedules (daily_args_of user name text))))
      with false.
    change (bool_decide (is_Some (remove_from_schedule (daily_args_of user name text))))
      with false.
    change (bool_decide (is_Some (add_to_schedule (daily_args_of user name text))))
      with false.
    cbv iota.
    change (falsy (create_schedule (daily_args_of user name text)))
      with (bool_decide (name = "")).
    rewrite bool_decide_eq_false_2 by exact Hname.
    change (negb false) with true. cbv iota.
    rewrite (create_daily_after_sign_in user name text h w Hfloat Hlo Hhi Hint Hsign).
    reflexivity.
Qed.

End Invocation.

Lemma weekly_without_days_refused_witness :
  main quiet_server (fun _ => None) 1000 "tasks" dec_float dec_int no_interval_check
    (fun _ => mret true) (fun _ => mret true) (fun _ => mret tt)
    (weekly_command_line "admin" "Weekend" []) fresh_world
  = (Raise SystemExit, fresh_world).
Proof.
  apply (weekly_without_days_refused quiet_server (fun _ => None) 1000 "tasks" dec_float
           dec_int no_interval_check (fun _ => mret true) (fun _ => mret true)
           (fun _ => mret tt) (weekly_command_line "admin" "Weekend" []) fresh_world).
  reflexivity.
Defined.

(** With a day the same command line passes, and the days reach the
    server. *)
Example weekly_with_a_day_creates :
  sent (snd (main quiet_server (fun _ => None) 1000 "tasks" dec_float dec_int
               no_interval_check (fun _ => mret true) (fun _ => mret true)
               (fun _ => mret tt) (weekly_command_line "admin" "Weekend" ["Sunday"])
               fresh_world))
  = [SignIn "admin";
     CreateSchedule (mkScheduleItem "Weekend" 75 "MaterializeViews" "Parallel"
                       (Weekly (mkTime 0 0) ["Sunday"]));
     SignOut].
Proof. vm_compute. reflexivity. Qed.

Lemma start_hour_is_tested_as_float_witness :
  main quiet_server (fun _ => None) 1000 "tasks" dec_float dec_int no_interval_check
    (fun _ => mret true) (fun _ => mret true) (fun _ => mret tt)
    (daily_command_line "admin" "Quarter" "8.5") fresh_world
  = (Raise (ValueError "invalid literal for int()"),
     mkWorld [SignIn "admin"; SignOut] [] []).
Proof.
  apply (start_hour_is_tested_as_float quiet_server (fun _ => None) 1000 "tasks" dec_float
           dec_int no_interval_check (fun _ => mret true) (fun _ => mret true)
           (fun _ => mret tt) "admin" "Quarter" "8.5" (85 # 10)%Q fresh_world);
    try reflexivity; try discriminate.
Defined.
(** * Detaching workbooks from their schedule *)

Section DetachFacts.
Variable server : Server.
Variable workbook_id_to_workbook : pydict Workbook.

Lemma dict_mem_get {V} (k : string) (d : pydict V) :
  dict_mem k d = true <-> is_Some (dict_get k d).
Proof. unfold dict_mem. apply bool_decide_eq_true. Qed.

Lemma dict_mem_false {V} (k : string) (d : pydict V) :
  dict_mem k d = false <-> dict_get k d = None.
Proof.
  unfold dict_mem. rewrite bool_decide_eq_false, <- eq_None_not_Some. reflexivity.
Qed.

Lemma world_eta w : mkWorld (sent w) (stdout w) (stdin w) = w.
Proof. destruct w; reflexivity. Qed.

(** One turn of the loop on a task that has a target: a task that is asked
    for ends the loop, at the call of the method that is not there. *)
Lemma remove_task_run task st w :
  is_Some (task_target task) ->
  remove_task server workbook_id_to_workbook task st w
  = if targets_requested workbook_id_to_workbook task then (Raise AttributeError, w)
    else (Ok st, w).
Proof.
  intros [target Htarget]. unfold remove_task, targets_requested. rewrite Htarget.
  destruct (dict_get (target_id target) workbook_id_to_workbook) as [workbook |] eqn:Hget.
  - assert (Hmem : dict_mem (target_id target) workbook_id_to_workbook = true).
    { apply dict_mem_get. rewrite Hget. eauto. }
    rewrite Hmem. reflexivity.
  - assert (Hmem : dict_mem (target_id target) workbook_id_to_workbook = false).
    { apply dict_mem_false. exact Hget. }
    rewrite Hmem. reflexivity.
Qed.

Lemma targets_requested_target task :
  targets_requested workbook_id_to_workbook task = true -> is_Some (task_target task).
Proof. unfold targets_requested. destruct (task_target task); [eauto | discriminate]. Qed.

(** The loop passes over the tasks that are not asked for and ends at the
    first that is. *)
Lemma remove_loop_passes (tasks : list Task) :
  Forall (fun task => is_Some (task_target task)
                      /\ targets_requested workbook_id_to_workbook task = false) tasks ->
  forall st w,
    for_each tasks (remove_task server workbook_id_to_workbook) st w = (Ok st, w).
Proof.
  induction 1 as [| task rest [Htarget Hnot] _ IH]; intros st w; [reflexivity |].
  cbn [for_each]. rewrite run_bind, remove_task_run by exact Htarget.
  rewrite Hnot. apply IH.
Qed.

Lemma remove_loop_stops (before : list Task) (task : Task) (after : list Task) :
  Forall (fun task => is_Some (task_target task)
                      /\ targets_requested workbook_id_to_workbook task = false) before ->
  targets_requested workbook_id_to_workbook task = true ->
  forall st w,
    for_each (before ++ task :: after) (remove_task server workbook_id_to_workbook) st w
    = (Raise AttributeError, w).
Proof.
  induction 1 as [| other rest [Htarget Hnot] _ IH]; intros Hasked st w.
  - cbn [app for_each]. rewrite run_bind.
    rewrite remove_task_run by (apply targets_requested_target; exact Hasked).
    rewrite Hasked. reflexivity.
  - cbn [app for_each]. rewrite run_bind, remove_task_run by exact Htarget.
    rewrite Hnot. apply IH. exact Hasked.
Qed.

Lemma remove_task_sends_nothing task st :
  sends_nothing (remove_task server workbook_id_to_workbook task st).
Proof. unfold remove_task, tasks_delete. sends_nothing. Qed.

End DetachFacts.

Lemma for_each_sends_nothing {A S} (xs : list A) (body : A -> S -> M S) :
  (forall x st, sends_nothing (body x st)) ->
  forall st, sends_nothing (for_each xs body st).
Proof.
  intros Hbody. induction xs as [| x rest IH]; intros st; cbn [for_each].
  - apply sends_nothing_ret.
  - apply sends_nothing_bind; [apply Hbody | exact IH].
Qed.

(** C8, where the code parts from it: [remove_materialized_views_tasks]
    deletes no task.  Its loop passes over the tasks that are not asked for;
    at the first task whose target is among the workbooks asked for it calls
    [server.tasks.delete], a method that the tasks endpoint does not have,
    and ends with [AttributeError], nothing sent, nothing counted and
    nothing reported; the tasks after it are not looked at.  Whatever the
    tasks and the workbooks, the function sends no request. *)
Theorem detach_ends_at_the_first_requested_task
  (server : Server) (requested : pydict Workbook) (w : world)
  (before : list Task) (task : Task) (after : list Task) :
  Forall (fun task => is_Some (task_target task)
                      /\ targets_requested requested task = false) before ->
  targets_requested requested task = true ->
  remove_materialized_views_tasks server (Some (before ++ task :: after)) (Some requested) w
  = (Raise AttributeError, w)
  /\ (forall tasks workbooks w',
        sent (snd (remove_materialized_views_tasks server tasks workbooks w')) = sent w').
Proof.
  intros Hbefore Hasked. split.
  - unfold remove_materialized_views_tasks.
    destruct requested as [| entry rest] eqn:Hrequested.
    { unfold targets_requested in Hasked. destruct (task_target task); discriminate. }
    rewrite <- Hrequested in *.
    destruct (before ++ task :: after) as [| first others] eqn:Htasks.
    { destruct before; discriminate. }
    rewrite <- Htasks. rewrite run_bind.
    rewrite (remove_loop_stops server requested before task after Hbefore Hasked).
    reflexivity.
  - intros tasks workbooks. unfold remove_materialized_views_tasks.
    assert (Hloop : forall d l st,
              sends_nothing (for_each l (remove_task server d) st)).
    { intros d l. apply for_each_sends_nothing. intros x st.
      apply remove_task_sends_nothing. }
    destruct workbooks as [[| entry rest] |]; [sends_nothing | | sends_nothing].
    destruct tasks as [[| first others] |]; [sends_nothing | | sends_nothing].
    apply sends_nothing_bind; [apply Hloop |]. sends_nothing.
Qed.

Lemma detach_ends_at_the_first_requested_task_witness :
  remove_materialized_views_tasks quiet_server (Some three_tasks) (Some two_workbooks)
    fresh_world
  = (Raise AttributeError, fresh_world).
Proof.
  apply (detach_ends_at_the_first_requested_task quiet_server two_workbooks fresh_world
           [task_on "t3" unrelated_report nightly] (task_on "t1" sales_report nightly)
           [task_on "t2" other_report hourly]).
  - repeat constructor. eexists. reflexivity.
  - reflexivity.
Defined.

(** A task without target ends the loop in the same way, at
    [task.target.id]: the listing of the tests of the endpoint has such
    tasks. *)
Example detach_orphan_run :
  remove_materialized_views_tasks quiet_server (Some [orphan_task]) (Some two_workbooks)
    fresh_world
  = (Raise AttributeError, fresh_world).
Proof. reflexivity. Qed.

(** * Attaching workbooks to a schedule *)

Lemma confirm_loop_answer message lines out :
  fst (fst (confirm_loop message lines out)) = answer_of lines.
Proof.
  revert out. induction lines as [| line rest IH]; intros out; simpl; [reflexivity |].
  repeat case_bool_decide; try reflexivity. apply IH.
Qed.

Lemma confirm_run message w :
  exists w', confirm message w = (answer_of (stdin w), w') /\ sent w' = sent w.
Proof.
  unfold confirm. pose proof (confirm_loop_answer message (stdin w) (stdout w)) as Hanswer.
  destruct (confirm_loop message (stdin w) (stdout w)) as [[r out] rest]. simpl in Hanswer.
  subst r. eexists. split; reflexivity.
Qed.

(** The index built from the listing maps a workbook id to the last task
    that targets the workbook. *)
Lemma index_tasks_lookup tasks :
  Forall (fun task => is_Some (task_target task)) tasks ->
  forall index0, exists index,
    index_tasks tasks index0 = Ok index
    /\ forall id,
         index !! id
         = match last (filter (fun task => targets_workbook id task = true) tasks) with
           | Some task => Some task
           | None => index0 !! id
           end.
Proof.
  induction 1 as [| task rest [target Htarget] _ IH]; intros index0.
  - exists index0. split; reflexivity.
  - simpl. rewrite Htarget.
    destruct (IH (if bool_decide (target_type target = "workbook")
                  then <[target_id target := task]> index0 else index0))
      as (index & Hindex & Hlookup).
    exists index. split; [exact Hindex |]. intros id. rewrite Hlookup.
    assert (Htask : targets_workbook id task
                    = bool_decide (target_type target = "workbook")
                      && bool_decide (target_id target = id)).
    { unfold targets_workbook. rewrite Htarget. reflexivity. }
    rewrite filter_cons, Htask.
    destruct (last (filter (fun t => targets_workbook id t = true) rest)) as [t |] eqn:Hlast.
    + destruct (decide _); [| rewrite Hlast; reflexivity].
      rewrite last_cons, Hlast. reflexivity.
    + apply last_None in Hlast. rewrite Hlast.
      case_bool_decide as Htype; case_bool_decide as Hid; simpl.
      * subst id. rewrite lookup_insert_eq. reflexivity.
      * rewrite lookup_insert_ne by exact Hid. reflexivity.
      * reflexivity.
      * reflexivity.
Qed.

Section AttachFacts.
Variable server : Server.
Variable schedule : Schedule.
Variable workbook : Workbook.

(** The last three statements of the body, under the [try]. *)
Lemma add_and_report_run handler st w :
  exists w',
    sent w' = sent w ++ [add_request schedule workbook]
    /\ try_except (add_and_report server schedule workbook st) handler w
       = match srv_add_to_schedule server (sent w) (schedule_id schedule) workbook
                 "materializeViews" with
         | Ok _ =>
             (Ok (S (fst st), snd st ++ [[workbook_label workbook; schedule_name schedule]]),
              w')
         | Raise (ServerResponseError summary detail) => handler summary detail w'
         | Raise e => (Raise e, w')
         end.
Proof.
  exists (send (add_request schedule workbook) w). split; [reflexivity |].
  unfold try_except, add_and_report, schedules_add_to_schedule.
  rewrite run_bind, run_call.
  destruct (srv_add_to_schedule server (sent w) (schedule_id schedule) workbook
              "materializeViews") as [[] | e]; [reflexivity |].
  destruct e; reflexivity.
Qed.

Lemma attach_new index st w :
  index !! wb_id workbook = None ->
  sent (snd (attach_workbook server schedule index workbook st w))
  = sent w ++ [add_request schedule workbook]
  /\ (srv_add_to_schedule server (sent w) (schedule_id schedule) workbook "materializeViews"
      = Ok tt ->
      fst (attach_workbook server schedule index workbook st w)
      = Ok (S (fst st), snd st ++ [[workbook_label workbook; schedule_name schedule]])).
Proof.
  intros Hnone.
  assert (Hbody : attach_workbook server schedule index workbook st w
                  = try_except (add_and_report server schedule workbook st)
                      (fun summary detail => _ ← print (error_line summary detail); mret st)
                      w).
  { unfold attach_workbook. rewrite Hnone. reflexivity. }
  rewrite Hbody. clear Hbody.
  destruct (add_and_report_run
              (fun summary detail => _ ← print (error_line summary detail); mret st) st w)
    as (w' & Hsent & ->).
  destruct (srv_add_to_schedule server (sent w) (schedule_id schedule) workbook
              "materializeViews") as [[] | e].
  - split; [exact Hsent | reflexivity].
  - split; [| discriminate]. destruct e; exact Hsent.
Qed.

Lemma attach_same index task st w :
  index !! wb_id workbook = Some task ->
  schedule_id (task_schedule_item task) = schedule_id schedule ->
  sent (snd (attach_workbook server schedule index workbook st w)) = sent w
  /\ fst (attach_workbook server schedule index workbook st w)
     = Ok (fst st, snd st ++ [[workbook_label workbook; schedule_name schedule]]).
Proof.
  intros Hsome Hsame. unfold attach_workbook, try_except. rewrite Hsome, run_bind.
  simpl. rewrite bool_decide_eq_true_2 by exact Hsame. split; reflexivity.
Qed.

Lemma attach_declined index task st w :
  index !! wb_id workbook = Some task ->
  schedule_id (task_schedule_item task) <> schedule_id schedule ->
  answer_of (stdin w) = Ok false ->
  sent (snd (attach_workbook server schedule index workbook st w)) = sent w
  /\ fst (attach_workbook server schedule index workbook st w)
     = Ok (fst st,
           snd st ++ [[workbook_label workbook; schedule_name (task_schedule_item task)]]).
Proof.
  intros Hsome Hother Hno. unfold attach_workbook, try_except. rewrite Hsome, run_bind.
  simpl. rewrite bool_decide_eq_false_2 by exact Hother. rewrite run_bind.
  match goal with
  | |- context [confirm ?msg ?w0] =>
      destruct (confirm_run msg w0) as (w' & -> & Hsent)
  end.
  simpl stdin. rewrite Hno. simpl. split; [exact Hsent | reflexivity].
Qed.

(** The answer yes: the call of [server.tasks.delete] ends the turn, and
    with it the loop, by [AttributeError], which the [except] of the loop
    does not catch; nothing has been sent. *)
Lemma attach_accepted index task st w :
  index !! wb_id workbook = Some task ->
  schedule_id (task_schedule_item task) <> schedule_id schedule ->
  answer_of (stdin w) = Ok true ->
  fst (attach_workbook server schedule index workbook st w) = Raise AttributeError
  /\ sent (snd (attach_workbook server schedule index workbook st w)) = sent w.
Proof.
  intros Hsome Hother Hyes. unfold attach_workbook. rewrite Hsome.
  unfold try_except. rewrite run_bind. simpl.
  rewrite bool_decide_eq_false_2 by exact Hother. rewrite run_bind.
  match goal with
  | |- context [confirm ?msg ?w0] =>
      destruct (confirm_run msg w0) as (w' & -> & Hsent)
  end.
  simpl stdin. rewrite Hyes. change (negb true) with false. cbv iota.
  unfold tasks_delete. rewrite run_bind, run_raise. simpl in Hsent.
  split; [reflexivity | exact Hsent].
Qed.

End AttachFacts.

Lemma for_each_app {A S} (xs ys : list A) (body : A -> S -> M S) (st : S) (w : world) :
  for_each (xs ++ ys) body st w
  = match for_each xs body st w with
    | (Ok st', w') => for_each ys body st' w'
    | (Raise e, w') => (Raise e, w')
    end.
Proof.
  revert st w. induction xs as [| x rest IH]; intros st w; [reflexivity |].
  cbn [app for_each]. rewrite !run_bind.
  destruct (body x st w) as [[st' | e] w']; [apply IH | reflexivity].
Qed.

(** The workbooks whose task is on the schedule already: a row for each,
    a line for each, nothing sent and nothing asked. *)
Section Idempotent.
Variable server : Server.
Variable schedule : Schedule.
Variable tasks : list Task.
Variable index : gmap string Task.
Hypothesis index_is_existing :
  forall workbook, index !! wb_id workbook = existing_task tasks workbook.

Lemma attach_on_schedule_run (workbooks : list Workbook) :
  Forall (on_schedule tasks schedule) workbooks ->
  forall st w,
    for_each workbooks (attach_workbook server schedule index) st w
    = (Ok (fst st,
           snd st ++ map (fun workbook => [workbook_label workbook; schedule_name schedule])
                         workbooks),
       mkWorld (sent w) (stdout w ++ already_lines tasks workbooks) (stdin w)).
Proof.
  induction 1 as [| workbook rest (task & Htask & Hsame) _ IH]; intros st w.
  - simpl. unfold already_lines. simpl. rewrite !app_nil_r.
    destruct st, w; reflexivity.
  - cbn [for_each]. rewrite run_bind.
    assert (Hstep : attach_workbook server schedule index workbook st w
                    = (Ok (fst st, snd st ++ [[workbook_label workbook; schedule_name schedule]]),
                       emit (already_line workbook task) w)).
    { unfold attach_workbook, try_except. rewrite index_is_existing, Htask.
      rewrite run_bind. unfold print at 1. cbv beta iota.
      rewrite bool_decide_eq_true_2 by exact Hsame. reflexivity. }
    rewrite Hstep, IH. cbn [fst snd map]. unfold already_lines. cbn [omap list_omap].
    rewrite Htask. cbn [fmap option_fmap option_map emit sent stdout stdin].
    rewrite <- !app_assoc. reflexivity.
Qed.

End Idempotent.

Lemma index_tasks_existing (tasks : list Task) :
  Forall (fun task => is_Some (task_target task)) tasks ->
  exists index,
    index_tasks tasks ∅ = Ok index
    /\ forall workbook, index !! wb_id workbook = existing_task tasks workbook.
Proof.
  intros Htargets.
  destruct (index_tasks_lookup tasks Htargets ∅) as (index & Hindex & Hlookup).
  exists index. split; [exact Hindex |]. intros workbook. rewrite Hlookup.
  unfold existing_task. destruct (last _); [reflexivity | apply lookup_empty].
Qed.

(** C1, where the code parts from it: the replacement that the user
    accepts.  Over a listing whose tasks all have a target, when
    [add_to_materialized_views_schedule] comes, after workbooks that are on
    the schedule already, to a workbook whose task is on another schedule
    and the user answers yes, it calls [server.tasks.delete], a method that
    the tasks endpoint does not have: the function ends with
    [AttributeError], the old task is not deleted and the new membership is
    not created, for this workbook and for those after it. *)
Theorem attach_accepted_replacement_raises
  (server : Server) (tasks : list Task) (schedule : Schedule)
  (workbook_id_to_workbook : pydict Workbook) (w : world)
  (before : list Workbook) (workbook : Workbook) (after : list Workbook) (task : Task) :
  Forall (fun task => is_Some (task_target task)) tasks ->
  dict_values workbook_id_to_workbook = before ++ workbook :: after ->
  Forall (on_schedule tasks schedule) before ->
  existing_task tasks workbook = Some task ->
  schedule_id (task_schedule_item task) <> schedule_id schedule ->
  answer_of (stdin w) = Ok true ->
  let run := add_to_materialized_views_schedule server (Some tasks) (Some schedule)
               (Some workbook_id_to_workbook) w in
  fst run = Raise AttributeError /\ sent (snd run) = sent w.
Proof.
  intros Htargets Hvalues Hbefore Htask Hother Hyes run. subst run.
  destruct (index_tasks_existing tasks Htargets) as (index & Hindex & Hexisting).
  unfold add_to_materialized_views_schedule. rewrite run_bind. unfold lift. rewrite Hindex.
  rewrite run_bind, Hvalues, for_each_app.
  rewrite (attach_on_schedule_run server schedule tasks index Hexisting _ Hbefore).
  cbn [for_each]. rewrite run_bind.
  match goal with
  | |- context [attach_workbook server schedule index workbook ?st ?w0] =>
      destruct (attach_accepted server schedule workbook index task st w0) as [Hres Hsent];
      [rewrite Hexisting; exact Htask | exact Hother | exact Hyes |];
      destruct (attach_workbook server schedule index workbook st w0) as [r w']
  end.
  simpl in Hres, Hsent. subst r. split; [reflexivity | exact Hsent].
Qed.

Lemma attach_accepted_replacement_raises_witness :
  add_to_materialized_views_schedule quiet_server
    (Some [task_on "t1" sales_report nightly]) (Some hourly)
    (Some [("w1", sales_report)]) (typing ["y"])
  = (Raise AttributeError,
     mkWorld []
       [Line ("Workbook " +:+ dquote +:+ "Sales/Report1" +:+ dquote
              +:+ " is already on schedule " +:+ dquote +:+ "Nightly" +:+ dquote);
        Prompt "Do you want to replace it with Hourly [Y/N]? "]
       [])
  /\ sent (snd (add_to_materialized_views_schedule quiet_server
                  (Some [task_on "t1" sales_report nightly]) (Some hourly)
                  (Some [("w1", sales_report)]) (typing ["y"]))) = [].
Proof.
  split; [vm_compute; reflexivity |].
  apply (attach_accepted_replacement_raises quiet_server [task_on "t1" sales_report nightly]
           hourly [("w1", sales_report)] (typing ["y"]) [] sales_report []
           (task_on "t1" sales_report nightly)).
  - repeat constructor. eexists. reflexivity.
  - reflexivity.
  - constructor.
  - reflexivity.
  - discriminate.
  - reflexivity.
Defined.

(** With the answer no the function goes on: nothing is sent; the console
    shows the current schedule in the notice and the target schedule in the
    question; the table, which is printed only when a workbook was added, is
    not. *)
Example attach_declined_run :
  add_to_materialized_views_schedule quiet_server
    (Some [task_on "t1" sales_report nightly]) (Some hourly)
    (Some [("w1", sales_report)]) (typing ["N"])
  = (Ok tt,
     mkWorld []
       [Line ("Workbook " +:+ dquote +:+ "Sales/Report1" +:+ dquote
              +:+ " is already on schedule " +:+ dquote +:+ "Nightly" +:+ dquote);
        Prompt "Do you want to replace it with Hourly [Y/N]? ";
        Line newline]
       []).
Proof. vm_compute. reflexivity. Qed.

(** * The project tree: paths *)

Section ProjectPath.
Variable all_projects : gmap string Project.

Lemma ancestor_add a b project :
  ancestor all_projects (a + b) project
  = match ancestor all_projects a project with
    | Some q => ancestor all_projects b q
    | None => None
    end.
Proof.
  revert project. induction a as [| a IH]; intros project; simpl; [reflexivity |].
  destruct (parent_of all_projects project) as [parent |]; [apply IH | reflexivity].
Qed.

Lemma ancestor_S_r n project :
  ancestor all_projects (S n) project
  = match ancestor all_projects n project with
    | Some q => parent_of all_projects q
    | None => None
    end.
Proof.
  replace (S n) with (n + 1)%nat by lia. rewrite ancestor_add.
  destruct (ancestor all_projects n project) as [q |]; [| reflexivity].
  simpl. destruct (parent_of all_projects q); reflexivity.
Qed.

(** On a cycle every ancestor exists. *)
Lemma cycle_all_ancestors project :
  cycle_reachable all_projects project ->
  forall n, is_Some (ancestor all_projects n project).
Proof.
  intros (k & m & q & Hq & Hloop).
  assert (Hround : forall r, ancestor all_projects (r * S m) q = Some q).
  { induction r as [| r IH]; [reflexivity |].
    replace (S r * S m)%nat with (S m + r * S m)%nat by lia.
    rewrite ancestor_add, Hloop. exact IH. }
  assert (Hbelow : forall a b, is_Some (ancestor all_projects (a + b) project) ->
                                is_Some (ancestor all_projects a project)).
  { intros a b. rewrite ancestor_add.
    destruct (ancestor all_projects a project); [eauto | intros [? ?]; discriminate]. }
  intros n. apply (Hbelow n (k + n * S m - n)%nat).
  replace (n + (k + n * S m - n))%nat with (k + n * S m)%nat by nia.
  rewrite ancestor_add, Hq, Hround. eauto.
Qed.

(** While ancestors exist, the walk goes on: it ends only with the stack. *)
Lemma find_project_path_no_root limit :
  forall project path,
    (forall n, (n < limit)%nat -> exists q,
        ancestor all_projects n project = Some q /\ is_Some (parent_of all_projects q)) ->
    find_project_path limit project all_projects path = Raise RecursionError.
Proof.
  induction limit as [| limit IH]; intros project path Hup; [reflexivity |].
  simpl. destruct (Hup 0%nat ltac:(lia)) as (q & [= <-] & [parent Hparent]).
  unfold parent_of in Hparent.
  destruct (p_parent_id project) as [parent_id |] eqn:Hid; [| discriminate].
  rewrite Hparent. apply IH. intros n Hn.
  destruct (Hup (S n) ltac:(lia)) as (q & Hq & Hnext).
  exists q. split; [| exact Hnext].
  simpl in Hq. unfold parent_of in Hq. rewrite Hid, Hparent in Hq. exact Hq.
Qed.

Lemma find_project_path_on_cycle project :
  cycle_reachable all_projects project ->
  forall limit path, find_project_path limit project all_projects path = Raise RecursionError.
Proof.
  intros Hcycle limit path. apply find_project_path_no_root. intros n _.
  pose proof (cycle_all_ancestors project Hcycle (S n)) as [parent Hparent].
  rewrite ancestor_S_r in Hparent.
  destruct (ancestor all_projects n project) as [q |]; [| discriminate].
  exists q. split; [reflexivity | eauto].
Qed.

Lemma lineage_length n project : (length (lineage all_projects n project) <= S n)%nat.
Proof.
  revert project. induction n as [| n IH]; intros project; simpl; [lia |].
  destruct (parent_of all_projects project); simpl; [| lia].
  specialize (IH p). lia.
Qed.

(** With a root [depth] steps up, [depth + 1] frames are what the walk
    needs: given them it returns the path along the lineage, given fewer it
    ends in [RecursionError]. *)
Lemma find_project_path_depth depth :
  forall project path,
    depth_is all_projects project depth ->
    (forall limit, (depth < limit)%nat ->
       find_project_path limit project all_projects path
       = Ok (path_along (lineage all_projects depth project) path))
    /\ (forall limit, (limit <= depth)%nat ->
          find_project_path limit project all_projects path = Raise RecursionError).
Proof.
  induction depth as [| depth IH]; intros project path (root & Hroot & Hnone).
  - simpl in Hroot. injection Hroot as <-. split.
    + intros [| limit] Hlimit; [lia |]. simpl. rewrite Hnone. reflexivity.
    + intros limit Hlimit. assert (limit = 0%nat) as -> by lia. reflexivity.
  - simpl in Hroot. destruct (parent_of all_projects project) as [parent |] eqn:Hparent;
      [| discriminate].
    unfold parent_of in Hparent.
    destruct (p_parent_id project) as [parent_id |] eqn:Hid; [| discriminate].
    assert (Hdepth : depth_is all_projects parent depth) by (exists root; auto).
    split.
    + intros [| limit] Hlimit; [lia |]. simpl. rewrite Hid, Hparent.
      unfold parent_of. rewrite Hid, Hparent.
      apply (IH parent _ Hdepth). lia.
    + intros [| limit] Hlimit; [reflexivity |]. simpl. rewrite Hid, Hparent.
      apply (IH parent _ Hdepth). lia.
Qed.

Lemma lineage_lookup n :
  forall k project, (k <= n)%nat ->
    lineage all_projects n project !! k = ancestor all_projects k project.
Proof.
  induction n as [| n IH]; intros k project Hk.
  - assert (k = 0%nat) as -> by lia. reflexivity.
  - destruct k as [| k]; [reflexivity |]. simpl.
    destruct (parent_of all_projects project) as [parent |]; [| reflexivity].
    apply IH. lia.
Qed.

Lemma parent_of_listed project parent :
  parent_of all_projects project = Some parent -> exists id, all_projects !! id = Some parent.
Proof.
  unfold parent_of. destruct (p_parent_id project) as [id |]; [eauto | discriminate].
Qed.

Lemma lineage_listed n :
  forall project, (exists id, all_projects !! id = Some project) ->
    Forall (fun q => exists id, all_projects !! id = Some q) (lineage all_projects n project).
Proof.
  induction n as [| n IH]; intros project Hlisted; simpl.
  - constructor; [exact Hlisted | constructor].
  - constructor; [exact Hlisted |].
    destruct (parent_of all_projects project) as [parent |] eqn:Hparent; [| constructor].
    apply IH. eapply parent_of_listed. exact Hparent.
Qed.

(** A lineage that stops before [n] steps has stopped at a root. *)
Lemma lineage_short_root n :
  parents_present all_projects ->
  forall project, (exists id, all_projects !! id = Some project) ->
    (length (lineage all_projects n project) <= n)%nat ->
    exists depth, (depth < n)%nat /\ depth_is all_projects project depth.
Proof.
  intros Hpresent. induction n as [| n IH]; intros project Hlisted Hshort.
  - simpl in Hshort. lia.
  - simpl in Hshort.
    destruct (parent_of all_projects project) as [parent |] eqn:Hparent.
    + destruct (IH parent (parent_of_listed _ _ Hparent)) as (depth & Hdepth & root & Hroot & Hnone);
        [simpl in Hshort; lia |].
      exists (S depth). split; [lia |]. exists root. simpl. rewrite Hparent. auto.
    + exists 0%nat. split; [lia |]. exists project. split; [reflexivity |].
      unfold parent_of in Hparent.
      destruct (p_parent_id project) as [parent_id |] eqn:Hid; [| reflexivity].
      destruct Hlisted as [id Hlisted].
      destruct (Hpresent id project parent_id Hlisted Hid) as [parent Hsome]. congruence.
Qed.

Lemma repeated_element {A} `{EqDecision A} (l : list A) :
  ~ NoDup l -> exists i j x, (i < j)%nat /\ l !! i = Some x /\ l !! j = Some x.
Proof.
  induction l as [| x l IH]; intros Hdup.
  - exfalso. apply Hdup. constructor.
  - destruct (decide (x ∈ l)) as [Hin | Hout].
    + apply list_elem_of_lookup in Hin as [j Hj]. exists 0%nat, (S j), x.
      split; [lia |]. split; [reflexivity | exact Hj].
    + destruct IH as (i & j & y & Hij & Hi & Hj).
      { intros Hnodup. apply Hdup. constructor; assumption. }
      exists (S i), (S j), y. split; [lia |]. split; assumption.
Qed.

(** In an arena without cycle whose parents are all present, every project
    has a depth, smaller than the number of projects. *)
Lemma depth_exists project :
  parents_present all_projects -> acyclic all_projects ->
  (exists id, all_projects !! id = Some project) ->
  exists depth, (depth < size all_projects)%nat /\ depth_is all_projects project depth.
Proof.
  intros Hpresent Hacyclic Hlisted.
  set (n := size all_projects).
  destruct (decide (length (lineage all_projects n project) <= n)%nat) as [Hshort | Hlong].
  { apply lineage_short_root; assumption. }
  exfalso.
  assert (Hdup : ~ NoDup (lineage all_projects n project)).
  { intros Hnodup.
    assert (Hsub : lineage all_projects n project ⊆+ (map_to_list all_projects).*2).
    { apply NoDup_submseteq; [exact Hnodup |]. intros q Hq.
      pose proof (lineage_listed n project Hlisted) as Hall.
      rewrite Forall_forall in Hall. destruct (Hall q Hq) as [id Hid].
      apply list_elem_of_fmap. exists (id, q). split; [reflexivity |].
      apply elem_of_map_to_list. exact Hid. }
    apply submseteq_length in Hsub.
    rewrite length_fmap, length_map_to_list in Hsub. fold n in Hsub. lia. }
  apply repeated_element in Hdup as (i & j & q & Hij & Hi & Hj).
  assert (Hjn : (j <= n)%nat).
  { apply lookup_lt_Some in Hj. pose proof (lineage_length n project). lia. }
  rewrite lineage_lookup in Hi by lia. rewrite lineage_lookup in Hj by lia.
  replace j with (i + S (j - i - 1))%nat in Hj by lia.
  rewrite ancestor_add, Hi in Hj.
  assert (Hq : exists id, all_projects !! id = Some q).
  { pose proof (lineage_listed n project Hlisted) as Hall.
    rewrite Forall_forall in Hall. apply Hall.
    apply list_elem_of_lookup. exists i. rewrite lineage_lookup by lia. exact Hi. }
  destruct Hq as [id Hid]. exact (Hacyclic id q _ Hid Hj).
Qed.

(** C5 (as amended): [find_project_path] has no test for cycles.  On a
    cycle of parent links reachable from the queried project every call
    makes the next one, and the walk ends only when the interpreter's stack
    is used up, in [RecursionError], whatever the recursion limit and
    however few the projects.  In an arena without cycle whose parent ids
    are all present the project has a depth below the number of projects,
    and the walk returns a path exactly when it is given more frames than
    that depth. *)
Theorem find_project_path_cycle_and_depth (project : Project) (path : string) :
  (cycle_reachable all_projects project ->
   forall limit, find_project_path limit project all_projects path = Raise RecursionError)
  /\ (parents_present all_projects -> acyclic all_projects ->
      (exists id, all_projects !! id = Some project) ->
      exists depth,
        (depth < size all_projects)%nat
        /\ (forall limit, (depth < limit)%nat ->
              find_project_path limit project all_projects path
              = Ok (path_along (lineage all_projects depth project) path))
        /\ (forall limit, (limit <= depth)%nat ->
              find_project_path limit project all_projects path = Raise RecursionError)).
Proof.
  split.
  - intros Hcycle limit. apply find_project_path_on_cycle. exact Hcycle.
  - intros Hpresent Hacyclic Hlisted.
    destruct (depth_exists project Hpresent Hacyclic Hlisted) as (depth & Hsize & Hdepth).
    exists depth. split; [exact Hsize |].
    apply find_project_path_depth. exact Hdepth.
Qed.

End ProjectPath.

(** * Paths and their parts *)

Lemma split_on_plain sep s : contains sep s = false -> split_on sep s = [s].
Proof.
  induction s as [| c s IH]; simpl; [reflexivity |].
  case_bool_decide as Hc; simpl; [discriminate |].
  intros Hs. rewrite (IH Hs). reflexivity.
Qed.

Lemma split_on_app sep a b :
  contains sep a = false ->
  split_on sep (a +:+ String sep b) = a :: split_on sep b.
Proof.
  induction a as [| c a IH]; simpl.
  - intros _. rewrite bool_decide_eq_true_2 by reflexivity. reflexivity.
  - case_bool_decide as Hc; simpl; [discriminate |].
    intros Ha. rewrite (IH Ha). reflexivity.
Qed.

Lemma concat_cons_cons sep (a b : string) l :
  String.concat sep (a :: b :: l) = a +:+ sep +:+ String.concat sep (b :: l).
Proof. reflexivity. Qed.

Lemma split_on_concat (names : list string) :
  names <> [] ->
  Forall (fun name => contains slash name = false) names ->
  split_on slash (String.concat "/" names) = names.
Proof.
  intros Hne Hplain. induction Hplain as [| a l Ha Hl IH]; [contradiction |].
  destruct l as [| b l].
  - simpl. apply split_on_plain. exact Ha.
  - rewrite concat_cons_cons.
    change ("/" +:+ String.concat "/" (b :: l)) with (String slash (String.concat "/" (b :: l))).
    rewrite split_on_app by exact Ha. f_equal. apply IH. discriminate.
Qed.

Lemma concat_snoc_pair (l : list string) (a b : string) :
  String.concat "/" (l ++ [a; b]) = String.concat "/" (l ++ [a +:+ "/" +:+ b]).
Proof.
  induction l as [| x l IH]; [reflexivity |].
  destruct l as [| y l].
  - simpl. reflexivity.
  - change ((x :: y :: l) ++ [a; b]) with (x :: y :: (l ++ [a; b])).
    change ((x :: y :: l) ++ [a +:+ "/" +:+ b]) with (x :: y :: (l ++ [a +:+ "/" +:+ b])).
    rewrite !concat_cons_cons. f_equal. f_equal. exact IH.
Qed.

Lemma length_zero_iff (s : string) : (String.length s =? 0)%nat = true <-> s = "".
Proof. destruct s; simpl; split; congruence. Qed.

(** Along a lineage the walk, once it carries a path, joins the names with
    slashes, the root's name first. *)
Lemma path_along_join (projects : list Project) (path : string) :
  path <> "" ->
  path_along projects path = String.concat "/" (map p_name (reverse projects) ++ [path]).
Proof.
  revert path. induction projects as [| q rest IH]; intros path Hpath; [reflexivity |].
  simpl path_along.
  destruct (String.length path =? 0)%nat eqn:Hlen.
  { apply length_zero_iff in Hlen. contradiction. }
  rewrite IH.
  - rewrite reverse_cons, map_app, <- app_assoc. simpl. symmetry. apply concat_snoc_pair.
  - destruct (p_name q); discriminate.
Qed.

Lemma path_along_names (project : Project) (rest : list Project) :
  p_name project <> "" ->
  path_along (project :: rest) "" = String.concat "/" (map p_name (reverse (project :: rest))).
Proof.
  intros Hname. simpl. rewrite path_along_join by exact Hname.
  rewrite reverse_cons, map_app. reflexivity.
Qed.

Section RoundTrip.
Variable all_projects : gmap string Project.
Hypothesis Hkeyed : keyed all_projects.

Lemma values_NoDup : NoDup (map_to_list all_projects).*2.
Proof.
  apply (NoDup_fmap_1 p_id).
  assert (Hids : p_id <$> (map_to_list all_projects).*2 = (map_to_list all_projects).*1).
  { rewrite <- list_fmap_compose. apply list_fmap_ext. intros i [id q] Hlookup. simpl.
    apply Hkeyed. apply elem_of_map_to_list. apply list_elem_of_lookup. eauto. }
  rewrite Hids. apply NoDup_fst_map_to_list.
Qed.

Lemma filter_none {A} (P : A -> Prop) `{forall x, Decision (P x)} (l : list A) :
  (forall y, y ∈ l -> ~ P y) -> filter P l = [].
Proof.
  induction l as [| a l IH]; intros Hnone; [reflexivity |].
  rewrite filter_cons, decide_False.
  - apply IH. intros y Hy. apply Hnone. apply elem_of_cons. auto.
  - apply Hnone. apply elem_of_cons. auto.
Qed.

Lemma filter_singleton {A} (P : A -> Prop) `{forall x, Decision (P x)} (l : list A) (x : A) :
  NoDup l -> x ∈ l -> P x -> (forall y, y ∈ l -> P y -> y = x) -> filter P l = [x].
Proof.
  intros Hnodup. revert x. induction Hnodup as [| a l Ha Hl IH]; intros x Hin HP Honly.
  - apply elem_of_nil in Hin. contradiction.
  - rewrite filter_cons. apply elem_of_cons in Hin as [-> | Hin].
    + rewrite decide_True by exact HP. f_equal. apply filter_none.
      intros y Hy HPy. apply Ha. rewrite <- (Honly y); [exact Hy | | exact HPy].
      apply elem_of_cons. auto.
    + rewrite decide_False.
      * apply IH; [exact Hin | exact HP |]. intros y Hy. apply Honly. apply elem_of_cons. auto.
      * intros HPa. apply Ha. rewrite (Honly a); [exact Hin | | exact HPa].
        apply elem_of_cons. auto.
Qed.

Hypothesis Hdistinct : siblings_distinct all_projects.

(** Among the children of its parent a project is the only one of its
    name. *)
Lemma children_named_own id q :
  all_projects !! id = Some q ->
  children_named all_projects (p_parent_id q) (p_name q) = [q].
Proof.
  intros Hq. unfold children_named. apply filter_singleton.
  - exact values_NoDup.
  - apply list_elem_of_fmap. exists (id, q). split; [reflexivity |].
    apply elem_of_map_to_list. exact Hq.
  - split; reflexivity.
  - intros y Hy [Hparent Hname].
    apply list_elem_of_fmap in Hy as ([id' y'] & -> & Hy). simpl in *.
    apply elem_of_map_to_list in Hy. eapply Hdistinct; eassumption.
Qed.

(** Walking down a linked list of projects by their names ends at the last
    of them. *)
Lemma walk_linked parent projects :
  linked all_projects parent projects ->
  walk all_projects [parent] (map p_name projects)
  = [match last projects with
     | Some q => Some (p_id q)
     | None => parent
     end].
Proof.
  induction 1 as [parent | parent q rest [id Hq] Hparent Hrest IH]; [reflexivity |].
  simpl walk. subst parent. rewrite (children_named_own id q Hq). simpl.
  rewrite IH. rewrite last_cons. destruct (last rest); reflexivity.
Qed.

Lemma linked_snoc parent projects q :
  linked all_projects parent projects ->
  (exists id, all_projects !! id = Some q) ->
  p_parent_id q = match last projects with
                  | Some above => Some (p_id above)
                  | None => parent
                  end ->
  linked all_projects parent (projects ++ [q]).
Proof.
  induction 1 as [parent | parent a rest Ha Hparent Hrest IH]; intros Hq Hlink.
  - simpl. constructor; [exact Hq | exact Hlink | constructor].
  - simpl. constructor; [exact Ha | exact Hparent |].
    apply IH; [exact Hq |]. rewrite last_cons in Hlink.
    destruct (last rest); exact Hlink.
Qed.

(** The lineage of a project of depth [depth], turned root first, is
    linked from the roots down. *)
Lemma lineage_linked depth :
  forall project,
    (exists id, all_projects !! id = Some project) ->
    depth_is all_projects project depth ->
    linked all_projects None (reverse (lineage all_projects depth project)).
Proof.
  induction depth as [| depth IH]; intros project Hlisted (root & Hroot & Hnone).
  - simpl in *. injection Hroot as <-.
    change (reverse [project]) with [project].
    constructor; [exact Hlisted | exact Hnone | constructor].
  - simpl in *. destruct (parent_of all_projects project) as [parent |] eqn:Hparent;
      [| discriminate].
    rewrite reverse_cons.
    assert (Hparent_listed : exists id, all_projects !! id = Some parent).
    { eapply parent_of_listed. exact Hparent. }
    apply linked_snoc.
    + apply IH; [exact Hparent_listed |]. exists root. auto.
    + exact Hlisted.
    + rewrite last_reverse.
      assert (Hhead : head (lineage all_projects depth parent) = Some parent).
      { destruct depth; reflexivity. }
      rewrite Hhead. unfold parent_of in Hparent.
      destruct (p_parent_id project) as [parent_id |]; [| discriminate].
      f_equal. symmetry. apply Hkeyed. exact Hparent.
Qed.

Lemma last_reverse_lineage depth project :
  last (reverse (lineage all_projects depth project)) = Some project.
Proof. rewrite last_reverse. destruct depth; reflexivity. Qed.

End RoundTrip.

(** C7 (as amended): in an arena without cycle, with each project under its
    own id and all parents present, where every name is non-empty and free
    of slashes, the path that [find_project_path] returns for a project of
    the arena splits on the slash into exactly the names of the project's
    lineage, the root's first and the project's own last; and where no two
    projects with the same parent have the same name, the walk by these
    names from the roots down ends at the project's id and nowhere else. *)
Theorem project_path_round_trip (all_projects : gmap string Project) (project : Project) :
  keyed all_projects -> parents_present all_projects -> acyclic all_projects ->
  (forall id q, all_projects !! id = Some q -> plain_name (p_name q)) ->
  (exists id, all_projects !! id = Some project) ->
  exists depth path,
    (depth < size all_projects)%nat
    /\ (forall limit, (depth < limit)%nat ->
          find_project_path limit project all_projects "" = Ok path)
    /\ split_on slash path = map p_name (reverse (lineage all_projects depth project))
    /\ (siblings_distinct all_projects ->
        rewalk all_projects (split_on slash path) = [Some (p_id project)]).
Proof.
  intros Hkeyed Hpresent Hacyclic Hnames Hlisted.
  destruct (depth_exists all_projects project Hpresent Hacyclic Hlisted)
    as (depth & Hsize & Hdepth).
  exists depth, (path_along (lineage all_projects depth project) "").
  split; [exact Hsize |]. split.
  { intros limit Hlimit.
    apply (find_project_path_depth all_projects depth project "" Hdepth). exact Hlimit. }
  assert (Hpath : path_along (lineage all_projects depth project) ""
                  = String.concat "/"
                      (map p_name (reverse (lineage all_projects depth project)))).
  { destruct Hlisted as [id Hid].
    destruct depth; simpl lineage; apply path_along_names; apply (Hnames id project Hid). }
  assert (Hsplit : split_on slash (path_along (lineage all_projects depth project) "")
                   = map p_name (reverse (lineage all_projects depth project))).
  { rewrite Hpath. apply split_on_concat.
    - intros Hnil. apply (f_equal length) in Hnil.
      rewrite length_map, length_reverse in Hnil. destruct depth; discriminate.
    - apply Forall_forall. intros name Hname.
      apply list_elem_of_fmap in Hname as (q & -> & Hq).
      rewrite elem_of_reverse in Hq.
      pose proof (lineage_listed all_projects depth project Hlisted) as Hall.
      rewrite Forall_forall in Hall. destruct (Hall q Hq) as [id Hid].
      apply (Hnames id q Hid). }
  split; [exact Hsplit |].
  intros Hdistinct. rewrite Hsplit. unfold rewalk.
  rewrite (walk_linked all_projects Hkeyed Hdistinct None _
             (lineage_linked all_projects Hkeyed depth project Hlisted Hdepth)).
  rewrite last_reverse_lineage. reflexivity.
Qed.


(** * Concrete arenas *)

Lemma projects_by_id_lookup_from projects :
  forall (start : gmap string Project) id q,
    foldl (fun all_projects project => <[p_id project := project]> all_projects)
          start projects !! id = Some q ->
    (q ∈ projects /\ p_id q = id) \/ start !! id = Some q.
Proof.
  induction projects as [| a rest IH]; intros start id q; simpl; [auto |].
  intros Hq. apply IH in Hq as [[Hin Hid] | Hq].
  - left. split; [apply elem_of_cons; auto | exact Hid].
  - apply lookup_insert_Some in Hq as [[<- <-] | [_ Hq]]; [| auto].
    left. split; [apply elem_of_cons; auto | reflexivity].
Qed.

(** The dictionary of the projects has each project under its own id. *)
Lemma projects_by_id_lookup projects id q :
  projects_by_id projects !! id = Some q -> q ∈ projects /\ p_id q = id.
Proof.
  intros Hq. apply projects_by_id_lookup_from in Hq as [Hq | Hq]; [exact Hq |].
  rewrite lookup_empty in Hq. discriminate.
Qed.

Lemma projects_by_id_keyed projects : keyed (projects_by_id projects).
Proof. intros id q Hq. apply projects_by_id_lookup in Hq as [_ Hid]. exact Hid. Qed.

(** A rank that falls from child to parent excludes cycles. *)
Lemma ranked_acyclic (all_projects : gmap string Project) (rank : Project -> nat) :
  (forall id q parent,
     all_projects !! id = Some q -> parent_of all_projects q = Some parent ->
     (rank parent < rank q)%nat) ->
  acyclic all_projects.
Proof.
  intros Hrank.
  assert (Hup : forall n id q above,
             all_projects !! id = Some q ->
             ancestor all_projects (S n) q = Some above -> (rank above < rank q)%nat).
  { induction n as [| n IH]; intros id q above Hq Habove.
    - simpl in Habove. destruct (parent_of all_projects q) as [parent |] eqn:Hparent;
        [| discriminate].
      injection Habove as <-. eapply Hrank; eassumption.
    - change (ancestor all_projects (S (S n)) q)
        with (match parent_of all_projects q with
              | Some parent => ancestor all_projects (S n) parent
              | None => None
              end) in Habove.
      destruct (parent_of all_projects q) as [parent |] eqn:Hparent; [| discriminate].
      destruct (parent_of_listed all_projects q parent Hparent) as [pid Hpid].
      pose proof (IH pid parent above Hpid Habove).
      pose proof (Hrank id q parent Hq Hparent). lia. }
  intros id q n Hq Hloop. pose proof (Hup n id q q Hq Hloop). lia.
Qed.

Ltac listed_cases H :=
  apply projects_by_id_lookup in H as [H ?];
  repeat (apply elem_of_cons in H as [-> | H]); [.. | apply elem_of_nil in H; contradiction].

Lemma site_arena_parents : parents_present site_arena.
Proof.
  intros id q parent_id Hq Hparent. unfold site_arena in Hq. listed_cases Hq.
  - discriminate.
  - injection Hparent as <-. exists default_project. reflexivity.
  - injection Hparent as <-. exists default_project. reflexivity.
Qed.

Lemma site_arena_acyclic : acyclic site_arena.
Proof.
  apply (ranked_acyclic site_arena level). intros id q parent Hq Hparent.
  unfold site_arena in Hq. listed_cases Hq.
  - discriminate.
  - vm_compute in Hparent. injection Hparent as <-. unfold level. simpl. lia.
  - vm_compute in Hparent. injection Hparent as <-. unfold level. simpl. lia.
Qed.

Lemma site_arena_names id q : site_arena !! id = Some q -> plain_name (p_name q).
Proof.
  intros Hq. unfold site_arena in Hq. listed_cases Hq; split; (discriminate || reflexivity).
Qed.

Lemma site_arena_siblings : siblings_distinct site_arena.
Proof.
  intros id1 q1 id2 q2 H1 H2 Hparent Hname. unfold site_arena in H1, H2.
  listed_cases H1; listed_cases H2; (reflexivity || discriminate).
Qed.

Lemma slashed_arena_parents : parents_present slashed_arena.
Proof.
  intros id q parent_id Hq Hparent. unfold slashed_arena in Hq. listed_cases Hq.
  - discriminate.
  - injection Hparent as <-. exists default_project. reflexivity.
Qed.

Lemma slashed_arena_acyclic : acyclic slashed_arena.
Proof.
  apply (ranked_acyclic slashed_arena level). intros id q parent Hq Hparent.
  unfold slashed_arena in Hq. listed_cases Hq.
  - discriminate.
  - vm_compute in Hparent. injection Hparent as <-. unfold level. simpl. lia.
Qed.

Lemma nameless_arena_parents : parents_present nameless_arena.
Proof.
  intros id q parent_id Hq Hparent. unfold nameless_arena in Hq. listed_cases Hq.
  - discriminate.
  - injection Hparent as <-. exists default_project. reflexivity.
Qed.

Lemma nameless_arena_acyclic : acyclic nameless_arena.
Proof.
  apply (ranked_acyclic nameless_arena level). intros id q parent Hq Hparent.
  unfold nameless_arena in Hq. listed_cases Hq.
  - discriminate.
  - vm_compute in Hparent. injection Hparent as <-. unfold level. simpl. lia.
Qed.

Lemma ping_pong_cycle : cycle_reachable ping_pong ping.
Proof. exists 0%nat, 1%nat, ping. split; reflexivity. Qed.

Lemma find_project_path_cycle_and_depth_witness :
  cycle_reachable ping_pong ping
  /\ find_project_path 1000 ping ping_pong "" = Raise RecursionError
  /\ parents_present site_arena /\ acyclic site_arena
  /\ exists depth,
       (depth < size site_arena)%nat
       /\ forall limit, (depth < limit)%nat ->
            find_project_path limit sales_project site_arena ""
            = Ok (path_along (lineage site_arena depth sales_project) "").
Proof.
  split; [exact ping_pong_cycle |]. split.
  - apply (find_project_path_cycle_and_depth ping_pong ping ""). exact ping_pong_cycle.
  - split; [exact site_arena_parents |]. split; [exact site_arena_acyclic |].
    destruct (find_project_path_cycle_and_depth site_arena sales_project "")
      as [_ Hdepth].
    destruct (Hdepth site_arena_parents site_arena_acyclic
                (ex_intro _ "p2" eq_refl)) as (depth & Hsize & Hreturns & _).
    exists depth. split; [exact Hsize | exact Hreturns].
Defined.

(** C5 as the specification states it fails on two projects that are each other's
    parent: with three frames, one more than there are projects, the walk
    is still under way, and no number of frames lets it end, with a path or
    with an error of its own. *)
Lemma find_project_path_cycle_counterexample :
  size ping_pong = 2%nat
  /\ cycle_reachable ping_pong ping
  /\ find_project_path 3 ping ping_pong "" = Raise RecursionError
  /\ ~ exists limit outcome,
         find_project_path limit ping ping_pong "" = outcome
         /\ outcome <> Raise RecursionError.
Proof.
  split; [reflexivity |]. split; [exact ping_pong_cycle |]. split; [reflexivity |].
  intros (limit & outcome & Hrun & Hother). apply Hother. rewrite <- Hrun.
  apply find_project_path_on_cycle. exact ping_pong_cycle.
Qed.

Lemma project_path_round_trip_witness :
  keyed site_arena /\ parents_present site_arena /\ acyclic site_arena
  /\ siblings_distinct site_arena
  /\ exists path,
       find_project_path 1000 sales_project site_arena "" = Ok path
       /\ rewalk site_arena (split_on slash path) = [Some "p2"].
Proof.
  split; [apply projects_by_id_keyed |]. split; [exact site_arena_parents |].
  split; [exact site_arena_acyclic |]. split; [exact site_arena_siblings |].
  destruct (project_path_round_trip site_arena sales_project
              (projects_by_id_keyed site_projects) site_arena_parents site_arena_acyclic
              site_arena_names (ex_intro _ "p2" eq_refl))
    as (depth & path & Hsize & Hreturns & _ & Hwalk).
  exists path. split.
  - apply Hreturns. change (size site_arena) with 3%nat in Hsize. lia.
  - apply Hwalk. exact site_arena_siblings.
Defined.

Example sales_path : find_project_path 1000 sales_project site_arena "" = Ok "Default/Sales".
Proof. reflexivity. Qed.

(** C7 as the specification states it fails on names with a slash and on empty
    names.  The path of [Q1/Q2] below [Default] splits into three parts, not
    into the two names, and the walk by these parts ends nowhere.  The path
    of a project without name below [Default] is [Default] alone: the walk
    ends at the parent. *)
Lemma project_path_round_trip_counterexample :
  acyclic slashed_arena /\ parents_present slashed_arena
  /\ slashed_arena !! "p4" = Some slashed_project
  /\ find_project_path 1000 slashed_project slashed_arena "" = Ok "Default/Q1/Q2"
  /\ split_on slash "Default/Q1/Q2" = ["Default"; "Q1"; "Q2"]
  /\ map p_name (reverse (lineage slashed_arena 1 slashed_project)) = ["Default"; "Q1/Q2"]
  /\ rewalk slashed_arena (split_on slash "Default/Q1/Q2") = []
  /\ acyclic nameless_arena /\ parents_present nameless_arena
  /\ nameless_arena !! "p5" = Some nameless_project
  /\ find_project_path 1000 nameless_project nameless_arena "" = Ok "Default"
  /\ map p_name (reverse (lineage nameless_arena 1 nameless_project)) = ["Default"; ""]
  /\ rewalk nameless_arena (split_on slash "Default") = [Some "p1"].
Proof.
  split; [exact slashed_arena_acyclic |]. split; [exact slashed_arena_parents |].
  do 5 (split; [vm_compute; reflexivity |]).
  split; [exact nameless_arena_acyclic |]. split; [exact nameless_arena_parents |].
  repeat split; vm_compute; reflexivity.
Qed.

(** * The project tree: descendants *)

Section Descendants.
Variable all_projects : list Project.

Lemma res_fold_returns {A S} (f : A -> S -> res S) (xs : list A) :
  Forall (fun x => forall acc, exists r, f x acc = Ok r) xs ->
  forall acc, exists r, res_fold f xs acc = Ok r.
Proof.
  induction 1 as [| x rest Hx _ IH]; intros acc; simpl; [eauto |].
  destruct (Hx acc) as [r ->]. apply IH.
Qed.

Lemma children_are_children project child :
  child ∈ filter (fun child => p_parent_id child = Some (p_id project)) all_projects
  <-> child_in all_projects child project.
Proof. rewrite list_elem_of_filter. unfold child_in. tauto. Qed.

(** With at most [n] levels below the project, more than [n] frames are
    enough for the collection to return. *)
Lemma find_projects_to_update_returns n :
  forall project limit acc,
    height_le all_projects n project -> (n < limit)%nat ->
    exists r, find_projects_to_update limit project all_projects acc = Ok r.
Proof.
  induction n as [| n IH]; intros project [| limit] acc Hheight Hlimit; try lia.
  - simpl in *.
    destruct (filter (fun child => p_parent_id child = Some (p_id project)) all_projects)
      as [| child rest] eqn:Hchildren; [simpl; eauto |].
    exfalso. apply (Hheight child). apply children_are_children. rewrite Hchildren.
    apply elem_of_cons. auto.
  - simpl in *. apply res_fold_returns. apply Forall_forall. intros child Hchild acc'.
    apply IH; [| lia]. apply Hheight. apply children_are_children. exact Hchild.
Qed.

(** In a forest, below a project that has [path] above or at it, there are
    at most as many levels as the listing has projects outside [path]. *)
Lemma forest_height :
  forest all_projects ->
  forall n project path,
    NoDup path ->
    (forall a, a ∈ path -> a ∈ all_projects) ->
    (forall a, a ∈ path -> a = project \/ descends all_projects project a) ->
    (length all_projects <= n + length path)%nat ->
    height_le all_projects n project.
Proof.
  intros Hforest.
  assert (Hextend : forall project path child,
             NoDup path ->
             (forall a, a ∈ path -> a ∈ all_projects) ->
             (forall a, a ∈ path -> a = project \/ descends all_projects project a) ->
             child_in all_projects child project ->
             NoDup (child :: path)
             /\ (forall a, a ∈ child :: path -> a ∈ all_projects)
             /\ (forall a, a ∈ child :: path -> a = child \/ descends all_projects child a)).
  { intros project path child Hnodup Hlisted Habove Hchild.
    pose proof Hchild as [Hin Hparent]. split; [| split].
    - constructor; [| exact Hnodup]. intros Hrepeat.
      apply (Hforest child Hin). destruct (Habove child Hrepeat) as [-> | Hdown].
      + apply descends_child. exact Hchild.
      + eapply descends_step; eassumption.
    - intros a Ha. apply elem_of_cons in Ha as [-> | Ha]; auto.
    - intros a Ha. apply elem_of_cons in Ha as [-> | Ha]; [auto |]. right.
      destruct (Habove a Ha) as [-> | Hdown].
      + apply descends_child. exact Hchild.
      + eapply descends_step; eassumption. }
  induction n as [| n IH]; intros project path Hnodup Hlisted Habove Hlength; simpl.
  - intros child Hchild.
    destruct (Hextend project path child Hnodup Hlisted Habove Hchild)
      as (Hnodup' & Hlisted' & _).
    assert (Hsub : child :: path ⊆+ all_projects) by (apply NoDup_submseteq; assumption).
    apply submseteq_length in Hsub. simpl in Hsub. lia.
  - intros child Hchild.
    destruct (Hextend project path child Hnodup Hlisted Habove Hchild)
      as (Hnodup' & Hlisted' & Habove').
    apply (IH child (child :: path)); try assumption. simpl. lia.
Qed.

Lemma parents_among_mono context context' collected :
  (forall a, a ∈ context -> a ∈ context') ->
  parents_among all_projects context collected ->
  parents_among all_projects context' collected.
Proof.
  intros Hsub Hamong. unfold parents_among in *.
  eapply Forall_impl; [exact Hamong |].
  intros q (Hq & above & Habove & Hparent). split; [exact Hq |]. eauto.
Qed.

(** What the collection returns: what it was given, then the project, then
    projects of the listing whose parents are the project or among them. *)
Lemma find_projects_to_update_shape limit :
  forall project acc r,
    find_projects_to_update limit project all_projects acc = Ok r ->
    exists collected,
      r = acc ++ project :: collected
      /\ parents_among all_projects (project :: collected) collected.
Proof.
  induction limit as [| limit IH]; intros project acc r; [discriminate |].
  simpl.
  assert (Hloop : forall children,
             Forall (fun child => child_in all_projects child project) children ->
             forall collected0 r,
               parents_among all_projects (project :: collected0) collected0 ->
               res_fold (fun child acc => find_projects_to_update limit child all_projects acc)
                        children (acc ++ project :: collected0) = Ok r ->
               exists collected,
                 r = acc ++ project :: collected
                 /\ parents_among all_projects (project :: collected) collected).
  { induction 1 as [| child rest [Hin Hparent] _ IHrest]; intros collected0 r0 Hclosed; simpl.
    - intros [= <-]. eauto.
    - destruct (find_projects_to_update limit child all_projects
                  (acc ++ project :: collected0)) as [r1 | e] eqn:Hchild; [| discriminate].
      apply IH in Hchild as (below & -> & Hbelow).
      rewrite <- app_assoc. simpl. apply IHrest.
      unfold parents_among. apply Forall_app. split; [| constructor].
      + eapply parents_among_mono; [| exact Hclosed].
        intros a Ha. apply elem_of_cons in Ha as [-> | Ha]; apply elem_of_cons.
        * left. reflexivity.
        * right. apply elem_of_app. left. exact Ha.
      + split; [exact Hin |]. exists project. split; [apply elem_of_cons; auto | exact Hparent].
      + eapply parents_among_mono; [| exact Hbelow].
        intros a Ha. apply elem_of_cons. right. apply elem_of_app. right. exact Ha. }
  change [project] with ([] ++ [project]).
  intros Hrun.
  apply (Hloop _ (proj2 (Forall_forall _ _)
                    (fun child Hc => proj1 (children_are_children project child) Hc)) [] r).
  - constructor.
  - exact Hrun.
Qed.

End Descendants.

(** A rank that falls from child to parent makes the listing a forest. *)
Lemma ranked_forest (all_projects : list Project) (rank : Project -> nat) :
  (forall child project,
     child ∈ all_projects -> project ∈ all_projects ->
     p_parent_id child = Some (p_id project) -> (rank project < rank child)%nat) ->
  forest all_projects.
Proof.
  intros Hrank.
  assert (Hlisted : forall q above, descends all_projects q above -> q ∈ all_projects).
  { intros q above Hdown. destruct Hdown as [q above [Hin _] | q parent above [Hin _] _];
      exact Hin. }
  assert (Hdown : forall q above,
             descends all_projects q above -> above ∈ all_projects ->
             (rank above < rank q)%nat).
  { induction 1 as [q above [Hin Hparent] | q parent above [Hin Hparent] Hup IH];
      intros Habove.
    - apply Hrank; assumption.
    - specialize (IH Habove).
      pose proof (Hrank q parent Hin (Hlisted _ _ Hup) Hparent). lia. }
  intros q Hq Hloop. pose proof (Hdown q q Hloop Hq). lia.
Qed.

Lemma deep_projects_forest : forest deep_projects.
Proof.
  apply (ranked_forest deep_projects deep_level). intros child project Hchild Hproject.
  unfold deep_projects in *.
  repeat (apply elem_of_cons in Hchild as [-> | Hchild]);
    try (apply elem_of_nil in Hchild; contradiction);
    repeat (apply elem_of_cons in Hproject as [-> | Hproject]);
    try (apply elem_of_nil in Hproject; contradiction);
    intros Hparent; try discriminate; vm_compute; lia.
Qed.

(** C6: in a forest of projects, and with more frames than there are
    projects, the collection returns the root first, and every project
    after it is a project of the listing whose parent is the root or
    another project of the result; the ids that
    [find_project_ids_to_update] returns are the ids of these projects, the
    root's among them. *)
Theorem descendants_closed (all_projects : list Project) (root : Project) (limit : nat) :
  forest all_projects ->
  (length all_projects < limit)%nat ->
  exists descendants ids,
    find_projects_to_update limit root all_projects [] = Ok (root :: descendants)
    /\ Forall (fun q => q ∈ all_projects
                        /\ exists above, above ∈ root :: descendants
                                         /\ p_parent_id q = Some (p_id above))
              descendants
    /\ find_project_ids_to_update limit all_projects root = Ok ids
    /\ p_id root ∈ ids
    /\ (forall id, id ∈ ids <-> exists q, q ∈ root :: descendants /\ p_id q = id).
Proof.
  intros Hforest Hlimit.
  assert (Hheight : height_le all_projects (length all_projects) root).
  { apply (forest_height all_projects Hforest _ root []).
    - constructor.
    - intros a Ha. apply elem_of_nil in Ha. contradiction.
    - intros a Ha. apply elem_of_nil in Ha. contradiction.
    - simpl. lia. }
  destruct (find_projects_to_update_returns all_projects _ root limit [] Hheight Hlimit)
    as [r Hrun].
  destruct (find_projects_to_update_shape all_projects limit root [] r Hrun)
    as (descendants & -> & Hclosed).
  exists descendants, (list_to_set (map p_id (root :: descendants))).
  split; [exact Hrun |]. split; [exact Hclosed |]. split.
  { unfold find_project_ids_to_update. rewrite Hrun. reflexivity. }
  split.
  { apply elem_of_list_to_set. simpl. apply elem_of_cons. auto. }
  intros id. rewrite elem_of_list_to_set. rewrite list_elem_of_fmap. split.
  - intros (q & -> & Hq). eauto.
  - intros (q & Hq & <-). eauto.
Qed.

Lemma descendants_closed_witness :
  forest deep_projects
  /\ (length deep_projects < 1000)%nat
  /\ exists descendants ids,
       find_projects_to_update 1000 sales_project deep_projects []
       = Ok (sales_project :: descendants)
       /\ find_project_ids_to_update 1000 deep_projects sales_project = Ok ids
       /\ "p2" ∈ ids.
Proof.
  assert (Hlimit : (length deep_projects < 1000)%nat) by (simpl; lia).
  split; [exact deep_projects_forest |]. split; [exact Hlimit |].
  destruct (descendants_closed deep_projects sales_project 1000 deep_projects_forest Hlimit)
    as (descendants & ids & Hrun & _ & Hids & Hroot & _).
  exists descendants, ids. auto.
Defined.

Example sales_descendants :
  find_projects_to_update 1000 sales_project deep_projects []
  = Ok [sales_project; q3_project].
Proof. reflexivity. Qed.

(** The root itself need not have its parent in the result: the result for
    [Sales] has neither [Default] nor its id. *)
Example sales_parent_outside :
  p_parent_id sales_project = Some "p1"
  /\ find_project_ids_to_update 1000 deep_projects sales_project = Ok {["p2"; "p6"]}.
Proof. split; [reflexivity |]. vm_compute. reflexivity. Qed.

(** * Dictionaries *)

Lemma dict_get_set {V} (k k' : string) (v : V) (d : pydict V) :
  dict_get k (dict_set k' v d) = if bool_decide (k = k') then Some v else dict_get k d.
Proof.
  induction d as [| [k0 v0] rest IH]; simpl.
  - reflexivity.
  - destruct (bool_decide (k' = k0)) eqn:Hk'; simpl.
    + apply bool_decide_eq_true in Hk'. subst k0.
      destruct (bool_decide (k = k')); reflexivity.
    + rewrite IH. apply bool_decide_eq_false in Hk'.
      destruct (bool_decide (k = k0)) eqn:Hk; [| reflexivity].
      apply bool_decide_eq_true in Hk. subst k0.
      rewrite bool_decide_eq_false_2; [reflexivity | congruence].
Qed.

Lemma dict_keys_set {V} (k : string) (v : V) (d : pydict V) :
  dict_keys (dict_set k v d)
  = if bool_decide (k ∈ dict_keys d) then dict_keys d else dict_keys d ++ [k].
Proof.
  unfold dict_keys.
  induction d as [| [k0 v0] rest IH]; simpl; [reflexivity |].
  destruct (bool_decide (k = k0)) eqn:Hk; simpl.
  - apply bool_decide_eq_true in Hk. subst k0.
    rewrite bool_decide_eq_true_2; [reflexivity | apply elem_of_cons; auto].
  - apply bool_decide_eq_false in Hk. rewrite IH.
    destruct (bool_decide (k ∈ map fst rest)) eqn:Hin.
    + apply bool_decide_eq_true in Hin.
      rewrite bool_decide_eq_true_2; [reflexivity | apply elem_of_cons; auto].
    + apply bool_decide_eq_false in Hin.
      rewrite bool_decide_eq_false_2; [reflexivity |].
      intros Hcons. apply elem_of_cons in Hcons as [Heq | Hrest]; auto.
Qed.

Lemma dict_get_keys {V} (k : string) (d : pydict V) :
  is_Some (dict_get k d) <-> k ∈ dict_keys d.
Proof.
  induction d as [| [k0 v0] rest IH]; simpl.
  - split; [intros [? ?]; discriminate | intros H; apply elem_of_nil in H; contradiction].
  - destruct (bool_decide (k = k0)) eqn:Hk.
    + apply bool_decide_eq_true in Hk. subst k0. split; [| eauto].
      intros _. apply elem_of_cons. auto.
    + apply bool_decide_eq_false in Hk. rewrite IH. unfold dict_keys. split.
      * intros Hin. apply elem_of_cons. auto.
      * intros Hin. apply elem_of_cons in Hin as [Heq | Hin]; [contradiction | exact Hin].
Qed.

Lemma dict_keys_set_NoDup {V} (k : string) (v : V) (d : pydict V) :
  NoDup (dict_keys d) -> NoDup (dict_keys (dict_set k v d)).
Proof.
  intros Hnodup. rewrite dict_keys_set.
  destruct (bool_decide (k ∈ dict_keys d)) eqn:Hin; [exact Hnodup |].
  apply bool_decide_eq_false in Hin.
  apply NoDup_app. split; [exact Hnodup |]. split.
  - intros x Hx Hk. apply list_elem_of_singleton in Hk. subst x. contradiction.
  - apply NoDup_singleton.
Qed.

(** * Grouping the path list *)

Lemma group_paths_snoc lines line :
  group_paths (lines ++ [line]) = add_workbook_path line (group_paths lines).
Proof. unfold group_paths. rewrite foldl_app. reflexivity. Qed.

Lemma group_paths_NoDup lines : NoDup (dict_keys (group_paths lines)).
Proof.
  induction lines as [| line lines IH] using rev_ind.
  - constructor.
  - rewrite group_paths_snoc. unfold add_workbook_path. apply dict_keys_set_NoDup. exact IH.
Qed.

(** Under each name the mapping has the project paths of the lines with
    that name, in the order of the lines. *)
Lemma group_paths_get lines name :
  dict_get name (group_paths lines)
  = match map path_part (filter (fun line => name_part line = name) lines) with
    | [] => None
    | paths => Some paths
    end.
Proof.
  induction lines as [| line lines IH] using rev_ind; [reflexivity |].
  rewrite group_paths_snoc. unfold add_workbook_path.
  fold (name_part line). fold (path_part line).
  rewrite dict_get_set, filter_app, map_app, filter_cons, filter_nil.
  destruct (bool_decide (name = name_part line)) eqn:Hname.
  - apply bool_decide_eq_true in Hname. subst name.
    rewrite decide_True by reflexivity. rewrite IH. simpl.
    destruct (map path_part (filter (fun l => name_part l = name_part line) lines));
      reflexivity.
  - apply bool_decide_eq_false in Hname.
    rewrite decide_False by congruence. simpl. rewrite app_nil_r. exact IH.
Qed.

Lemma group_paths_keys lines name :
  name ∈ dict_keys (group_paths lines) <-> exists line, line ∈ lines /\ name_part line = name.
Proof.
  rewrite <- dict_get_keys, group_paths_get. split.
  - destruct (filter (fun line => name_part line = name) lines) as [| line rest] eqn:Hfilter.
    + intros [? ?]. discriminate.
    + intros _. exists line.
      assert (Hin : line ∈ filter (fun line => name_part line = name) lines).
      { rewrite Hfilter. apply elem_of_cons. auto. }
      apply list_elem_of_filter in Hin. tauto.
  - intros (line & Hin & Hname).
    assert (Hkept : line ∈ filter (fun line => name_part line = name) lines).
    { apply list_elem_of_filter. auto. }
    destruct (filter (fun line => name_part line = name) lines); simpl.
    + apply elem_of_nil in Hkept. contradiction.
    + eauto.
Qed.

(** * Workbooks by path *)

Section ByPath.
Variable server : Server.
Variable read_lines : string -> option (list string).
Variable limit : nat.
Variable all_projects : gmap string Project.

Lemma kept_iff (paths : list string) (workbooks : list Workbook) (workbook : Workbook) :
  workbook ∈ kept limit all_projects paths workbooks <->
  workbook ∈ workbooks
  /\ exists path, workbook_path_of limit all_projects workbook = Ok path /\ path ∈ paths.
Proof.
  unfold kept. rewrite list_elem_of_filter. unfold requested_path.
  destruct (workbook_path_of limit all_projects workbook) as [path | e].
  - case_bool_decide as Hin; split.
    + intros [_ Hw]. split; [exact Hw | eauto].
    + intros [Hw _]. split; [eauto | exact Hw].
    + intros [[? ?] _]. discriminate.
    + intros [_ (path' & [= <-] & Hin')]. contradiction.
  - split.
    + intros [[? ?] _]. discriminate.
    + intros [_ (path & Hpath & _)]. discriminate.
Qed.

Lemma requested_paths_iff (paths : list string) (workbooks : list Workbook) (path : string) :
  path ∈ omap (requested_path limit all_projects paths) workbooks <->
  path ∈ paths
  /\ exists workbook,
       workbook ∈ workbooks /\ workbook_path_of limit all_projects workbook = Ok path.
Proof.
  rewrite list_elem_of_omap. unfold requested_path. split.
  - intros (workbook & Hw & Hpath).
    destruct (workbook_path_of limit all_projects workbook) as [path' | e] eqn:Hof;
      [| discriminate].
    case_bool_decide as Hin; [| discriminate]. injection Hpath as <-. eauto.
  - intros (Hin & workbook & Hw & Hof). exists workbook. split; [exact Hw |].
    rewrite Hof. rewrite bool_decide_eq_true_2 by exact Hin. reflexivity.
Qed.

Lemma unmatched_iff (paths : list string) (workbooks : list Workbook) (path : string) :
  path ∈ unmatched limit all_projects paths workbooks <->
  path ∈ paths
  /\ forall workbook,
       workbook ∈ workbooks -> workbook_path_of limit all_projects workbook <> Ok path.
Proof.
  unfold unmatched. rewrite elem_of_elements, elem_of_difference, !elem_of_list_to_set.
  rewrite requested_paths_iff. split.
  - intros [Hin Hnone]. split; [exact Hin |]. intros workbook Hw Hof. apply Hnone. eauto.
  - intros [Hin Hnone]. split; [exact Hin |]. intros [_ (workbook & Hw & Hof)].
    exact (Hnone workbook Hw Hof).
Qed.

Lemma match_workbook_with_path (paths : list string) (workbook : Workbook)
  (st : match_state) (path : string) :
  workbook_path_of limit all_projects workbook = Ok path ->
  match_workbook limit all_projects paths workbook st
  = if bool_decide (path ∈ paths) then
      if bool_decide (path ∈ fst st)
      then Ok (fst st ∖ {[path]}, store (snd st) workbook)
      else Raise (KeyError path)
    else Ok st.
Proof.
  unfold workbook_path_of, match_workbook.
  destruct (all_projects !! wb_project_id workbook) as [project |]; [| discriminate].
  intros ->. reflexivity.
Qed.

Lemma requested_path_with_path (paths : list string) (workbook : Workbook) (path : string) :
  workbook_path_of limit all_projects workbook = Ok path ->
  requested_path limit all_projects paths workbook
  = if bool_decide (path ∈ paths) then Some path else None.
Proof. unfold requested_path. intros ->. reflexivity. Qed.

(** The loop over the workbooks of one answer. *)
Lemma match_workbooks_run (paths : list string) (workbooks : list Workbook) :
  Forall (fun workbook => is_ok (workbook_path_of limit all_projects workbook) = true)
         workbooks ->
  NoDup (omap (requested_path limit all_projects paths) workbooks) ->
  forall (all_paths : gset string) (d : pydict Workbook),
    (forall path, path ∈ omap (requested_path limit all_projects paths) workbooks ->
                  path ∈ all_paths) ->
    res_fold (match_workbook limit all_projects paths) workbooks (all_paths, d)
    = Ok (all_paths ∖ list_to_set (omap (requested_path limit all_projects paths) workbooks),
          foldl store d (kept limit all_projects paths workbooks)).
Proof.
  induction 1 as [| workbook rest Hpath _ IH]; intros Hnodup all_paths d Hin.
  - cbn [res_fold omap list_omap kept filter list_filter foldl].
    rewrite list_to_set_nil, difference_empty_L. reflexivity.
  - destruct (workbook_path_of limit all_projects workbook) as [path | e] eqn:Hof;
      [| discriminate].
    pose proof (requested_path_with_path paths workbook path Hof) as Hreq.
    simpl res_fold. rewrite (match_workbook_with_path paths workbook _ path Hof).
    unfold kept. rewrite filter_cons. fold (kept limit all_projects paths rest).
    simpl omap in *. rewrite Hreq in *. cbn [fst snd].
    case_bool_decide as Hasked.
    + rewrite decide_True by eauto.
      apply NoDup_cons in Hnodup as [Hfresh Hnodup].
      rewrite bool_decide_eq_true_2 by (apply Hin; apply elem_of_cons; auto).
      rewrite IH.
      * rewrite list_to_set_cons, difference_difference_l_L. reflexivity.
      * exact Hnodup.
      * intros path' Hpath'. apply elem_of_difference. split.
        -- apply Hin. apply elem_of_cons. auto.
        -- intros Heq. apply elem_of_singleton in Heq. subst path'. contradiction.
    + rewrite decide_False by (intros [? ?]; discriminate).
      apply IH; assumption.
Qed.

Lemma print_each (text : string -> string) (paths : list string) (w : world) :
  for_each paths (fun path (_ : unit) => print (text path)) tt w
  = (Ok tt, mkWorld (sent w) (stdout w ++ map (fun path => Line (text path)) paths) (stdin w)).
Proof.
  revert w. induction paths as [| path rest IH]; intros w; simpl.
  - rewrite app_nil_r. destruct w; reflexivity.
  - rewrite run_bind. unfold print at 1. rewrite IH. simpl.
    rewrite <- app_assoc. reflexivity.
Qed.

(** One turn of the loop over the names. *)
Lemma resolve_name_run (name : string) (paths : list string) (d : pydict Workbook) (w : world) :
  is_ok (srv_workbooks server (sent w) name) = true ->
  resolvable limit all_projects paths (workbooks_answer server (sent w) name) ->
  resolve_name server limit all_projects (name, paths) d w
  = (Ok (foldl store d
           (kept limit all_projects paths (workbooks_answer server (sent w) name))),
     mkWorld (sent w ++ [GetWorkbooks name])
             (stdout w
              ++ map (fun path => Line (cannot_find path name))
                     (unmatched limit all_projects paths
                        (workbooks_answer server (sent w) name)))
             (stdin w)).
Proof.
  intros Hanswer [Hpaths Hnodup]. unfold resolve_name, query_workbooks.
  rewrite run_bind, run_call. unfold workbooks_answer in *.
  destruct (srv_workbooks server (sent w) name) as [workbooks | e]; [| discriminate].
  rewrite run_bind. unfold lift.
  rewrite (match_workbooks_run paths workbooks Hpaths Hnodup).
  - rewrite run_bind. cbn [fst snd]. fold (unmatched limit all_projects paths workbooks).
    rewrite print_each. reflexivity.
  - intros path Hpath. apply elem_of_list_to_set.
    apply requested_paths_iff in Hpath as [Hin _]. exact Hin.
Qed.

(** The loop over the names. *)
Lemma resolve_names_run (items : list (string * list string)) :
  forall d w,
    answers_resolvable server limit all_projects (sent w) items ->
    for_each items (resolve_name server limit all_projects) d w
    = (Ok (foldl store d (all_kept limit all_projects (queries server (sent w) items))),
       mkWorld (sent w ++ map (fun item => GetWorkbooks (fst item)) items)
               (stdout w ++ all_unmatched limit all_projects (queries server (sent w) items))
               (stdin w)).
Proof.
  induction items as [| [name paths] rest IH]; intros d w Hfine.
  - simpl. rewrite !app_nil_r. destruct w; reflexivity.
  - destruct Hfine as (Hanswer & Hresolvable & Hrest).
    cbn [for_each]. rewrite run_bind.
    rewrite (resolve_name_run name paths d w Hanswer Hresolvable).
    rewrite IH by exact Hrest.
    unfold all_kept, all_unmatched. simpl. rewrite foldl_app, <- !app_assoc. reflexivity.
Qed.

Lemma foldl_store_get (workbooks : list Workbook) :
  forall (d : pydict Workbook) (id : string) (workbook : Workbook),
    dict_get id (foldl store d workbooks) = Some workbook ->
    dict_get id d = Some workbook \/ (workbook ∈ workbooks /\ wb_id workbook = id).
Proof.
  induction workbooks as [| first rest IH]; intros d id workbook; simpl; [auto |].
  intros Hget. apply IH in Hget as [Hget | [Hin Hid]].
  - unfold store in Hget. rewrite dict_get_set in Hget.
    case_bool_decide as Hfirst; [| auto].
    injection Hget as <-. right. split; [apply elem_of_cons; auto | congruence].
  - right. split; [apply elem_of_cons; auto | exact Hid].
Qed.

Lemma foldl_store_mem (workbooks : list Workbook) :
  forall (d : pydict Workbook) (workbook : Workbook),
    workbook ∈ workbooks -> is_Some (dict_get (wb_id workbook) (foldl store d workbooks)).
Proof.
  assert (Hstays : forall (l : list Workbook) (d : pydict Workbook) (id : string),
             is_Some (dict_get id d) -> is_Some (dict_get id (foldl store d l))).
  { induction l as [| first rest IH]; intros d id Hd; simpl; [exact Hd |].
    apply IH. unfold store. rewrite dict_get_set. case_bool_decide; eauto. }
  induction workbooks as [| first rest IH]; intros d workbook Hin; simpl.
  - apply elem_of_nil in Hin. contradiction.
  - apply elem_of_cons in Hin as [-> | Hin]; [| apply IH; exact Hin].
    apply Hstays. unfold store. rewrite dict_get_set.
    rewrite bool_decide_eq_true_2 by reflexivity. eauto.
Qed.

Lemma queries_names (items : list (string * list string)) :
  forall h, map (fun q => fst (fst q)) (queries server h items) = map fst items.
Proof.
  induction items as [| [name paths] rest IH]; intros h; simpl; [reflexivity |].
  rewrite IH. reflexivity.
Qed.

Lemma queries_items (items : list (string * list string)) :
  forall h name paths workbooks,
    (name, paths, workbooks) ∈ queries server h items -> (name, paths) ∈ items.
Proof.
  induction items as [| [name0 paths0] rest IH]; intros h name paths workbooks; simpl.
  - intros Hin. apply elem_of_nil in Hin. contradiction.
  - intros Hin. apply elem_of_cons in Hin as [[= -> -> _] | Hin]; apply elem_of_cons.
    + left. reflexivity.
    + right. eapply IH. exact Hin.
Qed.

Lemma all_kept_iff (asked : list (string * list string * list Workbook))
  (workbook : Workbook) :
  workbook ∈ all_kept limit all_projects asked <-> matches limit all_projects asked workbook.
Proof.
  unfold all_kept, matches. rewrite list_elem_of_In, in_flat_map. split.
  - intros ([[name paths] workbooks] & Hq & Hkept). simpl in Hkept.
    apply list_elem_of_In, kept_iff in Hkept as [Hw Hpath].
    exists name, paths, workbooks. split; [apply list_elem_of_In; exact Hq | auto].
  - intros (name & paths & workbooks & Hq & Hw & Hpath).
    exists (name, paths, workbooks). split; [apply list_elem_of_In; exact Hq |].
    simpl. apply list_elem_of_In, kept_iff. auto.
Qed.

Lemma all_unmatched_iff (asked : list (string * list string * list Workbook)) (o : output) :
  o ∈ all_unmatched limit all_projects asked
  <-> reports_unmatched limit all_projects asked o.
Proof.
  unfold all_unmatched, reports_unmatched. rewrite list_elem_of_In, in_flat_map. split.
  - intros ([[name paths] workbooks] & Hq & Hline). simpl in Hline.
    apply in_map_iff in Hline as (path & <- & Hpath).
    apply list_elem_of_In, unmatched_iff in Hpath as [Hin Hnone].
    exists name, paths, workbooks, path.
    split; [apply list_elem_of_In; exact Hq | auto].
  - intros (name & paths & workbooks & path & Hq & Hin & -> & Hnone).
    exists (name, paths, workbooks). split; [apply list_elem_of_In; exact Hq |].
    simpl. apply in_map_iff. exists path. split; [reflexivity |].
    apply list_elem_of_In, unmatched_iff. auto.
Qed.

End ByPath.

Lemma parse_workbook_path_run (read_lines : string -> option (list string))
  (file_path : string) (w : world) :
  parse_workbook_path read_lines file_path w
  = (Ok (group_paths (sanitized (read_lines file_path))),
     mkWorld (sent w) (stdout w ++ file_notice file_path (read_lines file_path)) (stdin w)).
Proof.
  unfold parse_workbook_path, sanitize_workbook_list, sanitized, file_notice.
  rewrite run_bind.
  destruct (read_lines file_path) as [file_list |]; simpl.
  - rewrite app_nil_r. destruct w; reflexivity.
  - reflexivity.
Qed.

Lemma dict_get_listed {V} (d : pydict V) (k : string) (v : V) :
  NoDup (dict_keys d) -> (k, v) ∈ d -> dict_get k d = Some v.
Proof.
  induction d as [| [k0 v0] rest IH]; intros Hnodup Hin.
  - apply elem_of_nil in Hin. contradiction.
  - simpl in *. apply NoDup_cons in Hnodup as [Hfresh Hnodup].
    apply elem_of_cons in Hin as [[= -> ->] | Hin].
    + rewrite bool_decide_eq_true_2 by reflexivity. reflexivity.
    + rewrite bool_decide_eq_false_2; [apply IH; assumption |].
      intros ->. apply Hfresh. apply list_elem_of_fmap. exists (k0, v). auto.
Qed.

Lemma queries_requests (server : Server) (items : list (string * list string)) :
  forall h,
    map (fun q => GetWorkbooks (fst (fst q))) (queries server h items)
    = map (fun item => GetWorkbooks (fst item)) items.
Proof.
  induction items as [| [name paths] rest IH]; intros h; simpl; [reflexivity |].
  f_equal. apply IH.
Qed.

(** C2 (as amended): where the projects and the workbooks come back from the
    server, every workbook that comes back has a project path, and no two
    workbooks of one answer share a path that was asked for,
    [get_workbooks_from_paths] returns a mapping and
    - asks for the projects once and then for the workbooks once for every
      different workbook name of the path list, with the project paths of
      the lines of that name as the paths asked for;
    - has an id as a key of the mapping exactly when a workbook with that id
      came back whose project path is one of the paths asked for under its
      name, and has such workbooks as values;
    - prints, after the notice for a file that is none, exactly the
      diagnostics for the paths asked for under a name that no workbook of
      the answer for that name has. *)
Theorem workbooks_from_paths
  (server : Server) (read_lines : string -> option (list string)) (limit : nat)
  (path_list : string) (w : world) (projects : list Project) :
  srv_projects server (sent w) = Ok projects ->
  let all_projects := projects_by_id projects in
  let lines := sanitized (read_lines path_list) in
  let asked := queries server (sent w ++ [GetProjects]) (group_paths lines) in
  answers_resolvable server limit all_projects (sent w ++ [GetProjects]) (group_paths lines) ->
  let run := get_workbooks_from_paths server read_lines limit path_list w in
  exists result diagnostics,
    fst run = Ok result
    /\ sent (snd run) = sent w ++ GetProjects :: map (fun q => GetWorkbooks (fst (fst q))) asked
    /\ NoDup (map (fun q => fst (fst q)) asked)
    /\ (forall name, name ∈ map (fun q => fst (fst q)) asked
                     <-> exists line, line ∈ lines /\ name_part line = name)
    /\ (forall name paths workbooks,
          (name, paths, workbooks) ∈ asked ->
          paths = map path_part (filter (fun line => name_part line = name) lines))
    /\ (forall id, is_Some (dict_get id result)
                   <-> exists workbook,
                         matches limit all_projects asked workbook /\ wb_id workbook = id)
    /\ (forall id workbook,
          dict_get id result = Some workbook ->
          matches limit all_projects asked workbook /\ wb_id workbook = id)
    /\ stdout (snd run)
       = stdout w ++ file_notice path_list (read_lines path_list) ++ diagnostics
    /\ (forall o, o ∈ diagnostics <-> reports_unmatched limit all_projects asked o).
Proof.
  intros Hprojects all_projects lines asked Hfine run.
  assert (Hrun : run
                 = (Ok (foldl store [] (all_kept limit all_projects asked)),
                    mkWorld (sent w ++ [GetProjects]
                             ++ map (fun item => GetWorkbooks (fst item)) (group_paths lines))
                            (stdout w ++ file_notice path_list (read_lines path_list)
                             ++ all_unmatched limit all_projects asked)
                            (stdin w))).
  { subst run. unfold get_workbooks_from_paths, query_projects.
    rewrite run_bind, run_call, Hprojects.
    rewrite run_bind, parse_workbook_path_run.
    fold all_projects. fold lines.
    rewrite resolve_names_run; [| exact Hfine].
    simpl. rewrite <- !app_assoc. reflexivity. }
  exists (foldl store [] (all_kept limit all_projects asked)),
         (all_unmatched limit all_projects asked).
  rewrite Hrun. cbn [fst snd sent stdout].
  assert (Hnames : map (fun q => fst (fst q)) asked = dict_keys (group_paths lines)).
  { subst asked. apply queries_names. }
  split; [reflexivity |]. split.
  { subst asked. rewrite queries_requests. reflexivity. }
  split; [rewrite Hnames; apply group_paths_NoDup |].
  split; [intros name; rewrite Hnames; apply group_paths_keys |].
  split.
  { intros name paths workbooks Hq. subst asked. apply queries_items in Hq.
    apply dict_get_listed in Hq; [| apply group_paths_NoDup].
    rewrite group_paths_get in Hq.
    destruct (map path_part (filter (fun line => name_part line = name) lines));
      congruence. }
  split.
  { intros id. split.
    - intros [workbook Hget]. apply foldl_store_get in Hget as [Hget | [Hin Hid]];
        [discriminate |].
      exists workbook. split; [apply all_kept_iff; exact Hin | exact Hid].
    - intros (workbook & Hmatch & <-). apply foldl_store_mem.
      apply all_kept_iff. exact Hmatch. }
  split.
  { intros id workbook Hget. apply foldl_store_get in Hget as [Hget | [Hin Hid]];
      [discriminate |].
    split; [apply all_kept_iff; exact Hin | exact Hid]. }
  split; [reflexivity |].
  intros o. apply all_unmatched_iff.
Qed.

Lemma site_answers_resolvable :
  answers_resolvable site_server 1000 site_arena [GetProjects]
    (group_paths (sanitized (two_paths "paths.txt"))).
Proof.
  change (group_paths (sanitized (two_paths "paths.txt")))
    with [("Report1", ["Default/Sales"]); ("Report2", ["Default/Missing"])].
  simpl. repeat split.
  - repeat constructor.
  - change (NoDup ["Default/Sales"]). apply NoDup_singleton.
  - repeat constructor.
  - change (NoDup (@nil string)). constructor.
Qed.

Lemma workbooks_from_paths_witness :
  srv_projects site_server (sent fresh_world) = Ok site_projects
  /\ answers_resolvable site_server 1000 site_arena [GetProjects]
       (group_paths (sanitized (two_paths "paths.txt")))
  /\ exists result,
       fst (get_workbooks_from_paths site_server two_paths 1000 "paths.txt" fresh_world)
       = Ok result
       /\ sent (snd (get_workbooks_from_paths site_server two_paths 1000 "paths.txt"
                       fresh_world))
          = [GetProjects; GetWorkbooks "Report1"; GetWorkbooks "Report2"].
Proof.
  split; [reflexivity |]. split; [exact site_answers_resolvable |].
  destruct (workbooks_from_paths site_server two_paths 1000 "paths.txt" fresh_world
              site_projects eq_refl site_answers_resolvable)
    as (result & diagnostics & Hresult & Hsent & _).
  exists result. split; [exact Hresult |]. rewrite Hsent. reflexivity.
Defined.

(** The scenario of the two reports: one entry in the mapping, one
    diagnostic, for the path of [Report2]. *)
Example two_reports_run :
  get_workbooks_from_paths site_server two_paths 1000 "paths.txt" fresh_world
  = (Ok [("w1", sales_report)],
     mkWorld [GetProjects; GetWorkbooks "Report1"; GetWorkbooks "Report2"]
             [Line ("Cannot find workbook path: Default/Missing/Report2, "
                    +:+ "each line should only contain one workbook path")]
             []).
Proof. vm_compute. reflexivity. Qed.

(** C2 as the specification states it fails where two workbooks of one answer have
    the path that was asked for: both are in [Default/Sales], the first
    enters the mapping and takes the path out of the set, and on the second
    the removal from the set raises [KeyError]; no mapping is returned. *)
Lemma workbooks_from_paths_counterexample :
  workbook_path_of 1000 (projects_by_id [default_project; sales_project; twin_project])
    sales_report = Ok "Default/Sales"
  /\ workbook_path_of 1000 (projects_by_id [default_project; sales_project; twin_project])
       twin_report = Ok "Default/Sales"
  /\ group_paths (sanitized (one_path "paths.txt")) = [("Report1", ["Default/Sales"])]
  /\ get_workbooks_from_paths twin_server one_path 1000 "paths.txt" fresh_world
     = (Raise (KeyError "Default/Sales"),
        mkWorld [GetProjects; GetWorkbooks "Report1"] [] []).
Proof. repeat split; vm_compute; reflexivity. Qed.

(** A path that ends in a no-break space: the line is stripped of it, the
    query is for the name without it, and the workbook is kept. *)
Example path_with_no_break_space :
  get_workbooks_from_paths site_server
    (fun _ => Some ["Default/Sales/Report1" +:+ no_break_space +:+ newline])
    1000 "paths.txt" fresh_world
  = (Ok [("w1", sales_report)],
     mkWorld [GetProjects; GetWorkbooks "Report1"] [] []).
Proof. vm_compute. reflexivity. Qed.

(** * The project tree: what the collection returns, and when *)

Section Collection.
Variable all_projects : list Project.

Lemma descends_under q child project :
  descends all_projects q child -> child_in all_projects child project ->
  descends all_projects q project.
Proof.
  induction 1 as [q child Hq | q parent child Hq _ IH]; intros Hchild.
  - eapply descends_step; [exact Hq |]. apply descends_child. exact Hchild.
  - eapply descends_step; [exact Hq |]. apply IH. exact Hchild.
Qed.

Lemma descends_from_top q project :
  descends all_projects q project ->
  child_in all_projects q project
  \/ exists child, child_in all_projects child project /\ descends all_projects q child.
Proof.
  induction 1 as [q project Hq | q parent project Hq Hup IH]; [auto |].
  right. destruct IH as [Hparent | (child & Hchild & Hdown)].
  - exists parent. split; [exact Hparent |]. apply descends_child. exact Hq.
  - exists child. split; [exact Hchild |]. eapply descends_step; eassumption.
Qed.

(** Everything that the collection adds below the project descends from
    it. *)
Lemma find_projects_to_update_sound limit :
  forall project acc r,
    find_projects_to_update limit project all_projects acc = Ok r ->
    exists collected,
      r = acc ++ project :: collected
      /\ Forall (fun q => descends all_projects q project) collected.
Proof.
  induction limit as [| limit IH]; intros project acc r; [discriminate |].
  simpl.
  assert (Hloop : forall children,
             Forall (fun child => child_in all_projects child project) children ->
             forall collected0 r,
               Forall (fun q => descends all_projects q project) collected0 ->
               res_fold (fun child acc => find_projects_to_update limit child all_projects acc)
                        children (acc ++ project :: collected0) = Ok r ->
               exists collected,
                 r = acc ++ project :: collected
                 /\ Forall (fun q => descends all_projects q project) collected).
  { induction 1 as [| child rest Hchild _ IHrest]; intros collected0 r0 Hsound; simpl.
    - intros [= <-]. eauto.
    - destruct (find_projects_to_update limit child all_projects
                  (acc ++ project :: collected0)) as [r1 | e] eqn:Hcall; [| discriminate].
      apply IH in Hcall as (below & -> & Hbelow).
      rewrite <- app_assoc. simpl. apply IHrest.
      apply Forall_app. split; [exact Hsound |]. constructor.
      + apply descends_child. exact Hchild.
      + eapply Forall_impl; [exact Hbelow |]. intros q Hq. simpl in Hq.
        eapply descends_under; eassumption. }
  intros Hrun.
  apply (Hloop _ (proj2 (Forall_forall _ _)
                    (fun child Hc => proj1 (children_are_children all_projects project child)
                                       Hc)) [] r).
  - constructor.
  - exact Hrun.
Qed.

(** Everything that descends from the project is in what the collection
    adds below it. *)
Lemma find_projects_to_update_complete limit :
  forall project acc r,
    find_projects_to_update limit project all_projects acc = Ok r ->
    exists collected,
      r = acc ++ project :: collected
      /\ forall q, descends all_projects q project -> q ∈ collected.
Proof.
  induction limit as [| limit IH]; intros project acc r; [discriminate |].
  simpl.
  assert (Hloop : forall children collected0 r,
             res_fold (fun child acc => find_projects_to_update limit child all_projects acc)
                      children (acc ++ project :: collected0) = Ok r ->
             exists collected,
               r = acc ++ project :: collected
               /\ (forall q, q ∈ collected0 -> q ∈ collected)
               /\ forall child, child ∈ children ->
                    child ∈ collected
                    /\ forall q, descends all_projects q child -> q ∈ collected).
  { induction children as [| child rest IHrest]; intros collected0 r0; simpl.
    - intros [= <-]. exists collected0. split; [reflexivity |]. split; [auto |].
      intros child Hin. apply elem_of_nil in Hin. contradiction.
    - destruct (find_projects_to_update limit child all_projects
                  (acc ++ project :: collected0)) as [r1 | e] eqn:Hcall; [| discriminate].
      apply IH in Hcall as (below & -> & Hbelow).
      rewrite <- app_assoc. simpl. intros Hrest.
      apply IHrest in Hrest as (collected & -> & Hkeep & Hothers).
      exists collected. split; [reflexivity |]. split.
      + intros q Hq. apply Hkeep. apply elem_of_app. auto.
      + intros c Hc. apply elem_of_cons in Hc as [-> | Hc]; [| auto]. split.
        * apply Hkeep. apply elem_of_app. right. apply elem_of_cons. auto.
        * intros q Hq. apply Hkeep. apply elem_of_app. right. apply elem_of_cons. auto. }
  intros Hrun. apply (Hloop _ []) in Hrun as (collected & -> & _ & Hchildren).
  exists collected. split; [reflexivity |].
  intros q Hq. apply descends_from_top in Hq as [Hchild | (child & Hchild & Hdown)].
  - destruct (Hchildren q) as [Hin _]; [| exact Hin].
    apply children_are_children. exact Hchild.
  - destruct (Hchildren child) as [_ Hbelow]; [| exact (Hbelow q Hdown)].
    apply children_are_children. exact Hchild.
Qed.

(** X1: when [find_projects_to_update] returns, it returns the project
    first and after it exactly the projects of the listing that descend
    from it by parent links: none is left out and none is foreign. *)
Theorem collected_are_the_descendants (project : Project) (limit : nat) (r : list Project) :
  find_projects_to_update limit project all_projects [] = Ok r ->
  exists collected,
    r = project :: collected
    /\ forall q, q ∈ collected <-> descends all_projects q project.
Proof.
  intros Hrun.
  destruct (find_projects_to_update_sound limit project [] r Hrun) as (collected & -> & Hsound).
  destruct (find_projects_to_update_complete limit project [] _ Hrun)
    as (collected' & Heq & Hcomplete).
  simpl in Heq. injection Heq as <-.
  exists collected. split; [reflexivity |]. intros q. split.
  - intros Hq. rewrite Forall_forall in Hsound. apply Hsound. exact Hq.
  - apply Hcomplete.
Qed.

End Collection.

Lemma collected_are_the_descendants_witness :
  find_projects_to_update 1000 sales_project deep_projects [] = Ok [sales_project; q3_project]
  /\ descends deep_projects q3_project sales_project.
Proof.
  split; [reflexivity |].
  destruct (collected_are_the_descendants deep_projects sales_project 1000
              [sales_project; q3_project] eq_refl) as (collected & Heq & Hiff).
  injection Heq as <-. apply Hiff. apply elem_of_cons. left. reflexivity.
Defined.

Section CollectionDepth.
Variable all_projects : list Project.

Lemma height_le_children n project :
  height_le all_projects (S n) project
  <-> Forall (height_le all_projects n)
             (filter (fun child => p_parent_id child = Some (p_id project)) all_projects).
Proof.
  rewrite Forall_forall. simpl. split.
  - intros Hheight child Hchild. apply Hheight. apply children_are_children. exact Hchild.
  - intros Hall child Hchild. apply Hall. apply children_are_children. exact Hchild.
Qed.

(** X2: [find_projects_to_update] returns exactly when the tree below the
    project has fewer levels than there are frames left; when it has not,
    the outcome is [RecursionError], and no other exception ever comes out
    of it. *)
Theorem find_projects_to_update_outcome (limit : nat) :
  forall (project : Project) (acc : list Project),
    (height_le all_projects limit project
     /\ exists r, find_projects_to_update (S limit) project all_projects acc = Ok r)
    \/ (~ height_le all_projects limit project
        /\ find_projects_to_update (S limit) project all_projects acc = Raise RecursionError).
Proof.
  induction limit as [| limit IH]; intros project acc.
  - simpl.
    destruct (filter (fun child => p_parent_id child = Some (p_id project)) all_projects)
      as [| child rest] eqn:Hchildren; simpl.
    + left. split; [| eauto]. intros child Hchild.
      apply children_are_children in Hchild. rewrite Hchildren in Hchild.
      apply elem_of_nil in Hchild. exact Hchild.
    + right. split; [| reflexivity]. intros Hnone. apply (Hnone child).
      apply children_are_children. rewrite Hchildren. apply elem_of_cons. auto.
  - rewrite height_le_children.
    change (find_projects_to_update (S (S limit)) project all_projects acc)
      with (res_fold (fun child acc => find_projects_to_update (S limit) child all_projects acc)
              (filter (fun child => p_parent_id child = Some (p_id project)) all_projects)
              (acc ++ [project])).
    generalize (acc ++ [project]).
    induction (filter (fun child => p_parent_id child = Some (p_id project)) all_projects)
      as [| child rest IHrest]; intros acc0; cbn [res_fold].
    + left. split; [constructor | eauto].
    + destruct (IH child acc0) as [[Hchild [r1 ->]] | [Hchild ->]].
      * destruct (IHrest r1) as [[Hrest Hrun] | [Hrest Hrun]].
        -- left. split; [constructor; assumption | exact Hrun].
        -- right. split; [| exact Hrun]. intros Hall. apply Hrest.
           apply Forall_cons in Hall as [_ Hall]. exact Hall.
      * right. split; [| reflexivity]. intros Hall.
        apply Forall_cons in Hall as [Hall _]. contradiction.
Qed.

End CollectionDepth.

(** * The project tree: a parent that is missing *)

(** X3: when the walk from the project comes, [depth] steps up, to a
    project whose parent id is not a key of the dictionary,
    [find_project_path] raises [KeyError] with that id, provided it has more
    than [depth] frames; with fewer it raises [RecursionError]. *)
Theorem find_project_path_missing_parent
  (all_projects : gmap string Project) (depth : nat) :
  forall (project orphan : Project) (parent_id path : string),
    ancestor all_projects depth project = Some orphan ->
    p_parent_id orphan = Some parent_id ->
    all_projects !! parent_id = None ->
    (forall limit, (depth < limit)%nat ->
       find_project_path limit project all_projects path = Raise (KeyError parent_id))
    /\ (forall limit, (limit <= depth)%nat ->
          find_project_path limit project all_projects path = Raise RecursionError).
Proof.
  induction depth as [| depth IH]; intros project orphan parent_id path Hup Hid Hmissing.
  - simpl in Hup. injection Hup as <-. split.
    + intros [| limit] Hlimit; [lia |]. simpl. rewrite Hid, Hmissing. reflexivity.
    + intros limit Hlimit. assert (limit = 0%nat) as -> by lia. reflexivity.
  - simpl in Hup. destruct (parent_of all_projects project) as [parent |] eqn:Hparent;
      [| discriminate].
    unfold parent_of in Hparent.
    destruct (p_parent_id project) as [pid |] eqn:Hpid; [| discriminate].
    split.
    + intros [| limit] Hlimit; [lia |]. simpl. rewrite Hpid, Hparent.
      apply (IH parent orphan parent_id _ Hup Hid Hmissing). lia.
    + intros [| limit] Hlimit; [reflexivity |]. simpl. rewrite Hpid, Hparent.
      apply (IH parent orphan parent_id _ Hup Hid Hmissing). lia.
Qed.

Lemma find_project_path_missing_parent_witness :
  ancestor sales_alone 0 sales_project = Some sales_project
  /\ p_parent_id sales_project = Some "p1"
  /\ sales_alone !! "p1" = None
  /\ find_project_path 1000 sales_project sales_alone "" = Raise (KeyError "p1").
Proof.
  split; [reflexivity |]. split; [reflexivity |]. split; [reflexivity |].
  apply (find_project_path_missing_parent sales_alone 0 sales_project sales_project "p1" ""
           eq_refl eq_refl eq_refl).
  lia.
Defined.

(** * Splitting and joining *)

Lemma split_on_not_nil sep s : split_on sep s <> [].
Proof.
  destruct s as [| c s]; simpl; [discriminate |].
  case_bool_decide; [discriminate |]. destruct (split_on sep s); discriminate.
Qed.

Lemma concat_split_on (s : string) : String.concat "/" (split_on slash s) = s.
Proof.
  induction s as [| c s IH]; [reflexivity |]. simpl split_on.
  pose proof (split_on_not_nil slash s) as Hne.
  case_bool_decide as Hc.
  - subst c. destruct (split_on slash s) as [| first others]; [contradiction |].
    rewrite concat_cons_cons, IH. reflexivity.
  - destruct (split_on slash s) as [| first others]; [contradiction |].
    destruct others as [| second others].
    + simpl in *. rewrite IH. reflexivity.
    + rewrite concat_cons_cons in *. rewrite <- IH. reflexivity.
Qed.

Lemma split_on_parts_plain sep s :
  Forall (fun part => contains sep part = false) (split_on sep s).
Proof.
  induction s as [| c s IH]; simpl.
  - constructor; [reflexivity | constructor].
  - case_bool_decide as Hc.
    + constructor; [reflexivity | exact IH].
    + destruct (split_on sep s) as [| first others]; simpl.
      * constructor; [| constructor]. simpl. rewrite bool_decide_eq_false_2 by exact Hc.
        reflexivity.
      * apply Forall_cons in IH as [Hfirst Hothers]. constructor; [| exact Hothers].
        simpl. rewrite bool_decide_eq_false_2 by exact Hc. exact Hfirst.
Qed.

Lemma contains_app c a b : contains c (a +:+ b) = contains c a || contains c b.
Proof.
  induction a as [| x a IH]; simpl; [reflexivity |]. rewrite IH. apply orb_assoc.
Qed.

Lemma append_assoc (a b c : string) : (a +:+ b) +:+ c = a +:+ b +:+ c.
Proof.
  induction a as [| x a IH]; [reflexivity |].
  change (String x ((a +:+ b) +:+ c) = String x (a +:+ b +:+ c)). f_equal. exact IH.
Qed.

Lemma concat_snoc (l : list string) (x : string) :
  l <> [] -> String.concat "/" (l ++ [x]) = String.concat "/" l +:+ "/" +:+ x.
Proof.
  induction l as [| a l IH]; intros Hne; [contradiction |].
  destruct l as [| b l].
  - reflexivity.
  - change ((a :: b :: l) ++ [x]) with (a :: b :: (l ++ [x])).
    rewrite !concat_cons_cons.
    change (b :: l ++ [x]) with ((b :: l) ++ [x]). rewrite IH by discriminate.
    rewrite !append_assoc. reflexivity.
Qed.

(** X4: [parse_workbook_path] cuts each line, stripped at its end, at its
    last slash: the name filed has no slash, and project path, slash and
    name together give the stripped line back; a line without slash is all
    name, filed under the empty project path. *)
Theorem add_workbook_path_cuts_at_last_slash
  (workbook_path : string) (mapping : pydict (list string)) :
  exists name path,
    add_workbook_path workbook_path mapping
    = dict_set name (default [] (dict_get name mapping) ++ [path]) mapping
    /\ contains slash name = false
    /\ if contains slash (rstrip workbook_path)
       then path +:+ "/" +:+ name = rstrip workbook_path
       else path = "" /\ name = rstrip workbook_path.
Proof.
  exists (name_part workbook_path), (path_part workbook_path).
  split; [reflexivity |].
  unfold name_part, path_part.
  pose proof (split_on_not_nil slash (rstrip workbook_path)) as Hne.
  pose proof (split_on_parts_plain slash (rstrip workbook_path)) as Hplain.
  pose proof (concat_split_on (rstrip workbook_path)) as Hjoin.
  remember (rstrip workbook_path) as s eqn:Hs. clear Hs.
  remember (split_on slash s) as parts eqn:Hparts. clear Hparts.
  rewrite (app_removelast_last "" Hne) in Hplain, Hjoin.
  remember (removelast parts) as init eqn:Hinit. clear Hinit.
  remember (List.last parts "") as name eqn:Hname. clear Hname Hne parts.
  apply Forall_app in Hplain as [_ Hlast]. apply Forall_cons in Hlast as [Hlast _].
  split; [exact Hlast |]. subst s.
  destruct init as [| a l].
  - simpl. rewrite Hlast. split; reflexivity.
  - rewrite concat_snoc by discriminate.
    rewrite !contains_app. change (contains slash "/") with true.
    destruct (contains slash (String.concat "/" (a :: l))); reflexivity.
Qed.

(** * Stripping *)

Lemma rstrip_all_space s : all_space s = true -> rstrip s = "".
Proof.
  induction s as [| c s IH]; simpl; [reflexivity |].
  intros Hs. apply andb_true_iff in Hs as [Hc Hs]. rewrite (IH Hs), Hc. reflexivity.
Qed.

Lemma rstrip_app_space a b : all_space b = true -> rstrip (a +:+ b) = rstrip a.
Proof.
  intros Hb. induction a as [| c a IH]; simpl.
  - apply rstrip_all_space. exact Hb.
  - rewrite IH. reflexivity.
Qed.

Lemma all_space_app a b : all_space (a +:+ b) = all_space a && all_space b.
Proof.
  induction a as [| c a IH]; simpl; [reflexivity |]. rewrite IH. apply andb_assoc.
Qed.

Lemma rstrip_clean (init : string) (last : ascii) :
  is_space last = false ->
  rstrip (init +:+ String last "") = init +:+ String last ""
  /\ init +:+ String last "" <> "".
Proof.
  intros Hlast. induction init as [| c rest [IH Hne]].
  - change ("" +:+ String last "") with (String last ""). simpl. rewrite Hlast.
    split; [reflexivity | discriminate].
  - change (String c rest +:+ String last "") with (String c (rest +:+ String last "")).
    split; [| discriminate].
    cbn [rstrip]. rewrite IH. rewrite bool_decide_eq_false_2 by exact Hne.
    rewrite andb_false_r. reflexivity.
Qed.

Lemma clean_text_line text space :
  clean_text text -> all_space space = true ->
  isspace (text +:+ space) = false /\ rstrip (text +:+ space) = text.
Proof.
  intros (init & last & -> & Hlast) Hspace.
  destruct (rstrip_clean init last Hlast) as [Hclean Hne]. split.
  - unfold isspace. rewrite all_space_app.
    destruct (all_space (init +:+ String last "")) eqn:Htext; [| apply andb_false_r].
    apply rstrip_all_space in Htext. congruence.
  - rewrite rstrip_app_space by exact Hspace. exact Hclean.
Qed.

(** X5: [sanitize_workbook_list] gives back the texts of a file
    whose lines are these texts, each followed by its line end, when every
    text has a last character and that is no white space of Python, the
    no-break space included; it prints nothing and sends nothing.  For a
    file that is none it returns the empty list after a notice. *)
Theorem sanitize_workbook_list_reads_texts
  (read_lines : string -> option (list string)) (file_name file_type : string)
  (texts : list string) (w : world) :
  file_type = "name" \/ file_type = "path" ->
  Forall clean_text texts ->
  (read_lines file_name = Some (map (fun text => text +:+ newline) texts) ->
   sanitize_workbook_list read_lines file_name file_type w = (Ok (Some texts), w))
  /\ (read_lines file_name = None ->
      sanitize_workbook_list read_lines file_name file_type w
      = (Ok (Some []), emit (Line ("Invalid file name '" +:+ file_name +:+ "'")) w)).
Proof.
  intros Htype Hclean. unfold sanitize_workbook_list. split; intros ->; [| reflexivity].
  assert (Hknown : bool_decide (file_type = "name") || bool_decide (file_type = "path") = true).
  { destruct Htype as [-> | ->]; reflexivity. }
  rewrite Hknown.
  assert (Hlist : map rstrip (filter (fun workbook => isspace workbook = false)
                                (map (fun text => text +:+ newline) texts)) = texts).
  { induction Hclean as [| text rest Htext _ IH]; [reflexivity |].
    destruct (clean_text_line text newline Htext eq_refl) as [Hspace Hstrip].
    cbn [map]. rewrite filter_cons, decide_True by exact Hspace.
    cbn [map]. rewrite Hstrip. f_equal. exact IH. }
  rewrite Hlist. reflexivity.
Qed.

Lemma sanitize_workbook_list_reads_texts_witness :
  Forall clean_text ["Report1"; "Report 2"]
  /\ sanitize_workbook_list
       (fun _ => Some (map (fun text => text +:+ newline) ["Report1"; "Report 2"]))
       "names.txt" "name" fresh_world
     = (Ok (Some ["Report1"; "Report 2"]), fresh_world).
Proof.
  assert (Hclean : Forall clean_text ["Report1"; "Report 2"]).
  { repeat constructor.
    - exists "Report", "1"%char. split; reflexivity.
    - exists "Report ", "2"%char. split; reflexivity. }
  split; [exact Hclean |].
  apply (sanitize_workbook_list_reads_texts
           (fun _ => Some (map (fun text => text +:+ newline) ["Report1"; "Report 2"]))
           "names.txt" "name" ["Report1"; "Report 2"] fresh_world (or_introl eq_refl) Hclean).
  reflexivity.
Defined.

(** White-space lines are passed over. *)
Example three_lines_sanitized :
  sanitize_workbook_list three_lines "names.txt" "name" fresh_world
  = (Ok (Some ["Report1"; "Report 2"]), fresh_world).
Proof. vm_compute. reflexivity. Qed.

(** A no-break space at the end of a line is white space and goes with the
    line end. *)
Example no_break_space_is_stripped :
  sanitize_workbook_list
    (fun _ => Some ["Report1" +:+ no_break_space +:+ newline; no_break_space +:+ newline])
    "names.txt" "name" fresh_world
  = (Ok (Some ["Report1"]), fresh_world).
Proof. vm_compute. reflexivity. Qed.

(** * What a computation sends *)

Lemma sends_only_ret allowed {A} (a : A) : sends_only allowed (mret a : M A).
Proof. intros w. exists []. split; [simpl; rewrite app_nil_r; reflexivity | constructor]. Qed.

Lemma sends_only_raise allowed {A} (e : exn) : sends_only allowed (raise (A:=A) e).
Proof. intros w. exists []. split; [simpl; rewrite app_nil_r; reflexivity | constructor]. Qed.

Lemma sends_only_lift allowed {A} (r : res A) : sends_only allowed (lift r).
Proof. intros w. exists []. split; [simpl; rewrite app_nil_r; reflexivity | constructor]. Qed.

Lemma sends_only_print allowed text : sends_only allowed (print text).
Proof. intros w. exists []. split; [simpl; rewrite app_nil_r; reflexivity | constructor]. Qed.

Lemma sends_only_print_table allowed names rows :
  sends_only allowed (print_table names rows).
Proof. intros w. exists []. split; [simpl; rewrite app_nil_r; reflexivity | constructor]. Qed.

Lemma sends_only_confirm allowed message : sends_only allowed (confirm message).
Proof.
  intros w. exists []. rewrite app_nil_r. split; [| constructor].
  apply sends_nothing_confirm.
Qed.

Lemma sends_only_call allowed {A} (answer : list request -> res A) (q : request) :
  allowed q = true -> sends_only allowed (call answer q).
Proof. intros Hq w. exists [q]. split; [reflexivity | constructor; [exact Hq | constructor]]. Qed.

Lemma sends_only_bind allowed {A B} (m : M A) (k : A -> M B) :
  sends_only allowed m -> (forall a, sends_only allowed (k a)) ->
  sends_only allowed (m ≫= k).
Proof.
  intros Hm Hk w. rewrite run_bind. destruct (Hm w) as (first & Hfirst & Hallowed).
  destruct (m w) as [[a | e] w']; simpl in *.
  - destruct (Hk a w') as (second & Hsecond & Hallowed').
    exists (first ++ second). split.
    + rewrite Hsecond, Hfirst, app_assoc. reflexivity.
    + apply Forall_app. auto.
  - exists first. auto.
Qed.

Lemma sends_only_try allowed {A} (body : M A) (handler : string -> string -> M A) :
  sends_only allowed body -> (forall s d, sends_only allowed (handler s d)) ->
  sends_only allowed (try_except body handler).
Proof.
  intros Hbody Hhandler w. unfold try_except.
  destruct (Hbody w) as (first & Hfirst & Hallowed).
  destruct (body w) as [[a | e] w']; simpl in *; [eauto |].
  destruct e; simpl; eauto.
  destruct (Hhandler summary detail w') as (second & Hsecond & Hallowed').
  exists (first ++ second). split.
  - rewrite Hsecond, Hfirst, app_assoc. reflexivity.
  - apply Forall_app. auto.
Qed.

Lemma sends_only_for_each allowed {A S} (xs : list A) (body : A -> S -> M S) :
  (forall x acc, sends_only allowed (body x acc)) ->
  forall acc, sends_only allowed (for_each xs body acc).
Proof.
  intros Hbody. induction xs as [| x rest IH]; intros acc; simpl.
  - apply sends_only_ret.
  - apply sends_only_bind; [apply Hbody | exact IH].
Qed.

Lemma sends_only_weaken (allowed allowed' : request -> bool) {A} (m : M A) :
  (forall q, allowed q = true -> allowed' q = true) ->
  sends_only allowed m -> sends_only allowed' m.
Proof.
  intros Hweaker Hm w. destruct (Hm w) as (sent_now & Hsent & Hallowed).
  exists sent_now. split; [exact Hsent |].
  eapply Forall_impl; [exact Hallowed |]. exact Hweaker.
Qed.

Ltac sends_only :=
  repeat first
    [ apply sends_only_ret
    | apply sends_only_raise
    | apply sends_only_lift
    | apply sends_only_print
    | apply sends_only_print_table
    | apply sends_only_confirm
    | apply sends_only_call; reflexivity
    | apply sends_only_for_each
    | apply sends_only_bind
    | apply sends_only_try
    | match goal with
      | |- forall _, _ => intro
      | |- sends_only _ (if ?b then _ else _) => destruct b
      | |- sends_only _ (let '(_, _) := ?p in _) => destruct p
      | |- sends_only _ (match ?x with _ => _ end) => destruct x
      end ].

Lemma resolvers_only_ask_parts
  (server : Server) (read_lines : string -> option (list string)) (limit : nat)
  (file : string) :
  sends_only is_query (get_workbooks_from_paths server read_lines limit file)
  /\ sends_only is_query (get_workbooks_from_names server read_lines file)
  /\ sends_only is_query (get_workbook_from_path server limit file).
Proof.
  repeat split.
  - unfold get_workbooks_from_paths, query_projects, parse_workbook_path,
      sanitize_workbook_list, resolve_name, query_workbooks.
    sends_only.
  - unfold get_workbooks_from_names, sanitize_workbook_list, resolve_by_name,
      query_workbooks.
    sends_only.
  - unfold get_workbook_from_path, query_projects, query_workbooks. sends_only.
Qed.

(** X6: the resolvers and lookups only ask: whatever the server
    answers, whatever the files hold, and however they end, the requests
    that [get_workbooks_from_paths], [get_workbooks_from_names],
    [get_workbook_from_path], [get_project_paths] and [find_schedule] send
    are listings of projects, workbooks and schedules and nothing else. *)
Theorem resolvers_only_ask
  (server : Server) (read_lines : string -> option (list string)) (limit : nat)
  (file : string) (projects : list Project) (name : option string) :
  sends_only is_query (get_workbooks_from_paths server read_lines limit file)
  /\ sends_only is_query (get_workbooks_from_names server read_lines file)
  /\ sends_only is_query (get_workbook_from_path server limit file)
  /\ sends_only is_query (get_project_paths server limit projects)
  /\ sends_only is_query (find_schedule server name).
Proof.
  destruct (resolvers_only_ask_parts server read_lines limit file) as (Hpaths & Hnames & Hone).
  repeat split; [exact Hpaths | exact Hnames | exact Hone | |].
  - unfold get_project_paths, query_projects. sends_only.
  - unfold find_schedule, all_schedules. sends_only.
Qed.

(** * Workbooks by name *)

Lemma rstrip_idempotent s : rstrip (rstrip s) = rstrip s.
Proof.
  induction s as [| c s IH]; [reflexivity |]. simpl.
  destruct (is_space c && bool_decide (rstrip s = "")) eqn:Hdrop; [reflexivity |].
  simpl. rewrite IH, Hdrop. reflexivity.
Qed.

Lemma sanitized_stripped file_list :
  Forall (fun line => rstrip line = line) (sanitized file_list).
Proof.
  destruct file_list as [lines |]; simpl; [| constructor].
  apply Forall_forall. intros line Hline.
  apply list_elem_of_fmap in Hline as (raw & -> & _). apply rstrip_idempotent.
Qed.

Lemma queries_of_stripped (names : list string) :
  Forall (fun line => rstrip line = line) names ->
  map (fun name => GetWorkbooks (rstrip name)) names = map GetWorkbooks names.
Proof.
  induction 1 as [| name rest Hname _ IH]; [reflexivity |].
  simpl. rewrite Hname, IH. reflexivity.
Qed.

Section ByName.
Variable server : Server.

Lemma resolve_by_name_run (name : string) (d : pydict Workbook) (w : world) :
  is_ok (srv_workbooks server (sent w) (rstrip name)) = true ->
  resolve_by_name server name d w
  = (Ok (foldl store d (workbooks_answer server (sent w) (rstrip name))),
     mkWorld (sent w ++ [GetWorkbooks (rstrip name)])
             (stdout w ++ match workbooks_answer server (sent w) (rstrip name) with
                          | [] => [Line (cannot_find_name name)]
                          | _ => []
                          end)
             (stdin w)).
Proof.
  intros Hanswer. unfold resolve_by_name, query_workbooks, workbooks_answer.
  rewrite run_bind, run_call.
  destruct (srv_workbooks server (sent w) (rstrip name)) as [workbooks | e];
    [| discriminate].
  rewrite run_bind. destruct workbooks as [| first rest]; simpl.
  - reflexivity.
  - rewrite app_nil_r. reflexivity.
Qed.

Lemma resolve_by_names_run (names : list string) :
  forall d w,
    answers_come server (sent w) names ->
    for_each names (resolve_by_name server) d w
    = (Ok (foldl store d (flat_map snd (name_queries server (sent w) names))),
       mkWorld (sent w ++ map (fun name => GetWorkbooks (rstrip name)) names)
               (stdout w ++ names_not_found (name_queries server (sent w) names))
               (stdin w)).
Proof.
  induction names as [| name rest IH]; intros d w Hcome.
  - simpl. rewrite !app_nil_r. destruct w; reflexivity.
  - destruct Hcome as [Hanswer Hrest].
    cbn [for_each]. rewrite run_bind, (resolve_by_name_run name d w Hanswer).
    rewrite IH by exact Hrest.
    unfold names_not_found. simpl. rewrite foldl_app, <- !app_assoc. reflexivity.
Qed.

End ByName.

(** X7: where every workbook query is answered, [get_workbooks_from_names]
    sends one query for every line of the name list that counts, repeated
    names included, in the order of the lines; the keys of the mapping it
    returns are exactly the ids of the workbooks that came back; and the
    names it reports as not found are exactly those whose answer was
    empty. *)
Theorem workbooks_from_names
  (server : Server) (read_lines : string -> option (list string))
  (name_list : string) (w : world) :
  let names := sanitized (read_lines name_list) in
  let asked := name_queries server (sent w) names in
  answers_come server (sent w) names ->
  let run := get_workbooks_from_names server read_lines name_list w in
  exists result,
    fst run = Ok result
    /\ sent (snd run) = sent w ++ map GetWorkbooks names
    /\ (forall id, is_Some (dict_get id result)
                   <-> exists name workbooks workbook,
                         (name, workbooks) ∈ asked /\ workbook ∈ workbooks
                         /\ wb_id workbook = id)
    /\ stdout (snd run)
       = stdout w ++ file_notice name_list (read_lines name_list) ++ names_not_found asked
    /\ (forall o, o ∈ names_not_found asked
                  <-> exists name, (name, []) ∈ asked /\ o = Line (cannot_find_name name)).
Proof.
  intros names asked Hcome run.
  assert (Hstripped : map (fun name => GetWorkbooks (rstrip name)) names
                      = map GetWorkbooks names).
  { apply queries_of_stripped, sanitized_stripped. }
  assert (Hrun : run
                 = (Ok (foldl store [] (flat_map snd asked)),
                    mkWorld (sent w ++ map GetWorkbooks names)
                            (stdout w ++ file_notice name_list (read_lines name_list)
                             ++ names_not_found asked)
                            (stdin w))).
  { subst run asked. unfold get_workbooks_from_names, sanitize_workbook_list.
    rewrite run_bind. subst names. unfold sanitized, file_notice in *.
    destruct (read_lines name_list) as [lines |]; simpl.
    - rewrite resolve_by_names_run by exact Hcome. rewrite Hstripped. reflexivity.
    - rewrite app_nil_r. reflexivity. }
  exists (foldl store [] (flat_map snd asked)). rewrite Hrun. cbn [fst snd sent stdout].
  split; [reflexivity |]. split; [reflexivity |]. split; [| split; [reflexivity |]].
  - intros id. split.
    + intros [workbook Hget].
      apply foldl_store_get in Hget as [Hget | [Hin Hid]]; [discriminate |].
      apply list_elem_of_In, in_flat_map in Hin as ([name workbooks] & Hq & Hin).
      exists name, workbooks, workbook.
      split; [apply list_elem_of_In; exact Hq |]. split; [apply list_elem_of_In; exact Hin |].
      exact Hid.
    + intros (name & workbooks & workbook & Hq & Hin & <-). apply foldl_store_mem.
      apply list_elem_of_In, in_flat_map. exists (name, workbooks).
      split; apply list_elem_of_In; assumption.
  - intros o. unfold names_not_found. rewrite list_elem_of_In, in_flat_map. split.
    + intros ([name workbooks] & Hq & Ho). simpl in Ho.
      destruct workbooks as [| first rest]; [| destruct Ho].
      destruct Ho as [<- | []]. exists name. split; [apply list_elem_of_In; exact Hq |].
      reflexivity.
    + intros (name & Hq & ->). exists (name, []).
      split; [apply list_elem_of_In; exact Hq | left; reflexivity].
Qed.

Lemma workbooks_from_names_witness :
  answers_come names_server [] (sanitized (three_lines "names.txt"))
  /\ exists result,
       fst (get_workbooks_from_names names_server three_lines "names.txt" fresh_world)
       = Ok result
       /\ sent (snd (get_workbooks_from_names names_server three_lines "names.txt"
                       fresh_world))
          = [GetWorkbooks "Report1"; GetWorkbooks "Report 2"].
Proof.
  assert (Hcome : answers_come names_server [] (sanitized (three_lines "names.txt"))).
  { vm_compute. auto. }
  split; [exact Hcome |].
  destruct (workbooks_from_names names_server three_lines "names.txt" fresh_world Hcome)
    as (result & Hresult & Hsent & _).
  exists result. split; [exact Hresult | exact Hsent].
Defined.

(** Both workbooks named [Report1] are kept, whatever their project; the
    name without workbook is reported. *)
Example names_run :
  get_workbooks_from_names names_server three_lines "names.txt" fresh_world
  = (Ok [("w1", sales_report); ("w4", twin_report)],
     mkWorld [GetWorkbooks "Report1"; GetWorkbooks "Report 2"]
             [Line ("Cannot find workbook name: Report 2, "
                    +:+ "each line should only contain one workbook name")]
             []).
Proof. vm_compute. reflexivity. Qed.

(** * One workbook by path *)

Section OnePath.
Variable limit : nat.
Variable all_projects : gmap string Project.

Lemma first_at_path_step (path : string) (workbook : Workbook) (rest : list Workbook) :
  first_at_path limit all_projects path (workbook :: rest)
  = match workbook_path_of limit all_projects workbook with
    | Ok found =>
        if bool_decide (found = path) then Ok [(wb_id workbook, workbook)]
        else first_at_path limit all_projects path rest
    | Raise e => Raise e
    end.
Proof.
  unfold workbook_path_of. simpl.
  destruct (all_projects !! wb_project_id workbook); reflexivity.
Qed.

Lemma first_at_path_found (path : string) (before : list Workbook) (workbook : Workbook)
  (after : list Workbook) :
  Forall (lies_elsewhere limit all_projects path) before ->
  workbook_path_of limit all_projects workbook = Ok path ->
  first_at_path limit all_projects path (before ++ workbook :: after)
  = Ok [(wb_id workbook, workbook)].
Proof.
  intros Hbefore Hhere. induction Hbefore as [| b before (other & Hb & Hother) _ IH].
  - simpl app. rewrite first_at_path_step, Hhere.
    rewrite bool_decide_eq_true_2 by reflexivity. reflexivity.
  - simpl app. rewrite first_at_path_step, Hb.
    rewrite bool_decide_eq_false_2 by exact Hother. exact IH.
Qed.

Lemma first_at_path_none (path : string) (workbooks : list Workbook) :
  Forall (lies_elsewhere limit all_projects path) workbooks ->
  first_at_path limit all_projects path workbooks = Ok [].
Proof.
  induction 1 as [| b rest (other & Hb & Hother) _ IH]; [reflexivity |].
  rewrite first_at_path_step, Hb. rewrite bool_decide_eq_false_2 by exact Hother. exact IH.
Qed.

Lemma first_at_path_at_most_one (path : string) (workbooks : list Workbook)
  (result : pydict Workbook) :
  first_at_path limit all_projects path workbooks = Ok result ->
  result = []
  \/ exists workbook,
       workbook ∈ workbooks /\ result = [(wb_id workbook, workbook)]
       /\ workbook_path_of limit all_projects workbook = Ok path.
Proof.
  induction workbooks as [| workbook rest IH].
  - intros [= <-]. auto.
  - rewrite first_at_path_step.
    destruct (workbook_path_of limit all_projects workbook) as [found |] eqn:Hfound;
      [| discriminate].
    case_bool_decide as Hpath.
    + intros [= <-]. right. exists workbook.
      split; [apply elem_of_cons; auto |]. split; [reflexivity | congruence].
    + intros Hrest. destruct (IH Hrest) as [-> | (hit & Hin & -> & Hhit)]; [auto |].
      right. exists hit. split; [apply elem_of_cons; auto | auto].
Qed.

End OnePath.

(** X8: where the projects and the workbooks of the name come back,
    [get_workbook_from_path] returns a mapping of at most one workbook: the
    first workbook of the answer whose project path is the path before the
    last slash, the workbooks before it lying elsewhere, and the workbooks
    after it not looked at; or the empty mapping when all lie elsewhere. *)
Theorem workbook_from_path
  (server : Server) (limit : nat) (workbook_path : string) (w : world)
  (projects : list Project) (workbooks : list Workbook) :
  srv_projects server (sent w) = Ok projects ->
  srv_workbooks server (sent w ++ [GetProjects]) (name_part workbook_path) = Ok workbooks ->
  let all_projects := projects_by_id projects in
  let path := path_part workbook_path in
  let run := get_workbook_from_path server limit workbook_path w in
  sent (snd run) = sent w ++ [GetProjects; GetWorkbooks (name_part workbook_path)]
  /\ (forall before workbook after,
        workbooks = before ++ workbook :: after ->
        Forall (lies_elsewhere limit all_projects path) before ->
        workbook_path_of limit all_projects workbook = Ok path ->
        fst run = Ok [(wb_id workbook, workbook)])
  /\ (Forall (lies_elsewhere limit all_projects path) workbooks -> fst run = Ok [])
  /\ (forall result,
        fst run = Ok result ->
        result = []
        \/ exists workbook,
             workbook ∈ workbooks /\ result = [(wb_id workbook, workbook)]
             /\ workbook_path_of limit all_projects workbook = Ok path).
Proof.
  intros Hprojects Hworkbooks all_projects path run.
  assert (Hrun : run
                 = (first_at_path limit all_projects path workbooks,
                    mkWorld (sent w ++ [GetProjects; GetWorkbooks (name_part workbook_path)])
                            (stdout w) (stdin w))).
  { subst run. unfold get_workbook_from_path, query_projects, query_workbooks.
    rewrite run_bind, run_call, Hprojects.
    fold (name_part workbook_path). fold (path_part workbook_path).
    rewrite run_bind, run_call. simpl sent. rewrite Hworkbooks.
    unfold lift, send. simpl. rewrite <- app_assoc. reflexivity. }
  rewrite Hrun. cbn [fst snd sent]. split; [reflexivity |]. split; [| split].
  - intros before workbook after -> Hbefore Hhere. apply first_at_path_found; assumption.
  - apply first_at_path_none.
  - intros result. apply first_at_path_at_most_one.
Qed.

Lemma workbook_from_path_witness :
  srv_projects names_server [] = Ok site_projects
  /\ srv_workbooks names_server [GetProjects] (name_part "Default/Sales/Report1")
     = Ok [sales_report; twin_report]
  /\ workbook_path_of 1000 site_arena sales_report = Ok (path_part "Default/Sales/Report1")
  /\ fst (get_workbook_from_path names_server 1000 "Default/Sales/Report1" fresh_world)
     = Ok [("w1", sales_report)].
Proof.
  split; [reflexivity |]. split; [reflexivity |]. split; [reflexivity |].
  destruct (workbook_from_path names_server 1000 "Default/Sales/Report1" fresh_world
              site_projects [sales_report; twin_report] eq_refl eq_refl)
    as (_ & Hfirst & _).
  apply (Hfirst [] sales_report [twin_report] eq_refl); [constructor | reflexivity].
Defined.

(** The second workbook of the answer has a project that is not listed;
    the loop has ended before it and its project is never looked up. *)
Example later_workbooks_not_looked_at :
  workbook_path_of 1000 site_arena twin_report = Raise (KeyError "p7")
  /\ fst (get_workbook_from_path names_server 1000 "Default/Sales/Report1" fresh_world)
     = Ok [("w1", sales_report)].
Proof. split; vm_compute; reflexivity. Qed.

(** * Projects by path *)

Section ProjectPaths.
Variable limit : nat.
Variable all_projects : gmap string Project.

Lemma project_paths_fold (projects : list Project) :
  Forall (fun project => is_ok (find_project_path limit project all_projects "") = true)
         projects ->
  forall d : pydict Project, exists result,
    res_fold (fun project result =>
                match find_project_path limit project all_projects "" with
                | Ok path => Ok (dict_set path project result)
                | Raise e => Raise e
                end) projects d = Ok result
    /\ forall path,
         dict_get path result
         = match last (filter (fun project => has_path limit all_projects path project = true)
                              projects) with
           | Some project => Some project
           | None => dict_get path d
           end.
Proof.
  induction 1 as [| project rest Hpath _ IH]; intros d.
  - exists d. split; reflexivity.
  - cbn [res_fold].
    destruct (find_project_path limit project all_projects "") as [found | e] eqn:Hfound;
      [| discriminate].
    destruct (IH (dict_set found project d)) as (result & -> & Hget).
    exists result. split; [reflexivity |]. intros path. rewrite Hget, filter_cons.
    assert (Hhas : has_path limit all_projects path project = bool_decide (found = path)).
    { unfold has_path. rewrite Hfound. reflexivity. }
    rewrite Hhas.
    destruct (last (filter (fun q => has_path limit all_projects path q = true) rest))
      as [q |] eqn:Hlast.
    + destruct (decide _); [| rewrite Hlast; reflexivity].
      rewrite last_cons, Hlast. reflexivity.
    + apply last_None in Hlast. rewrite Hlast, dict_get_set.
      destruct (decide (bool_decide (found = path) = true)) as [Hhere | Hhere].
      * apply bool_decide_eq_true_1 in Hhere. subst found.
        rewrite bool_decide_eq_true_2 by reflexivity. reflexivity.
      * assert (Hne : found <> path).
        { intros ->. apply Hhere. apply bool_decide_eq_true_2. reflexivity. }
        rewrite bool_decide_eq_false_2 by congruence. reflexivity.
Qed.

End ProjectPaths.

(** X9: where the projects are listed and each of the given projects has a
    path, [get_project_paths] asks for the projects once and returns a
    mapping that has, under every path, the last of the given projects with
    that path, and nothing under a path that none of them has: a project
    whose path no later project shares is found again under its path. *)
Theorem project_paths_lookup
  (server : Server) (limit : nat) (projects listed : list Project) (w : world) :
  srv_projects server (sent w) = Ok listed ->
  Forall (fun project =>
            is_ok (find_project_path limit project (projects_by_id listed) "") = true)
         projects ->
  exists result,
    get_project_paths server limit projects w = (Ok result, send GetProjects w)
    /\ forall path,
         dict_get path result
         = last (filter (fun project =>
                           has_path limit (projects_by_id listed) path project = true)
                        projects).
Proof.
  intros Hlisted Hpaths.
  destruct (project_paths_fold limit (projects_by_id listed) projects Hpaths [])
    as (result & Hfold & Hget).
  exists result. split.
  - unfold get_project_paths, query_projects. rewrite run_bind, run_call, Hlisted.
    unfold lift. rewrite Hfold. reflexivity.
  - intros path. rewrite Hget. destruct (last _); reflexivity.
Qed.

Lemma project_paths_lookup_witness :
  srv_projects site_server [] = Ok site_projects
  /\ Forall (fun project =>
               is_ok (find_project_path 1000 project (projects_by_id site_projects) "") = true)
            [sales_project; missing_project]
  /\ exists result,
       get_project_paths site_server 1000 [sales_project; missing_project] fresh_world
       = (Ok result, send GetProjects fresh_world)
       /\ dict_get "Default/Sales" result = Some sales_project.
Proof.
  assert (Hpaths : Forall (fun project =>
                             is_ok (find_project_path 1000 project
                                      (projects_by_id site_projects) "") = true)
                          [sales_project; missing_project]).
  { repeat constructor. }
  split; [reflexivity |]. split; [exact Hpaths |].
  destruct (project_paths_lookup site_server 1000 [sales_project; missing_project]
              site_projects fresh_world eq_refl Hpaths) as (result & Hrun & Hget).
  exists result. split; [exact Hrun |]. rewrite Hget. reflexivity.
Defined.

(** * The schedule commands *)

Lemma sends_only_with_sign_in allowed (server : Server) {A} (user : string) (body : M A) :
  allowed (SignIn user) = true -> allowed SignOut = true ->
  sends_only allowed body -> sends_only allowed (with_sign_in server user body).
Proof.
  intros Hin Hout Hbody. unfold with_sign_in.
  apply sends_only_bind; [apply sends_only_call; exact Hin |].
  intros _ w. destruct (Hbody w) as (sent_now & Hsent & Hallowed).
  destruct (body w) as [r w']. simpl in *.
  exists (sent_now ++ [SignOut]). split.
  - rewrite Hsent, app_assoc. reflexivity.
  - apply Forall_app. split; [exact Hallowed | constructor; [exact Hout | constructor]].
Qed.

Lemma with_sign_in_raises (server : Server) {A} (user : string) (body : M A) :
  (forall w, is_ok (fst (body w)) = false) ->
  forall w, is_ok (fst (with_sign_in server user body w)) = false.
Proof.
  intros Hbody w. unfold with_sign_in. rewrite run_bind, run_call.
  destruct (srv_sign_in server (sent w) user); [| reflexivity].
  specialize (Hbody (send (SignIn user) w)).
  destruct (body (send (SignIn user) w)) as [r w']. exact Hbody.
Qed.

Lemma sends_only_api allowed {A} (version required : api_version) (body : M A) :
  sends_only allowed body -> sends_only allowed (api version required body).
Proof.
  intros Hbody. unfold api. destruct (version_lt version required);
    [apply sends_only_raise | exact Hbody].
Qed.

Lemma sends_only_tasks (server : Server) (baseurl : string) (version : api_version) :
  sends_only is_read (materialize_views_tasks server baseurl version).
Proof.
  unfold materialize_views_tasks, tasks_get. apply sends_only_api.
  apply sends_only_call. reflexivity.
Qed.

(** What follows the listing of the tasks in
    [remove_workbook_from_materialized_views] never returns. *)
Lemma remove_never_returns
  (server : Server) (read_lines : string -> option (list string)) (limit : nat)
  (baseurl : string) (args : Args) (w : world) :
  is_ok (fst (remove_workbook_from_materialized_views server read_lines limit baseurl args
                w)) = false.
Proof.
  unfold remove_workbook_from_materialized_views. rewrite run_bind.
  destruct (use_server_version server w) as [[version | e] w0]; [| reflexivity].
  apply with_sign_in_raises.
  intros w'. rewrite run_bind.
  destruct (materialize_views_tasks server baseurl version w') as [[tasks | e] w1];
    [| reflexivity].
  rewrite run_bind.
  match goal with |- context [?m w1] => destruct (m w1) as [[found | e] w2] end;
    reflexivity.
Qed.

(** X10: [remove_workbook_from_materialized_views] never returns and never
    removes: whatever the arguments, the files and the answers of the
    server, it ends with an exception, and the requests it has sent by then
    are the sign-in, listings and the sign-out, never the deletion of a
    task. *)
Theorem remove_from_schedule_never_removes
  (server : Server) (read_lines : string -> option (list string)) (limit : nat)
  (baseurl : string) (args : Args) :
  (forall w, exists e,
      fst (remove_workbook_from_materialized_views server read_lines limit baseurl args w)
      = Raise e)
  /\ sends_only is_read
       (remove_workbook_from_materialized_views server read_lines limit baseurl args)
  /\ sends_only (fun q => negb (is_mutation q))
       (remove_workbook_from_materialized_views server read_lines limit baseurl args).
Proof.
  assert (Hreads : sends_only is_read
            (remove_workbook_from_materialized_views server read_lines limit baseurl args)).
  { unfold remove_workbook_from_materialized_views, use_server_version.
    apply sends_only_bind; [apply sends_only_call; reflexivity |]. intros version.
    apply sends_only_with_sign_in; [reflexivity | reflexivity |].
    apply sends_only_bind; [apply sends_only_tasks |]. intros tasks.
    apply sends_only_bind; [| intros; apply sends_only_raise].
    destruct (path_list args) as [paths |]; [| destruct (name_list args) as [names |]].
    - apply sends_only_bind; [| intros; apply sends_only_ret].
      eapply sends_only_weaken;
        [| exact (proj1 (resolvers_only_ask_parts server read_lines limit paths))].
      intros q Hq. unfold is_read. rewrite Hq. reflexivity.
    - apply sends_only_bind; [| intros; apply sends_only_ret].
      eapply sends_only_weaken;
        [| exact (proj1 (proj2 (resolvers_only_ask_parts server read_lines limit names)))].
      intros q Hq. unfold is_read. rewrite Hq. reflexivity.
    - apply sends_only_ret. }
  split; [| split; [exact Hreads |]].
  - intros w.
    pose proof (remove_never_returns server read_lines limit baseurl args w) as Hfails.
    destruct (fst _) as [r | e]; [discriminate | eauto].
  - eapply sends_only_weaken; [| exact Hreads].
    intros [] Hq; try reflexivity; discriminate.
Qed.

(** X11: where the server tells its version, the sign-in succeeds and the
    listed schedules have none of the name, [add_workbooks_to_schedule] says
    so and returns [False]: it has asked for the server info, signed in,
    listed the schedules and signed out, and has asked for no task and no
    workbook. *)
Theorem add_to_unknown_schedule
  (server : Server) (read_lines : string -> option (list string)) (limit : nat)
  (baseurl : string) (args : Args) (name : string) (version : api_version)
  (schedules : list Schedule) (w : world) :
  add_to_schedule args = Some name ->
  srv_server_info server (sent w) = Ok version ->
  srv_sign_in server (sent w ++ [GetServerInfo]) (username args) = Ok tt ->
  srv_schedules server (sent w ++ [GetServerInfo; SignIn (username args)]) = Ok schedules ->
  Forall (fun schedule => schedule_name schedule <> name) schedules ->
  add_workbooks_to_schedule server read_lines limit baseurl args w
  = (Ok false,
     mkWorld (sent w ++ [GetServerInfo; SignIn (username args); GetSchedules; SignOut])
             (stdout w ++ [Line (did_not_find (Some name))]) (stdin w)).
Proof.
  intros Hname Hversion Hsign Hschedules Hnone.
  assert (Hfirst : first_named name schedules = None).
  { clear Hschedules. induction Hnone as [| schedule rest Hother _ IH]; [reflexivity |].
    simpl. rewrite bool_decide_eq_false_2 by congruence. exact IH. }
  unfold add_workbooks_to_schedule, use_server_version, with_sign_in. rewrite Hname.
  rewrite run_bind, run_call, Hversion.
  rewrite run_bind, run_call. simpl sent. rewrite Hsign.
  unfold find_schedule, all_schedules.
  rewrite !run_bind, run_call. simpl sent. rewrite <- app_assoc. simpl app.
  rewrite Hschedules, run_ret, Hfirst.
  unfold print, emit, send. simpl. rewrite <- !app_assoc. reflexivity.
Qed.

Lemma add_to_unknown_schedule_witness :
  add_workbooks_to_schedule schedule_server (fun _ => None) 1000 "tasks" (add_args "Weekly")
    fresh_world
  = (Ok false,
     mkWorld [GetServerInfo; SignIn "admin"; GetSchedules; SignOut]
             [Line (did_not_find (Some "Weekly"))] []).
Proof.
  apply (add_to_unknown_schedule schedule_server (fun _ => None) 1000 "tasks"
           (add_args "Weekly") "Weekly" (3, 8)%nat [hourly; nightly; nightly_again]
           fresh_world);
    try reflexivity.
  repeat constructor; intros Hname; discriminate Hname.
Defined.

(** X12: [handle_schedule_command] does not use the result of the
    validation.  For a command line that attaches to a schedule and names no
    workbook, the validation prints its usage line and returns [False], and
    the command goes on all the same: on a server of version 3.8 or later
    it asks for the server info, signs in, finds the schedule, lists the
    tasks, signs out and returns [True]. *)
Theorem schedule_command_ignores_validation
  (server : Server) (read_lines : string -> option (list string)) (limit : nat)
  (baseurl : string) (str_to_float : string -> option pyfloat)
  (str_to_int : string -> option Z) (interval_check : IntervalItem -> res unit)
  (show : Args -> M bool)
  (args : Args) (name : string) (version : api_version) (schedules : list Schedule)
  (schedule : Schedule) (tasks : list Task) (w : world) :
  attaches_nothing args name ->
  srv_server_info server (sent w) = Ok version ->
  version_lt version (3, 8)%nat = false ->
  srv_sign_in server (sent w ++ [GetServerInfo]) (username args) = Ok tt ->
  srv_schedules server (sent w ++ [GetServerInfo; SignIn (username args)]) = Ok schedules ->
  first_named name schedules = Some schedule ->
  srv_http_get server (sent w ++ [GetServerInfo; SignIn (username args); GetSchedules])
    (tasks_url baseurl)
  = Ok tasks ->
  fst (assert_schedule_action_options_valid args w) = Ok false
  /\ handle_schedule_command server read_lines limit baseurl str_to_float str_to_int
       interval_check show args w
     = (Ok true,
        mkWorld (sent w ++ [GetServerInfo; SignIn (username args); GetSchedules;
                            HttpGet (tasks_url baseurl); SignOut])
                (stdout w
                 ++ [Line ("Use --path-list <path-list> or --name-list <name-list> "
                           +:+ "or --workbook-path specify workbooks")])
                (stdin w)).
Proof.
  intros (Hadd & Hshow & Hremove & Hcreate & Hpaths & Hnames & Hone)
         Hversion Hnew Hsign Hschedules Hfirst Htasks.
  assert (Hvalid : assert_schedule_action_options_valid args w
                   = (Ok false,
                      emit (Line ("Use --path-list <path-list> or --name-list <name-list> "
                                  +:+ "or --workbook-path specify workbooks")) w)).
  { unfold assert_schedule_action_options_valid.
    rewrite Hadd, Hshow, Hremove, Hcreate, Hpaths, Hnames, Hone. reflexivity. }
  split; [rewrite Hvalid; reflexivity |].
  unfold handle_schedule_command. rewrite run_bind, Hvalid.
  rewrite Hshow, Hremove, Hadd.
  change (bool_decide (is_Some (@None bool))) with false.
  change (bool_decide (is_Some (Some name))) with true. cbv iota.
  unfold add_workbooks_to_schedule, use_server_version, with_sign_in.
  rewrite Hadd, Hpaths, Hnames, Hone.
  rewrite run_bind, run_call. simpl sent. rewrite Hversion.
  rewrite run_bind, run_call. simpl sent. rewrite Hsign.
  unfold find_schedule, all_schedules.
  rewrite !run_bind, run_call. simpl sent. rewrite <- app_assoc. simpl app.
  rewrite Hschedules, run_ret, Hfirst.
  unfold materialize_views_tasks, tasks_get. rewrite !run_bind, run_api, Hnew, run_call.
  simpl sent. rewrite <- !app_assoc. simpl app. fold (tasks_url baseurl). rewrite Htasks.
  unfold add_to_materialized_views_schedule.
  unfold send, emit. simpl. rewrite <- !app_assoc. reflexivity.
Qed.

Lemma schedule_command_ignores_validation_witness :
  attaches_nothing (add_args "Nightly") "Nightly"
  /\ handle_schedule_command schedule_server (fun _ => None) 1000 "tasks" dec_float dec_int
       no_interval_check shows_nothing (add_args "Nightly") fresh_world
     = (Ok true,
        mkWorld [GetServerInfo; SignIn "admin"; GetSchedules; HttpGet (tasks_url "tasks");
                 SignOut]
                [Line ("Use --path-list <path-list> or --name-list <name-list> "
                       +:+ "or --workbook-path specify workbooks")]
                []).
Proof.
  split; [repeat split |].
  exact (proj2 (schedule_command_ignores_validation schedule_server (fun _ => None) 1000
                  "tasks" dec_float dec_int no_interval_check shows_nothing
                  (add_args "Nightly") "Nightly" (3, 8)%nat [hourly; nightly; nightly_again]
                  nightly [] fresh_world ltac:(repeat split) eq_refl eq_refl eq_refl eq_refl
                  eq_refl eq_refl)).
Defined.

(** X13: behind [handle_schedule_command], the command that removes
    workbooks from their schedule always ends with an exception: where
    [--remove-from-schedule] is given and [--show-schedules] is not, the
    command never returns, whatever else is on the command line and
    whatever the server answers. *)
Theorem remove_command_never_returns
  (server : Server) (read_lines : string -> option (list string)) (limit : nat)
  (baseurl : string) (str_to_float : string -> option pyfloat)
  (str_to_int : string -> option Z) (interval_check : IntervalItem -> res unit)
  (show : Args -> M bool) (args : Args) (w : world) :
  show_schedules args = None ->
  is_Some (remove_from_schedule args) ->
  exists e,
    fst (handle_schedule_command server read_lines limit baseurl str_to_float str_to_int
           interval_check show args w) = Raise e.
Proof.
  intros Hshow Hremove. unfold handle_schedule_command. rewrite run_bind.
  assert (Hvalid : exists b w', assert_schedule_action_options_valid args w = (Ok b, w')).
  { unfold assert_schedule_action_options_valid.
    repeat match goal with
           | |- context [if ?b then _ else _] => destruct b
           end;
      try rewrite run_bind; unfold print; eauto. }
  destruct Hvalid as (b & w' & ->).
  rewrite Hshow. rewrite bool_decide_eq_false_2 by (intros [? [=]]).
  rewrite bool_decide_eq_true_2 by exact Hremove.
  pose proof (remove_never_returns server read_lines limit baseurl args w') as Hfails.
  destruct (fst _) as [r | e]; [discriminate | eauto].
Qed.

Lemma remove_command_never_returns_witness :
  exists e,
    fst (handle_schedule_command schedule_server (fun _ => None) 1000 "tasks" dec_float
           dec_int no_interval_check shows_nothing remove_args fresh_world) = Raise e.
Proof.
  apply (remove_command_never_returns schedule_server (fun _ => None) 1000 "tasks" dec_float
           dec_int no_interval_check shows_nothing remove_args fresh_world eq_refl).
  eexists. reflexivity.
Defined.

(** * Creating a schedule: the kinds and the session *)

Section Kinds.
Variable str_to_float : string -> option pyfloat.
Variable str_to_int : string -> option Z.

(** The test of the end time lets it pass exactly when both parts are
    integers in range; a text or [None] in the comparison raises. *)
Lemma end_time_refused_false (args : Args) :
  end_time_refused args = Ok false <-> end_time_in_range args.
Proof.
  unfold end_time_refused, end_time_in_range. split.
  - destruct (end_hour args) as [| h | text]; try discriminate.
    cbn -[Z.leb]. destruct (0 <=? h)%Z eqn:Hh0; cbn -[Z.leb]; [| discriminate].
    destruct (h <=? 23)%Z eqn:Hh23; cbn -[Z.leb]; [| discriminate].
    destruct (end_minute args) as [| m | text]; try discriminate.
    cbn -[Z.leb]. destruct (0 <=? m)%Z eqn:Hm0; cbn -[Z.leb]; [| discriminate].
    destruct (m <=? 59)%Z eqn:Hm59; cbn -[Z.leb]; [| discriminate].
    intros _. exists h, m. apply Z.leb_le in Hh0, Hh23, Hm0, Hm59. auto.
  - intros (h & m & -> & -> & [Hh0 Hh23] & [Hm0 Hm59]).
    apply Z.leb_le in Hh0, Hh23, Hm0, Hm59.
    cbn -[Z.leb]. rewrite Hh0, Hh23. cbn -[Z.leb]. rewrite Hm0, Hm59. reflexivity.
Qed.

Lemma verify_accepted_run (args : Args) (w : world) :
  accepted str_to_float str_to_int args ->
  verify_time_arguments str_to_float str_to_int args w = (Ok true, w).
Proof.
  intros (Hstart & Hone & Hmonth & Hhour).
  apply start_time_refused_false in Hstart.
  assert (Hend : is_Some (hourly_interval args) -> end_time_refused args = Ok false).
  { intros Hhourly. apply end_time_refused_false, Hhour, Hhourly. }
  clear Hhour. rename Hend into Hhour.
  unfold verify_time_arguments. rewrite run_bind. unfold lift. rewrite Hstart.
  unfold kinds_given in Hone.
  unfold and_then, verify_weekly, verify_monthly, verify_hourly.
  destruct (daily_interval args) as [d |], (weekly_interval args) as [days |],
    (monthly_interval args) as [text |] eqn:Htext, (hourly_interval args) as [hours |];
    try discriminate Hone; cbv iota; rewrite ?run_bind, ?run_ret, ?schedule_type_none_run;
    rewrite ?run_bind, ?run_ret.
  - reflexivity.
  - reflexivity.
  - destruct (Hmonth text eq_refl) as (day & Hday & Hlo & Hhi).
    unfold schedule_type_none, lift, py_int. cbn -[Z.leb]. rewrite Hday.
    unfold mbind, M_bind. cbn -[Z.leb].
    apply Z.leb_le in Hlo, Hhi. rewrite Hlo, Hhi. reflexivity.
  - unfold schedule_type_none, lift. simpl. rewrite Hhour by eauto. reflexivity.
Qed.

Lemma verify_true_accepted (args : Args) (w : world) :
  fst (verify_time_arguments str_to_float str_to_int args w) = Ok true ->
  accepted str_to_float str_to_int args.
Proof.
  unfold verify_time_arguments. rewrite run_bind. unfold lift.
  destruct (start_time_refused str_to_float args) as [[|] | e] eqn:Hstart;
    [discriminate | | discriminate].
  unfold and_then, verify_weekly, verify_monthly, verify_hourly, schedule_type_none, lift, py_int.
  unfold mbind, M_bind, mret, M_ret, print.
  destruct (daily_interval args) as [d |] eqn:Hd, (weekly_interval args) as [days |] eqn:Hw,
    (monthly_interval args) as [text |] eqn:Hm, (hourly_interval args) as [hours |] eqn:Hh;
    cbn -[Z.leb]; try discriminate;
    try match goal with
        | |- context [str_to_int ?t] =>
            destruct (str_to_int t) as [day |] eqn:Hday; cbn -[Z.leb]; [| discriminate];
            destruct (1 <=? day)%Z eqn:Hlo; cbn -[Z.leb]; [| discriminate];
            destruct (day <=? 31)%Z eqn:Hhi; cbn -[Z.leb]; [| discriminate]
        end;
    try match goal with
        | |- context [end_time_refused args] =>
            destruct (end_time_refused args) as [[|] | e] eqn:Hend; cbn -[Z.leb]
        end;
    try discriminate;
    intros _; unfold accepted, kinds_given; rewrite Hd, Hw, Hm, Hh;
    (split; [apply start_time_refused_false; exact Hstart |]); (split; [reflexivity |]).
  - split; [intros ? [=] | intros [? [=]]].
  - split; [intros ? [=] | intros [? [=]]].
  - split; [| intros [? [=]]].
    intros ? [= <-]. exists day. apply Z.leb_le in Hlo, Hhi. auto.
  - split; [intros ? [=] | intros _; apply end_time_refused_false; exact Hend].
Qed.

End Kinds.

(** X14: [verify_time_arguments] returns [True] exactly for the arguments
    with a start hour that [float] reads as a number from 0 to 23 and a
    start minute that it reads as a number from 0 to 59, with one and only
    one of the four interval options, a monthly interval being the text of a
    day from 1 to 31, and an hourly interval coming with an end hour that is
    an integer from 0 to 23 and an end minute that is an integer from 0 to
    59; and then it has printed nothing. *)
Theorem one_kind_of_schedule
  (str_to_float : string -> option pyfloat) (str_to_int : string -> option Z)
  (args : Args) (w : world) :
  (fst (verify_time_arguments str_to_float str_to_int args w) = Ok true
   <-> accepted str_to_float str_to_int args)
  /\ (verify_time_arguments str_to_float str_to_int args w = (Ok true, w)
      <-> accepted str_to_float str_to_int args).
Proof.
  split; split.
  - apply verify_true_accepted.
  - intros Haccepted. rewrite verify_accepted_run by exact Haccepted. reflexivity.
  - intros Hrun. apply (verify_true_accepted _ _ args w). rewrite Hrun. reflexivity.
  - apply verify_accepted_run.
Qed.

Lemma one_kind_of_schedule_witness :
  accepted dec_float dec_int (daily_args (VInt 8) (VInt 30))
  /\ verify_time_arguments dec_float dec_int (daily_args (VInt 8) (VInt 30)) fresh_world
     = (Ok true, fresh_world).
Proof.
  assert (Haccepted : accepted dec_float dec_int (daily_args (VInt 8) (VInt 30))).
  { split; [exists 8%Q, 30%Q; repeat split; discriminate |]. split; [reflexivity |].
    split; [intros text [=] | intros [hours [=]]]. }
  split; [exact Haccepted |].
  apply (proj2 (one_kind_of_schedule dec_float dec_int (daily_args (VInt 8) (VInt 30))
                  fresh_world)).
  exact Haccepted.
Defined.

(** Two kinds at once are refused, with the request to select one. *)
Example daily_and_weekly_refused :
  verify_time_arguments dec_float dec_int
    (mkArgs "admin" (Some "Both") None None None None None None None (Some ["Monday"])
            (Some true) None (VInt 0) (VInt 0) (VInt 0) (VInt 0)) fresh_world
  = (Ok false,
     mkWorld [] [Line ("Please select one of the schedule types: hourly-interval, "
                       +:+ "daily-interval, weekly-interval, monthly-interval")] []).
Proof. vm_compute. reflexivity. Qed.

Section Session.
Variable server : Server.
Variable str_to_float : string -> option pyfloat.
Variable str_to_int : string -> option Z.
Variable interval_check : IntervalItem -> res unit.

Lemma creates_one_lift {A} (args : Args) (r : res A) (k : A -> M unit) :
  (forall a, creates_one server args (k a)) -> creates_one server args (lift r ≫= k).
Proof.
  intros Hk w. rewrite run_bind. unfold lift. destruct r as [a | e]; [apply Hk | eauto].
Qed.

Lemma creates_one_create (args : Args) (item : ScheduleItem) :
  creates_one server args
    (created ← schedules_create server item;
     match created with
     | Some _ => print (created_line args item)
     | None => print (not_created args)
     end).
Proof.
  intros w. right. exists item. rewrite run_bind. unfold schedules_create.
  rewrite run_bind, run_call.
  destruct (srv_create_schedule server (sent w) item) as [created | e]; reflexivity.
Qed.

Lemma creates_one_kinds (args : Args) :
  creates_one server args (create_hourly_schedule server str_to_float str_to_int interval_check args)
  /\ creates_one server args (create_daily_schedule server str_to_int interval_check args)
  /\ creates_one server args (create_weekly_schedule server str_to_int interval_check args)
  /\ creates_one server args (create_monthly_schedule server str_to_int interval_check args).
Proof.
  unfold create_hourly_schedule, create_daily_schedule, create_weekly_schedule,
    create_monthly_schedule.
  repeat split; repeat (apply creates_one_lift; intros ?);
    match goal with
    | |- creates_one _ _ (schedules_create _ ?item ≫= _) =>
        exact (creates_one_create args item)
    end.
Qed.

Lemma create_run_cases (args : Args) (w : world) :
  let run := create_materialized_view_schedule server str_to_float str_to_int interval_check
               args w in
  let user := username args in
  (~ accepted str_to_float str_to_int args
   /\ sent (snd run) = sent w /\ fst run <> Ok true)
  \/ (accepted str_to_float str_to_int args /\ sign_in_fails server user w
      /\ sent (snd run) = sent w ++ [SignIn user] /\ fst run <> Ok true)
  \/ (accepted str_to_float str_to_int args /\ srv_sign_in server (sent w) user = Ok tt
      /\ sent (snd run) = sent w ++ [SignIn user; SignOut] /\ fst run <> Ok true)
  \/ (accepted str_to_float str_to_int args /\ srv_sign_in server (sent w) user = Ok tt
      /\ exists item,
           sent (snd run) = sent w ++ [SignIn user; CreateSchedule item; SignOut]
           /\ (fst run = Ok true
               <-> is_ok (srv_create_schedule server (sent w ++ [SignIn user]) item) = true)
           /\ (is_ok (srv_create_schedule server (sent w ++ [SignIn user]) item) = true ->
               stdout (snd run) = stdout w ++ [Line (created_line args item)])).
Proof.
  intros run user.
  destruct (fst (verify_time_arguments str_to_float str_to_int args w)) as [[|] | e] eqn:Hverify.
  - apply verify_true_accepted in Hverify.
    assert (Hrun := verify_accepted_run str_to_float str_to_int args w Hverify).
    subst run. unfold create_materialized_view_schedule. rewrite run_bind, Hrun.
    change (negb true) with false. cbv iota. unfold try_except, with_sign_in. cbv beta.
    rewrite !run_bind, run_call. fold user.
    destruct (srv_sign_in server (sent w) user) as [[] | e] eqn:Hsign.
    + set (body := match hourly_interval args with
                   | Some _ => _
                   | None => _
                   end).
      assert (Hbody : creates_one server args body).
      { destruct (creates_one_kinds args) as (Hh & Hd & Hw & Hm). subst body.
        destruct (hourly_interval args); [exact Hh |].
        destruct (daily_interval args); [exact Hd |].
        destruct (weekly_interval args); [exact Hw | exact Hm]. }
      destruct (Hbody (send (SignIn user) w)) as [(e & Hraise) | (item & Hbodyrun)].
      * right. right. left. split; [exact Hverify |]. split; [reflexivity |].
        rewrite Hraise. destruct e; simpl; split;
          try reflexivity; try discriminate; rewrite <- app_assoc; reflexivity.
      * right. right. right. split; [exact Hverify |]. split; [reflexivity |].
        exists item. rewrite Hbodyrun. simpl sent.
        destruct (srv_create_schedule server (sent w ++ [SignIn user]) item) as [created | e].
        -- simpl. rewrite <- !app_assoc.
           split; [reflexivity |]. split; [split; reflexivity |]. reflexivity.
        -- destruct e; simpl; rewrite <- ?app_assoc;
             (split; [reflexivity |]); (split; [split; discriminate | discriminate]).
    + right. left. split; [exact Hverify |]. split; [unfold sign_in_fails; rewrite Hsign; reflexivity |].
      destruct e; simpl; split; try reflexivity; discriminate.
  - left. subst run.
    destruct (create_refused_sends_nothing server str_to_float str_to_int interval_check
                args w) as [Hsent Hres]; [rewrite Hverify; discriminate |].
    split; [| auto]. intros Haccepted.
    rewrite (verify_accepted_run str_to_float str_to_int args w Haccepted) in Hverify.
    discriminate Hverify.
  - left. subst run.
    destruct (create_refused_sends_nothing server str_to_float str_to_int interval_check
                args w) as [Hsent Hres]; [rewrite Hverify; discriminate |].
    split; [| auto]. intros Haccepted.
    rewrite (verify_accepted_run str_to_float str_to_int args w Haccepted) in Hverify.
    discriminate Hverify.
Qed.

End Session.

(** X15: what a run of [create_materialized_view_schedule] sends goes by
    the arguments and the sign-in.  For arguments that the validation does
    not accept it sends nothing.  For accepted arguments it sends the
    sign-in; where the sign-in fails, that is all; where it succeeds, the
    sign-out follows, after the creation of one schedule or, when the
    session ends before that, at once: at most one schedule is asked for,
    and a session that was opened is closed whatever happens in it. *)
Theorem create_schedule_session
  (server : Server) (str_to_float : string -> option pyfloat)
  (str_to_int : string -> option Z) (interval_check : IntervalItem -> res unit)
  (args : Args) (w : world) :
  let run := create_materialized_view_schedule server str_to_float str_to_int interval_check
               args w in
  let user := username args in
  (~ accepted str_to_float str_to_int args /\ sent (snd run) = sent w)
  \/ (accepted str_to_float str_to_int args /\ sign_in_fails server user w
      /\ sent (snd run) = sent w ++ [SignIn user])
  \/ (accepted str_to_float str_to_int args /\ srv_sign_in server (sent w) user = Ok tt
      /\ (sent (snd run) = sent w ++ [SignIn user; SignOut]
          \/ exists item,
               sent (snd run) = sent w ++ [SignIn user; CreateSchedule item; SignOut])).
Proof.
  intros run user.
  destruct (create_run_cases server str_to_float str_to_int interval_check args w)
    as [(Hno & H & _) | [(Hyes & Hfail & H & _) | [(Hyes & Hin & H & _)
                                                  | (Hyes & Hin & item & H & _)]]].
  - left. auto.
  - right. left. auto.
  - right. right. auto.
  - right. right. eauto 6.
Qed.

Lemma created_is_not_the_failure (args : Args) (item : ScheduleItem) :
  created_line args item <> not_created args.
Proof.
  unfold created_line, not_created.
  destruct (si_interval_item item); intros Hsame; cbn in Hsame; discriminate Hsame.
Qed.

(** X16: [create_materialized_view_schedule] returns [True] exactly when
    the request that creates the schedule was sent and was answered without
    an error, and it has then printed the line that tells of the schedule
    created, and no other.  That line is never the one that says that the
    schedule was not created successfully: [server.schedules.create] does
    not return [None], and the branches that print it are not reached. *)
Theorem create_schedule_returns_true
  (server : Server) (str_to_float : string -> option pyfloat)
  (str_to_int : string -> option Z) (interval_check : IntervalItem -> res unit)
  (args : Args) (w : world) :
  let run := create_materialized_view_schedule server str_to_float str_to_int interval_check
               args w in
  let user := username args in
  (fst run = Ok true
   <-> exists item,
         sent (snd run) = sent w ++ [SignIn user; CreateSchedule item; SignOut]
         /\ is_ok (srv_create_schedule server (sent w ++ [SignIn user]) item) = true)
  /\ (forall item,
        sent (snd run) = sent w ++ [SignIn user; CreateSchedule item; SignOut] ->
        is_ok (srv_create_schedule server (sent w ++ [SignIn user]) item) = true ->
        stdout (snd run) = stdout w ++ [Line (created_line args item)]
        /\ created_line args item <> not_created args).
Proof.
  intros run user.
  assert (Hsame : forall item item',
            sent (snd run) = sent w ++ [SignIn user; CreateSchedule item; SignOut] ->
            sent (snd run) = sent w ++ [SignIn user; CreateSchedule item'; SignOut] ->
            item = item').
  { intros item item' H H'. rewrite H in H'. apply app_inv_head in H'. congruence. }
  destruct (create_run_cases server str_to_float str_to_int interval_check args w)
    as [(_ & H & Hno) | [(_ & _ & H & Hno) | [(_ & _ & H & Hno)
                                              | (_ & _ & item & H & Hiff & Hout)]]];
    fold run in H; try fold run in Hno; try fold run in Hiff; try fold run in Hout;
    fold user in H; try fold user in Hiff; try fold user in Hout.
  1-3: split;
    [ split; [intros Htrue; contradiction | intros (item' & H' & _)]
    | intros item' H' _ ];
    rewrite H in H'; apply (f_equal length) in H';
    rewrite ?length_app in H'; simpl in H'; lia.
  split.
  - split.
    + intros Htrue. exists item. split; [exact H | apply Hiff; exact Htrue].
    + intros (item' & H' & Hok). rewrite <- (Hsame _ _ H H') in Hok. apply Hiff. exact Hok.
  - intros item' H' Hok. rewrite <- (Hsame _ _ H H') in *. split.
    + apply Hout. exact Hok.
    + apply created_is_not_the_failure.
Qed.

Lemma create_schedule_returns_true_witness :
  let run := create_materialized_view_schedule quiet_server dec_float dec_int
               no_interval_check (daily_args (VInt 8) (VInt 30)) fresh_world in
  sent (snd run)
  = [SignIn "admin";
     CreateSchedule (mkScheduleItem "Quarter" 75 "MaterializeViews" "Parallel"
                       (Daily (mkTime 8 30)));
     SignOut]
  /\ fst run = Ok true
  /\ stdout (snd run)
     = [Line ("Daily schedule " +:+ dquote +:+ "Quarter" +:+ dquote
              +:+ " created to run at 08:30.")].
Proof.
  intros run. split; [reflexivity |]. split; [reflexivity |].
  exact (proj1 (proj2 (create_schedule_returns_true quiet_server dec_float dec_int
                         no_interval_check (daily_args (VInt 8) (VInt 30)) fresh_world)
                      (mkScheduleItem "Quarter" 75 "MaterializeViews" "Parallel"
                         (Daily (mkTime 8 30)))
                      eq_refl eq_refl)).
Defined.

(** X17: an end time that was typed on the command line is a text, and
    [verify_time_arguments] compares it with integers: for an hourly
    schedule with a start time in range and such an end hour, or an end
    hour that is an integer in range and such an end minute,
    [create_materialized_view_schedule] raises [TypeError] having sent and
    printed nothing. *)
Theorem hourly_typed_end_time
  (server : Server) (str_to_float : string -> option pyfloat)
  (str_to_int : string -> option Z) (interval_check : IntervalItem -> res unit)
  (args : Args) (w : world) :
  is_Some (hourly_interval args) ->
  daily_interval args = None -> weekly_interval args = None -> monthly_interval args = None ->
  start_time_refused str_to_float args = Ok false ->
  (exists text, end_hour args = VStr text)
  \/ (exists h text, end_hour args = VInt h /\ (0 <= h <= 23)%Z
                     /\ end_minute args = VStr text) ->
  create_materialized_view_schedule server str_to_float str_to_int interval_check args w
  = (Raise TypeError, w).
Proof.
  intros [hours Hh] Hd Hw Hm Hstart Hend.
  assert (Hrefused : end_time_refused args = Raise TypeError).
  { unfold end_time_refused.
    destruct Hend as [(text & ->) | (h & text & -> & [Hlo Hhi] & ->)]; [reflexivity |].
    cbn -[Z.leb]. apply Z.leb_le in Hlo, Hhi. rewrite Hlo, Hhi. reflexivity. }
  unfold create_materialized_view_schedule, verify_time_arguments.
  unfold and_then, verify_weekly, verify_monthly, verify_hourly, schedule_type_none, lift.
  rewrite Hstart, Hd, Hw, Hm, Hh, Hrefused. reflexivity.
Qed.

Lemma hourly_typed_end_time_witness :
  create_materialized_view_schedule quiet_server dec_float dec_int no_interval_check
    (hourly_args (VStr "23") (VStr "30")) fresh_world
  = (Raise TypeError, fresh_world).
Proof.
  apply (hourly_typed_end_time quiet_server dec_float dec_int no_interval_check
           (hourly_args (VStr "23") (VStr "30")) fresh_world);
    try reflexivity; [eexists; reflexivity | left; eexists; reflexivity].
Defined.

(** The end time that the parser supplies when none is typed, the integer
    0, passes. *)
Example hourly_default_end_time :
  fst (verify_time_arguments dec_float dec_int (hourly_args (VInt 0) (VInt 0)) fresh_world)
  = Ok true.
Proof. vm_compute. reflexivity. Qed.

(** * Answers *)

Lemma lower_answer (line letter : string) (small capital : ascii) :
  letter = String small "" ->
  lower_ascii capital = small -> lower_ascii small = small ->
  (forall c, lower_ascii c = small -> c = small \/ c = capital) ->
  lower line = letter <-> line = String small "" \/ line = String capital "".
Proof.
  intros -> Hcapital Hsmall Honly. split.
  - destruct line as [| c [| c' rest]]; simpl; try discriminate.
    intros [= Hc]. destruct (Honly c Hc) as [-> | ->]; auto.
  - intros [-> | ->]; simpl; congruence.
Qed.

Lemma lower_y (line : string) : lower line = "y" <-> line = "y" \/ line = "Y".
Proof.
  apply (lower_answer line "y" "y"%char "Y"%char); try reflexivity.
  intros c. destruct c as [[] [] [] [] [] [] [] []]; vm_compute; intros [=]; auto.
Qed.

Lemma lower_n (line : string) : lower line = "n" <-> line = "n" \/ line = "N".
Proof.
  apply (lower_answer line "n" "n"%char "N"%char); try reflexivity.
  intros c. destruct c as [[] [] [] [] [] [] [] []]; vm_compute; intros [=]; auto.
Qed.

Lemma confirm_loop_skips (message : string) (before : list string) :
  Forall (fun line => is_answer line = false) before ->
  forall rest out,
    confirm_loop message (before ++ rest) out
    = confirm_loop message rest (out ++ repeat (Prompt message) (length before)).
Proof.
  induction 1 as [| line before Hline _ IH]; intros rest out; simpl.
  - rewrite app_nil_r. reflexivity.
  - unfold is_answer in Hline. apply orb_false_iff in Hline as [-> ->].
    rewrite IH, <- app_assoc. reflexivity.
Qed.

(** X18: [confirm] reads the input up to the first line that is [y], [Y],
    [n] or [N] and no further, shows its prompt once for every line it
    reads, and returns whether that line was [y] or [Y]; where the input
    ends before such a line, it has shown the prompt once more and ends
    with [EOFError]. *)
Theorem confirm_reads_to_the_answer (message : string) (w : world) (before : list string) :
  Forall (fun line => is_answer line = false) before ->
  (forall line rest,
     stdin w = before ++ line :: rest ->
     line ∈ ["y"; "Y"; "n"; "N"] ->
     confirm message w
     = (Ok (bool_decide (line ∈ ["y"; "Y"])),
        mkWorld (sent w) (stdout w ++ repeat (Prompt message) (S (length before))) rest))
  /\ (stdin w = before ->
      confirm message w
      = (Raise EOFError,
         mkWorld (sent w) (stdout w ++ repeat (Prompt message) (S (length before))) []))
  /\ (forall line, is_answer line = true <-> line ∈ ["y"; "Y"; "n"; "N"]).
Proof.
  intros Hbefore. split; [| split].
  - intros line rest Hstdin Hline. unfold confirm.
    rewrite Hstdin, confirm_loop_skips by exact Hbefore.
    replace (repeat (Prompt message) (S (length before)))
      with (repeat (Prompt message) (length before) ++ [Prompt message])
      by (rewrite <- repeat_cons; reflexivity).
    rewrite app_assoc. simpl confirm_loop.
    repeat (apply elem_of_cons in Hline as [-> | Hline]); try (vm_compute; reflexivity).
    inversion Hline.
  - intros Hstdin. unfold confirm.
    rewrite <- (app_nil_r (stdin w)), Hstdin, confirm_loop_skips by exact Hbefore.
    replace (repeat (Prompt message) (S (length before)))
      with (repeat (Prompt message) (length before) ++ [Prompt message])
      by (rewrite <- repeat_cons; reflexivity).
    rewrite app_assoc. reflexivity.
  - intros line. unfold is_answer.
    rewrite orb_true_iff, !bool_decide_eq_true, lower_y, lower_n.
    rewrite !elem_of_cons, elem_of_nil. tauto.
Qed.

Lemma confirm_reads_to_the_answer_witness :
  confirm "Replace [Y/N]? " (typing ["maybe"; ""; "N"; "y"])
  = (Ok false,
     mkWorld [] [Prompt "Replace [Y/N]? "; Prompt "Replace [Y/N]? "; Prompt "Replace [Y/N]? "]
             ["y"]).
Proof.
  assert (Hbefore : Forall (fun line => is_answer line = false) ["maybe"; ""]).
  { repeat constructor. }
  destruct (confirm_reads_to_the_answer "Replace [Y/N]? " (typing ["maybe"; ""; "N"; "y"])
              ["maybe"; ""] Hbefore) as (Hanswer & _ & _).
  apply (Hanswer "N" ["y"] eq_refl). apply list_elem_of_In. simpl. auto.
Defined.

(** * Workbooks that are on the schedule already *)

(** X19: attaching is idempotent.  Where every task of the listing has a
    target and every workbook asked for has its task on the schedule
    already, [add_to_materialized_views_schedule] sends nothing and asks
    nothing: it prints one line for each workbook and an empty line, and no
    table, since it has added none. *)
Theorem attach_again_sends_nothing
  (server : Server) (schedule : Schedule) (tasks : list Task)
  (workbook_id_to_workbook : pydict Workbook) (w : world) :
  Forall (fun task => is_Some (task_target task)) tasks ->
  Forall (on_schedule tasks schedule) (dict_values workbook_id_to_workbook) ->
  add_to_materialized_views_schedule server (Some tasks) (Some schedule)
    (Some workbook_id_to_workbook) w
  = (Ok tt,
     mkWorld (sent w)
             (stdout w ++ already_lines tasks (dict_values workbook_id_to_workbook)
              ++ [Line newline])
             (stdin w)).
Proof.
  intros Htargets Hon.
  destruct (index_tasks_lookup tasks Htargets ∅) as (index & Hindex & Hlookup).
  assert (Hexisting : forall workbook, index !! wb_id workbook = existing_task tasks workbook).
  { intros workbook. rewrite Hlookup. unfold existing_task.
    destruct (last _); [reflexivity | apply lookup_empty]. }
  unfold add_to_materialized_views_schedule. rewrite run_bind. unfold lift. rewrite Hindex.
  rewrite run_bind, (attach_on_schedule_run server schedule tasks index Hexisting _ Hon).
  cbn [fst snd]. change (0 <? 0)%nat with false. cbv iota.
  rewrite run_bind, run_ret. unfold print, emit. cbn [sent stdout stdin].
  rewrite <- app_assoc. reflexivity.
Qed.

Lemma attach_again_sends_nothing_witness :
  add_to_materialized_views_schedule quiet_server (Some [task_on "t1" sales_report nightly])
    (Some nightly) (Some [("w1", sales_report)]) fresh_world
  = (Ok tt,
     mkWorld [] [already_line sales_report (task_on "t1" sales_report nightly); Line newline] []).
Proof.
  apply (attach_again_sends_nothing quiet_server nightly [task_on "t1" sales_report nightly]
           [("w1", sales_report)] fresh_world).
  - repeat constructor. eexists. reflexivity.
  - repeat constructor. exists (task_on "t1" sales_report nightly). split; reflexivity.
Defined.

(** * A workbook without task, and a replacement that is declined *)

Lemma confirm_declined_run (message : string) (w : world) (skipped : list string)
  (line : string) (rest : list string) :
  Forall (fun line => is_answer line = false) skipped ->
  stdin w = skipped ++ line :: rest ->
  line ∈ ["n"; "N"] ->
  confirm message w
  = (Ok false,
     mkWorld (sent w) (stdout w ++ repeat (Prompt message) (S (length skipped))) rest).
Proof.
  intros Hskipped Hstdin Hline. unfold confirm.
  rewrite Hstdin, confirm_loop_skips by exact Hskipped.
  replace (repeat (Prompt message) (S (length skipped)))
    with (repeat (Prompt message) (length skipped) ++ [Prompt message])
    by (rewrite <- repeat_cons; reflexivity).
  rewrite app_assoc. simpl confirm_loop.
  repeat (apply elem_of_cons in Hline as [-> | Hline]); try (vm_compute; reflexivity).
  inversion Hline.
Qed.

(** X22: a workbook without task is added.  Over a listing whose tasks all
    have a target, when the last of the workbooks asked for has no task, the
    others being on the schedule already, and the server accepts the
    request, [add_to_materialized_views_schedule] sends the one request
    that adds the workbook to the schedule and prints the table, with a row
    for every workbook under the name of the schedule, and an empty line. *)
Theorem attach_workbook_without_task
  (server : Server) (tasks : list Task) (schedule : Schedule)
  (workbook_id_to_workbook : pydict Workbook) (w : world)
  (before : list Workbook) (workbook : Workbook) :
  Forall (fun task => is_Some (task_target task)) tasks ->
  dict_values workbook_id_to_workbook = before ++ [workbook] ->
  Forall (on_schedule tasks schedule) before ->
  existing_task tasks workbook = None ->
  srv_add_to_schedule server (sent w) (schedule_id schedule) workbook "materializeViews"
  = Ok tt ->
  add_to_materialized_views_schedule server (Some tasks) (Some schedule)
    (Some workbook_id_to_workbook) w
  = (Ok tt,
     mkWorld (sent w ++ [add_request schedule workbook])
             (stdout w ++ already_lines tasks before
              ++ [Table ["Project/Workbook"; "Added to or Remain on Schedule"]
                        (remain_rows schedule (before ++ [workbook]));
                  Line newline])
             (stdin w)).
Proof.
  intros Htargets Hvalues Hbefore Hnone Hadd.
  destruct (index_tasks_existing tasks Htargets) as (index & Hindex & Hexisting).
  unfold add_to_materialized_views_schedule. rewrite run_bind. unfold lift. rewrite Hindex.
  rewrite run_bind, Hvalues, for_each_app.
  rewrite (attach_on_schedule_run server schedule tasks index Hexisting _ Hbefore).
  cbn [for_each fst snd app]. rewrite !run_bind.
  unfold attach_workbook at 1. rewrite Hexisting, Hnone.
  unfold try_except, add_and_report, schedules_add_to_schedule.
  rewrite run_bind, run_call. cbn [sent]. rewrite Hadd.
  unfold print_table, print, emit, send, remain_rows, add_request, mret, M_ret, mbind, M_bind.
  cbn [fst snd sent stdout stdin Nat.ltb Nat.leb]. rewrite map_app, <- !app_assoc.
  reflexivity.
Qed.

Lemma attach_workbook_without_task_witness :
  add_to_materialized_views_schedule quiet_server (Some [task_on "t1" sales_report nightly])
    (Some nightly) (Some two_workbooks) fresh_world
  = (Ok tt,
     mkWorld [AddToSchedule "s1" other_report "materializeViews"]
             [already_line sales_report (task_on "t1" sales_report nightly);
              Table ["Project/Workbook"; "Added to or Remain on Schedule"]
                    [["Sales/Report1"; "Nightly"]; ["Sales/Report2"; "Nightly"]];
              Line newline]
             []).
Proof.
  apply (attach_workbook_without_task quiet_server [task_on "t1" sales_report nightly]
           nightly two_workbooks fresh_world [sales_report] other_report).
  - repeat constructor. eexists. reflexivity.
  - reflexivity.
  - repeat constructor. exists (task_on "t1" sales_report nightly). split; reflexivity.
  - reflexivity.
  - reflexivity.
Defined.

(** X23: a replacement that the user declines changes nothing.  Over a
    listing whose tasks all have a target, when the last of the workbooks
    asked for is on another schedule, the others being on the schedule
    already, and the first answer among the lines of the input is [n] or
    [N], [add_to_materialized_views_schedule] sends nothing: it prints the
    line with the name of the current schedule, asks once for each line
    that it reads, and prints an empty line and no table. *)
Theorem attach_declined_replacement
  (server : Server) (tasks : list Task) (schedule : Schedule)
  (workbook_id_to_workbook : pydict Workbook) (w : world)
  (before : list Workbook) (workbook : Workbook) (task : Task)
  (skipped : list string) (line : string) (rest : list string) :
  Forall (fun task => is_Some (task_target task)) tasks ->
  dict_values workbook_id_to_workbook = before ++ [workbook] ->
  Forall (on_schedule tasks schedule) before ->
  existing_task tasks workbook = Some task ->
  schedule_id (task_schedule_item task) <> schedule_id schedule ->
  stdin w = skipped ++ line :: rest ->
  Forall (fun line => is_answer line = false) skipped ->
  line ∈ ["n"; "N"] ->
  add_to_materialized_views_schedule server (Some tasks) (Some schedule)
    (Some workbook_id_to_workbook) w
  = (Ok tt,
     mkWorld (sent w)
             (stdout w ++ already_lines tasks before
              ++ already_line workbook task
                 :: repeat (Prompt (replace_question schedule)) (S (length skipped))
              ++ [Line newline])
             rest).
Proof.
  intros Htargets Hvalues Hbefore Htask Hother Hstdin Hskipped Hline.
  destruct (index_tasks_existing tasks Htargets) as (index & Hindex & Hexisting).
  unfold add_to_materialized_views_schedule. rewrite run_bind. unfold lift. rewrite Hindex.
  rewrite run_bind, Hvalues, for_each_app.
  rewrite (attach_on_schedule_run server schedule tasks index Hexisting _ Hbefore).
  cbn [for_each fst snd app]. rewrite !run_bind.
  unfold attach_workbook at 1. rewrite Hexisting, Htask.
  unfold try_except. rewrite run_bind. unfold print at 1. cbv beta iota.
  rewrite bool_decide_eq_false_2 by exact Hother. rewrite run_bind.
  fold (replace_question schedule).
  rewrite (confirm_declined_run (replace_question schedule) _ skipped line rest Hskipped);
    [| exact Hstdin | exact Hline].
  change (negb false) with true. cbv iota. rewrite !run_ret.
  cbn [fst snd]. change (0 <? 0)%nat with false. cbv iota.
  rewrite run_bind, run_ret. unfold print, emit, already_line.
  cbn [sent stdout stdin]. rewrite <- !app_assoc. reflexivity.
Qed.

Lemma attach_declined_replacement_witness :
  add_to_materialized_views_schedule quiet_server (Some [task_on "t1" sales_report nightly])
    (Some hourly) (Some [("w1", sales_report)]) (typing ["maybe"; "N"; "y"])
  = (Ok tt,
     mkWorld []
             [already_line sales_report (task_on "t1" sales_report nightly);
              Prompt (replace_question hourly); Prompt (replace_question hourly);
              Line newline]
             ["y"]).
Proof.
  apply (attach_declined_replacement quiet_server [task_on "t1" sales_report nightly]
           hourly [("w1", sales_report)] (typing ["maybe"; "N"; "y"]) [] sales_report
           (task_on "t1" sales_report nightly) ["maybe"] "N" ["y"]).
  - repeat constructor. eexists. reflexivity.
  - reflexivity.
  - constructor.
  - reflexivity.
  - discriminate.
  - reflexivity.
  - repeat constructor.
  - apply list_elem_of_In. simpl. auto.
Defined.

(** * The workbooks that have materialized views enabled *)

Lemma count_enabled_from (site_name : string) (n : nat) (workbooks : list ListedWorkbook) :
  length workbooks <= n ->
  forall st,
    let st' := foldl (fun st workbook =>
                        if lw_enabled workbook
                        then ((fst st + n)%nat,
                              snd st ++ [[site_name; workbook_label (lw_workbook workbook)]])
                        else st)
                     st workbooks in
    snd st' = snd st ++ map (fun workbook => [site_name; workbook_label (lw_workbook workbook)])
                            (filter (fun workbook => lw_enabled workbook = true) workbooks)
    /\ fst st <= fst st'
    /\ (fst st' = 0%nat <-> fst st = 0%nat /\ snd st' = snd st).
Proof.
  induction workbooks as [| workbook rest IH]; intros Hn st; simpl.
  - rewrite app_nil_r. repeat split; auto. tauto.
  - simpl in Hn. rewrite filter_cons.
    destruct (lw_enabled workbook) eqn:Henabled.
    + rewrite decide_True by reflexivity.
      destruct (IH ltac:(lia)
                  ((fst st + n)%nat,
                   snd st ++ [[site_name; workbook_label (lw_workbook workbook)]]))
        as (Hrows & Hle & Hzero).
      cbn [fst snd] in Hrows, Hle, Hzero. cbn zeta.
      split; [rewrite Hrows, <- app_assoc; reflexivity |].
      split; [lia |]. split; [intros Hz; lia |].
      intros [Hz Hsame]. rewrite Hrows, <- app_assoc in Hsame.
      apply (f_equal length) in Hsame. rewrite !length_app in Hsame. simpl in Hsame. lia.
    + rewrite decide_False by discriminate. apply IH. lia.
Qed.

Lemma count_enabled_sites (sites : pydict (list ListedWorkbook)) :
  forall st,
    let st' := foldl (fun st entry => count_enabled (fst entry) (snd entry) st) st sites in
    snd st' = snd st ++ enabled_rows sites
    /\ fst st <= fst st'
    /\ (fst st' = 0%nat <-> fst st = 0%nat /\ snd st' = snd st).
Proof.
  induction sites as [| [site_name workbooks] rest IH]; intros st; simpl.
  - rewrite app_nil_r. repeat split; auto. tauto.
  - destruct (count_enabled_from site_name (length workbooks) workbooks (le_n _) st)
      as (Hrows & Hle & Hzero).
    fold (count_enabled site_name workbooks st) in Hrows, Hle, Hzero.
    destruct (IH (count_enabled site_name workbooks st)) as (Hrows' & Hle' & Hzero').
    cbn zeta in *. unfold enabled_rows. simpl flat_map.
    fold (enabled_rows rest). split; [rewrite Hrows', Hrows, <- app_assoc; reflexivity |].
    split; [lia |]. rewrite Hzero', Hzero. split.
    + intros [[Hz Hsame] Hsame']. split; [exact Hz | congruence].
    + intros [Hz Hsame]. rewrite Hrows', Hrows, <- app_assoc in Hsame.
      assert (Hempty : map (fun workbook => [site_name; workbook_label (lw_workbook workbook)])
                           (filter (fun workbook => lw_enabled workbook = true) workbooks)
                       ++ enabled_rows rest = []).
      { apply (f_equal length) in Hsame. rewrite !length_app in Hsame.
        apply length_zero_iff_nil. rewrite length_app. lia. }
      apply app_eq_nil in Hempty as [Hhere Hrest].
      rewrite Hrows, Hhere, app_nil_r. split; [split; [exact Hz | reflexivity] |].
      rewrite Hrows', Hrest, app_nil_r, Hrows, Hhere, app_nil_r. reflexivity.
Qed.

(** X20: [print_materialized_views_enabled_workbooks] prints the header
    and a table with one row for each workbook that is enabled, site by
    site, and the header with [None] and no table where no workbook is
    enabled.  Its counter adds the number of all the workbooks of the site
    for each enabled one; it is zero exactly when there is no row, which is
    all that it is used for. *)
Theorem enabled_workbooks_table
  (site_name_to_workbooks : pydict (list ListedWorkbook)) (w : world) :
  print_materialized_views_enabled_workbooks site_name_to_workbooks w
  = (Ok tt,
     mkWorld (sent w)
             (stdout w
              ++ match enabled_rows site_name_to_workbooks with
                 | [] => [Line (enabled_header +:+ " None")]
                 | rows => [Line enabled_header; Table ["Site"; "Project/Workbook"] rows]
                 end)
             (stdin w)).
Proof.
  unfold print_materialized_views_enabled_workbooks.
  destruct site_name_to_workbooks as [| entry rest] eqn:Hsites; [reflexivity |].
  rewrite <- Hsites. replace (length site_name_to_workbooks =? 0)%nat with false
    by (rewrite Hsites; reflexivity).
  clear Hsites entry rest.
  destruct (count_enabled_sites site_name_to_workbooks (0%nat, [])) as (Hrows & _ & Hzero).
  cbn zeta in Hrows, Hzero. cbn [fst snd] in Hrows, Hzero. rewrite app_nil_l in Hrows.
  set (st := foldl _ _ _) in *. cbv zeta.
  destruct (fst st =? 0)%nat eqn:Hcount.
  - apply Nat.eqb_eq in Hcount. apply Hzero in Hcount as [_ Hnone].
    rewrite <- Hrows, Hnone. reflexivity.
  - apply Nat.eqb_neq in Hcount.
    destruct (enabled_rows site_name_to_workbooks) as [| row rows] eqn:Hall.
    + exfalso. apply Hcount. apply Hzero. split; [reflexivity | exact Hrows].
    + rewrite Hrows. unfold print, print_table, emit.
      rewrite run_bind. cbn [sent stdout stdin]. rewrite <- app_assoc. reflexivity.
Qed.

(** Two of the three workbooks of the one site are enabled: the counter is
    at six and the table has two rows. *)
Example two_sites_counted :
  fst (foldl (fun st entry => count_enabled (fst entry) (snd entry) st) (0%nat, []) two_sites)
  = 6%nat
  /\ enabled_rows two_sites = [["Main"; "Sales/Report1"]; ["Main"; "Sales/Report1"]].
Proof. split; vm_compute; reflexivity. Qed.

(** * Runs without input *)

Lemma unattended_quiet allowed {A} (m : M A) :
  (forall w, stdin (snd (m w)) = stdin w /\ sent (snd (m w)) = sent w) ->
  unattended allowed m.
Proof.
  intros Hm w Hin. destruct (Hm w) as [Hstdin Hsent]. split; [congruence |].
  exists []. rewrite app_nil_r. split; [exact Hsent | constructor].
Qed.

Lemma unattended_ret allowed {A} (a : A) : unattended allowed (mret a : M A).
Proof. apply unattended_quiet. intros w. split; reflexivity. Qed.

Lemma unattended_raise allowed {A} (e : exn) : unattended allowed (raise (A:=A) e).
Proof. apply unattended_quiet. intros w. split; reflexivity. Qed.

Lemma unattended_lift allowed {A} (r : res A) : unattended allowed (lift r).
Proof. apply unattended_quiet. intros w. split; reflexivity. Qed.

Lemma unattended_print allowed text : unattended allowed (print text).
Proof. apply unattended_quiet. intros w. split; reflexivity. Qed.

Lemma unattended_print_table allowed names rows :
  unattended allowed (print_table names rows).
Proof. apply unattended_quiet. intros w. split; reflexivity. Qed.

Lemma unattended_call allowed {A} (answer : list request -> res A) (q : request) :
  allowed q = true -> unattended allowed (call answer q).
Proof.
  intros Hq w Hin. split; [exact Hin |].
  exists [q]. split; [reflexivity | constructor; [exact Hq | constructor]].
Qed.

Lemma unattended_bind allowed {A B} (m : M A) (k : A -> M B) :
  unattended allowed m -> (forall a, unattended allowed (k a)) ->
  unattended allowed (m ≫= k).
Proof.
  intros Hm Hk w Hin. rewrite run_bind.
  destruct (Hm w Hin) as (Hin' & first & Hfirst & Hallowed).
  destruct (m w) as [[a | e] w']; simpl in *.
  - destruct (Hk a w' Hin') as (Hin'' & second & Hsecond & Hallowed').
    split; [exact Hin'' |]. exists (first ++ second). split.
    + rewrite Hsecond, Hfirst, app_assoc. reflexivity.
    + apply Forall_app. auto.
  - split; [exact Hin' |]. exists first. auto.
Qed.

Lemma unattended_try allowed {A} (body : M A) (handler : string -> string -> M A) :
  unattended allowed body -> (forall s d, unattended allowed (handler s d)) ->
  unattended allowed (try_except body handler).
Proof.
  intros Hbody Hhandler w Hin. unfold try_except.
  destruct (Hbody w Hin) as (Hin' & first & Hfirst & Hallowed).
  destruct (body w) as [[a | e] w']; simpl in *; [eauto |].
  destruct e; simpl; eauto.
  destruct (Hhandler summary detail w' Hin') as (Hin'' & second & Hsecond & Hallowed').
  split; [exact Hin'' |]. exists (first ++ second). split.
  - rewrite Hsecond, Hfirst, app_assoc. reflexivity.
  - apply Forall_app. auto.
Qed.

Lemma unattended_for_each allowed {A S} (xs : list A) (body : A -> S -> M S) :
  (forall x acc, unattended allowed (body x acc)) ->
  forall acc, unattended allowed (for_each xs body acc).
Proof.
  intros Hbody. induction xs as [| x rest IH]; intros acc; simpl.
  - apply unattended_ret.
  - apply unattended_bind; [apply Hbody | exact IH].
Qed.

Lemma unattended_with_sign_in allowed (server : Server) {A} (user : string) (body : M A) :
  allowed (SignIn user) = true -> allowed SignOut = true ->
  unattended allowed body -> unattended allowed (with_sign_in server user body).
Proof.
  intros Hsign Hout Hbody. unfold with_sign_in.
  apply unattended_bind; [apply unattended_call; exact Hsign |].
  intros _ w Hin. destruct (Hbody w Hin) as (Hin' & sent_now & Hsent & Hallowed).
  destruct (body w) as [r w']. simpl in *. split; [exact Hin' |].
  exists (sent_now ++ [SignOut]). split.
  - rewrite Hsent, app_assoc. reflexivity.
  - apply Forall_app. split; [exact Hallowed | constructor; [exact Hout | constructor]].
Qed.

(** At the end of the input, [confirm] raises, and what would follow the
    answer does not happen. *)
Lemma unattended_confirm allowed {B} (message : string) (k : bool -> M B) :
  unattended allowed (confirm message ≫= k).
Proof.
  intros w Hin. rewrite run_bind. unfold confirm. rewrite Hin. simpl.
  split; [reflexivity |]. exists []. rewrite app_nil_r. split; [reflexivity | constructor].
Qed.

Lemma unattended_api allowed {A} (version required : api_version) (body : M A) :
  unattended allowed body -> unattended allowed (api version required body).
Proof.
  intros Hbody. unfold api. destruct (version_lt version required);
    [apply unattended_raise | exact Hbody].
Qed.

Ltac unattended :=
  repeat first
    [ apply unattended_ret
    | apply unattended_raise
    | apply unattended_lift
    | apply unattended_print
    | apply unattended_print_table
    | apply unattended_confirm
    | apply unattended_api
    | apply unattended_call; reflexivity
    | apply unattended_for_each
    | apply unattended_bind
    | apply unattended_try
    | match goal with
      | |- forall _, _ => intro
      | |- unattended _ (if ?b then _ else _) => destruct b
      | |- unattended _ (let '(_, _) := ?p in _) => destruct p
      | |- unattended _ (match ?x with _ => _ end) => destruct x
      end ].

Lemma unattended_attach (server : Server) (tasks : option (list Task))
  (schedule : option Schedule) (workbook_id_to_workbook : option (pydict Workbook)) :
  unattended (fun q => negb (is_deletion q))
    (add_to_materialized_views_schedule server tasks schedule workbook_id_to_workbook).
Proof.
  unfold add_to_materialized_views_schedule, attach_workbook, add_and_report,
    schedules_add_to_schedule.
  unattended.
Qed.

(** X21: from a world whose input is at its end, whatever the arguments,
    the files and the answers of the server,
    [add_to_materialized_views_schedule] and [add_workbooks_to_schedule]
    send no request that deletes: a workbook that is on another schedule
    stays there. *)
Theorem no_answer_no_deletion
  (server : Server) (read_lines : string -> option (list string)) (limit : nat)
  (baseurl : string) (args : Args) (tasks : option (list Task)) (schedule : option Schedule)
  (workbook_id_to_workbook : option (pydict Workbook)) (w : world) :
  stdin w = [] ->
  (exists sent_now,
      sent (snd (add_to_materialized_views_schedule server tasks schedule
                   workbook_id_to_workbook w)) = sent w ++ sent_now
      /\ Forall (fun q => is_deletion q = false) sent_now)
  /\ (exists sent_now,
        sent (snd (add_workbooks_to_schedule server read_lines limit baseurl args w))
        = sent w ++ sent_now
        /\ Forall (fun q => is_deletion q = false) sent_now).
Proof.
  intros Hin. split.
  - destruct (unattended_attach server tasks schedule workbook_id_to_workbook w Hin)
      as (_ & sent_now & Hsent & Hallowed).
    exists sent_now. split; [exact Hsent |].
    eapply Forall_impl; [exact Hallowed |]. intros q. apply negb_true_iff.
  - assert (Hadd : unattended (fun q => negb (is_deletion q))
                     (add_workbooks_to_schedule server read_lines limit baseurl args)).
    { unfold add_workbooks_to_schedule, use_server_version.
      apply unattended_bind; [unattended |]. intros version.
      apply unattended_with_sign_in; [reflexivity | reflexivity |].
      unfold find_schedule, all_schedules, materialize_views_tasks, tasks_get.
      apply unattended_bind; [unattended |]. intros [found |]; [| unattended].
      apply unattended_bind; [unattended |]. intros listed.
      apply unattended_bind; [| intros; apply unattended_bind;
                                 [apply unattended_attach | unattended]].
      unfold get_workbooks_from_paths, get_workbooks_from_names, get_workbook_from_path,
        query_projects, parse_workbook_path, sanitize_workbook_list, resolve_name,
        resolve_by_name, query_workbooks.
      unattended. }
    destruct (Hadd w Hin) as (_ & sent_now & Hsent & Hallowed).
    exists sent_now. split; [exact Hsent |].
    eapply Forall_impl; [exact Hallowed |]. intros q. apply negb_true_iff.
Qed.

Lemma no_answer_no_deletion_witness :
  add_workbooks_to_schedule busy_server (fun _ => None) 1000 "tasks"
    (add_one_args "Nightly" "Default/Sales/Report1") fresh_world
  = (Raise EOFError,
     mkWorld [GetServerInfo; SignIn "admin"; GetSchedules; HttpGet (tasks_url "tasks");
              GetProjects; GetWorkbooks "Report1"; SignOut]
             [already_line sales_report (task_on "t1" sales_report hourly);
              Prompt "Do you want to replace it with Nightly [Y/N]? "] [])
  /\ exists sent_now,
       sent (snd (add_workbooks_to_schedule busy_server (fun _ => None) 1000 "tasks"
                    (add_one_args "Nightly" "Default/Sales/Report1") fresh_world))
       = sent fresh_world ++ sent_now
       /\ Forall (fun q => is_deletion q = false) sent_now.
Proof.
  split; [vm_compute; reflexivity |].
  exact (proj2 (no_answer_no_deletion busy_server (fun _ => None) 1000 "tasks"
                  (add_one_args "Nightly" "Default/Sales/Report1") None None None
                  fresh_world eq_refl)).
Defined.
